(** * CET4 exam crawler ([progaomme.py]): a shallow embedding and its properties

    The development follows the file top-down: Python strings and the
    runtime pieces the crawler leans on ([str.strip], [str(int)], [re.sub]
    with the one pattern of [_process_fill_blank], the text extraction
    of the HTML parser), then the Selenium objects as the crawler observes
    them, the logger and the file system as explicit state, and last the
    methods of [CET4Spider] in a state-and-exception monad. *)

From Stdlib Require Import ZArith NArith String Ascii Lia Bool DecimalString.
From Stdlib Require Import DecimalPos DecimalZ.
From stdpp Require Import gmap list.

Open Scope N_scope.
Open Scope list_scope.

(** ** Python strings *)

(** A Python [str] is a sequence of Unicode code points. *)
Definition char := N.
Definition str := list char.

Module Utf8.

(** Source literals are typed as UTF-8 text; [decode] turns the bytes of a
    literal into its code points. *)
Fixpoint decode (bs : list N) : str :=
  match bs with
  | [] => []
  | b :: r =>
      if b <? 128 then b :: decode r
      else if b <? 224 then
        match r with
        | b1 :: r1 => ((b - 192) * 64 + (b1 - 128)) :: decode r1
        | _ => []
        end
      else if b <? 240 then
        match r with
        | b1 :: b2 :: r2 =>
            ((b - 224) * 4096 + (b1 - 128) * 64 + (b2 - 128)) :: decode r2
        | _ => []
        end
      else
        match r with
        | b1 :: b2 :: b3 :: r3 =>
            ((b - 240) * 262144 + (b1 - 128) * 4096 + (b2 - 128) * 64 + (b3 - 128))
              :: decode r3
        | _ => []
        end
  end.

Definition bytes (s : string) : list N := map N_of_ascii (list_ascii_of_string s).

End Utf8.

(** [u "..."] is the Python literal ["..."]. *)
Definition u (s : string) : str := Utf8.decode (Utf8.bytes s).

Definition nl : str := [10].          (* "\n" *)
Definition dq : str := [34].          (* the double quote *)

(** [sep.join(xs)] *)
Fixpoint join (sep : str) (xs : list str) : str :=
  match xs with
  | [] => []
  | [x] => x
  | x :: rest => x ++ sep ++ join sep rest
  end.

(** [s * n] *)
Fixpoint repeat_str (s : str) (n : nat) : str :=
  match n with
  | O => []
  | S k => s ++ repeat_str s k
  end.

(** [str.isspace] for one code point: the table of CPython's
    [_PyUnicode_IsWhitespace]. *)
Definition isspace (c : char) : bool :=
  ((9 <=? c) && (c <=? 13)) || ((28 <=? c) && (c <=? 32))
  || (c =? 133) || (c =? 160) || (c =? 5760)
  || ((8192 <=? c) && (c <=? 8202))
  || (c =? 8232) || (c =? 8233) || (c =? 8239) || (c =? 8287) || (c =? 12288).

Fixpoint lstrip (s : str) : str :=
  match s with
  | [] => []
  | c :: r => if isspace c then lstrip r else s
  end.

Definition rstrip (s : str) : str := rev (lstrip (rev s)).

(** [s.strip()] *)
Definition strip (s : str) : str := rstrip (lstrip s).

(** [len(s)] *)
Definition len (s : str) : Z := Z.of_nat (length s).

(** [str(n)] for an [int]: decimal digits, a leading minus sign for
    negative values. *)
Definition str_of_int (n : Z) : str :=
  Utf8.bytes (NilZero.string_of_int (Z.to_int n)).

(** Is [p] a prefix of [s]; if so, what follows it. *)
Fixpoint strip_prefix (p s : str) : option str :=
  match p, s with
  | [], _ => Some s
  | a :: p', b :: s' => if a =? b then strip_prefix p' s' else None
  | _ :: _, [] => None
  end.




(** The longest prefix of [s] whose code points satisfy [f], and the rest. *)
Fixpoint span (f : char -> bool) (s : str) : str * str :=
  match s with
  | [] => ([], [])
  | c :: r =>
      if f c then let '(a, b) := span f r in (c :: a, b) else ([], s)
  end.

(** ** The Unicode database of the interpreter

    [\d] in a [str] pattern matches every code point of category Nd; the
    table belongs to the interpreter. It is a parameter, known on ASCII. *)
Definition ascii_digit (c : char) : bool := (48 <=? c) && (c <=? 57).

Class UnicodeDB := {
  isdecimal : char -> bool;
  isdecimal_ascii : forall c, c < 128 -> isdecimal c = ascii_digit c;
  isdecimal_not_space : forall c, isdecimal c = true -> isspace c = false
}.

(** The smallest table: the ten ASCII digits. *)
Definition ascii_db : UnicodeDB.
Proof.
  refine {| isdecimal := fun c => (c <? 128) && ascii_digit c |}.
  - intros c Hc. apply N.ltb_lt in Hc. rewrite Hc. reflexivity.
  - intros c Hc. apply andb_prop in Hc as [_ Hc]. unfold ascii_digit in Hc.
    apply andb_prop in Hc as [Hlo Hhi].
    apply N.leb_le in Hlo. apply N.leb_le in Hhi.
    assert (Hc : c = 48 \/ c = 49 \/ c = 50 \/ c = 51 \/ c = 52 \/ c = 53
                 \/ c = 54 \/ c = 55 \/ c = 56 \/ c = 57) by lia.
    repeat destruct Hc as [->|Hc]; try reflexivity. subst c. reflexivity.
Defined.

(** ** [re.sub] with the pattern of [_process_fill_blank]

    The pattern, with [Q] for the double quote:
    [<span class=Qmx-1 inline-blockQ><span class=Qtext-gray-500Q>(\d+)\.</span><input[^>]+></span>]
    and the replacement template is [\1._ ]. *)

Definition pat_open : str :=
  u "<span class=" ++ dq ++ u "mx-1 inline-block" ++ dq ++ u "><span class="
    ++ dq ++ u "text-gray-500" ++ dq ++ u ">".
Definition pat_mid : str := u ".</span><input".
Definition pat_close : str := u "></span>".

Definition not_gt (c : char) : bool := negb (c =? 62).

Section Regex.
Context `{UnicodeDB}.

(** A match of the pattern at the start of [s]: group 1 and what follows
    the match. Both repetitions are greedy, and neither can give a code
    point back: the one after [\d+] must be a full stop, the one after
    [[^>]+] must be [>]. *)
Definition re_match (s : str) : option (str * str) :=
  s1 ← strip_prefix pat_open s;
  let '(d, s2) := span isdecimal s1 in
  match d with
  | [] => None
  | _ =>
      s3 ← strip_prefix pat_mid s2;
      let '(a, s4) := span not_gt s3 in
      match a with
      | [] => None
      | _ => s5 ← strip_prefix pat_close s4; Some (d, s5)
      end
  end.

(** [\1._ ] *)
Definition replacement (group1 : str) : str := group1 ++ u "._ ".

(** [re.sub(pattern, template, s)]: scan from the left; where the pattern
    matches, emit the template and go on after the match; elsewhere copy
    one code point. A match is never empty, so [length s] steps suffice
    ([re_sub_cons] below). *)
Fixpoint re_sub_from (fuel : nat) (s : str) : str :=
  match fuel with
  | O => []
  | S k =>
      match s with
      | [] => []
      | c :: r =>
          match re_match s with
          | Some (d, rest) => replacement d ++ re_sub_from k rest
          | None => c :: re_sub_from k r
          end
      end
  end.

Definition re_sub (s : str) : str := re_sub_from (length s) s.

End Regex.

(** ** [BeautifulSoup(html, 'html.parser').get_text()]

    The parser library is not part of the crawler. Its text extraction is
    modelled on markup made of character data and tags: a tag runs from
    [<] to the next [>], everything outside tags is text. Comments,
    character references and raw-text elements are outside this model. *)
Fixpoint get_text_from (in_tag : bool) (s : str) : str :=
  match s with
  | [] => []
  | c :: r =>
      if in_tag then
        if c =? 62 then get_text_from false r else get_text_from true r
      else
        if c =? 60 then get_text_from true r else c :: get_text_from false r
  end.

Definition get_text (html : str) : str := get_text_from false html.


(** ** Exceptions and results *)

(** An instance of a subclass of [Exception]: [type(e).__name__] and
    [str(e)]. *)
Record exn := Exception { exn_type : str; exn_msg : str }.

Inductive result (A : Type) : Type :=
  | Ok (a : A)
  | Raise (e : exn).
Arguments Ok {A} a.
Arguments Raise {A} e.

(** ** Selenium, as the crawler observes it

    A [WebElement] is what it answers: its rendered [text], its
    attributes, the elements found below it, and what clicking it does.
    Every call may raise. A [Page] is what the driver answers while the
    page is shown. *)
Inductive By := XPATH | TAG_NAME.

#[local] Set Warnings "-register-all".
Inductive WebElement : Type := mkWebElement {
  text : result str;
  get_attribute : str -> result str;
  find_elements : By -> str -> result (list WebElement);
  find_element : By -> str -> result WebElement;
  click : result Page  (* [click()]: raises, or the page shown afterwards *)
}
with Page : Type := mkPage {
  page_source : result str;
  (* [WebDriverWait(driver, 15).until(EC.element_to_be_clickable(locator))] *)
  until_clickable : By -> str -> result WebElement;
  (* [WebDriverWait(driver, 15).until(EC.presence_of_element_located(locator))] *)
  until_present : By -> str -> result WebElement
}.
#[local] Set Warnings "register-all".

(** ** The state a run works on *)

Inductive level := DEBUG | INFO | WARNING | ERROR.

(** A [pathlib.Path], relative to the working directory, by components. *)
Definition path := list str.

Record State := mkState {
  logs : list (level * str);     (* the records handed to the logger, oldest first *)
  dirs : gset path;              (* directories below the working directory *)
  files : gmap path str;         (* regular files and their text *)
  launched : nat;                (* browser sessions started so far *)
  closed : nat;                  (* [quit()] calls so far *)
  page : option Page;            (* what the live session shows *)
  driver : option nat            (* the variable [driver] of [crawl_single_paper] *)
}.

Definition M (A : Type) : Type := State -> result A * State.

Definition ret {A} (a : A) : M A := fun w => (Ok a, w).

Definition bind {A B} (m : M A) (k : A -> M B) : M B :=
  fun w =>
    match m w with
    | (Ok a, w1) => k a w1
    | (Raise e, w1) => (Raise e, w1)
    end.

(** The outcome of a call on a Selenium object, inside the run. *)
Definition call {A} (r : result A) : M A := fun w => (r, w).

Declare Scope py_scope.
Delimit Scope py_scope with py.
Notation "'let*' x ':=' m 'in' k" := (bind m (fun x => k))
  (at level 10, x pattern, m at level 100, k at level 200) : py_scope.
Notation "m ';;' k" := (bind m (fun _ => k))
  (at level 100, k at level 200, right associativity) : py_scope.
Open Scope py_scope.

(** [try: body except Exception as e: handler(e)] *)
Definition try_except {A} (body : M A) (handler : exn -> M A) : M A :=
  fun w =>
    match body w with
    | (Ok a, w1) => (Ok a, w1)
    | (Raise e, w1) => handler e w1
    end.

(** [try: body finally: final]; an exception of [final] replaces the
    outcome of [body]. *)
Definition try_finally {A} (body : M A) (final : M unit) : M A :=
  fun w =>
    let '(r, w1) := body w in
    match final w1 with
    | (Ok _, w2) => (r, w2)
    | (Raise e, w2) => (Raise e, w2)
    end.

(** [for i, x in enumerate(xs): acc = body(i, x, acc)], from index [i]. *)
Fixpoint for_enumerate {A T} (i : nat) (xs : list A) (body : nat -> A -> T -> M T)
    (acc : T) : M T :=
  match xs with
  | [] => ret acc
  | x :: rest => let* acc1 := body i x acc in for_enumerate (S i) rest body acc1
  end.

(** [[f(x) for x in xs]] *)
Fixpoint comprehension {A B} (f : A -> M B) (xs : list A) : M (list B) :=
  match xs with
  | [] => ret []
  | x :: rest => let* y := f x in let* ys := comprehension f rest in ret (y :: ys)
  end.

(** *** The logger *)
Definition log (l : level) (msg : str) : M unit :=
  fun w => (Ok tt, mkState (logs w ++ [(l, msg)]) (dirs w) (files w)
                     (launched w) (closed w) (page w) (driver w)).

Definition logger_debug := log DEBUG.
Definition logger_info := log INFO.
Definition logger_warning := log WARNING.
Definition logger_error := log ERROR.

(** *** The file system

    Directories and regular files below the working directory, which
    itself always exists. Permissions, disk space and text encoding are
    not modelled. *)
Definition is_dir (w : State) (p : path) : bool :=
  match p with
  | [] => true
  | _ => bool_decide (p ∈ dirs w)
  end.

Definition is_file (w : State) (p : path) : bool :=
  match files w !! p with Some _ => true | None => false end.

(** [p.parent] *)
Definition parent (p : path) : path := removelast p.

Definition os_error (kind : string) : exn := Exception (u kind) (u kind).

(** [p.mkdir(exist_ok=True)] *)
Definition mkdir (p : path) : M unit :=
  fun w =>
    if is_dir w p then (Ok tt, w)
    else if is_file w p then (Raise (os_error "FileExistsError"), w)
    else if is_dir w (parent p) then
      (Ok tt, mkState (logs w) ({[p]} ∪ dirs w) (files w)
                (launched w) (closed w) (page w) (driver w))
    else (Raise (os_error "FileNotFoundError"), w).

(** The path itself and the paths above it, outermost first. *)
Fixpoint ancestors (above p : path) : list path :=
  match p with
  | [] => []
  | c :: r => (above ++ [c]) :: ancestors (above ++ [c]) r
  end.

Fixpoint mkdir_each (ps : list path) : M unit :=
  match ps with
  | [] => ret tt
  | p :: rest => mkdir p ;; mkdir_each rest
  end.

(** [p.mkdir(parents=True, exist_ok=True)] *)
Definition mkdir_parents (p : path) : M unit := mkdir_each (ancestors [] p).

(** The file at [p] is created, or replaced, with the text [s]. *)
Definition write_file (p : path) (s : str) : M unit :=
  fun w =>
    if is_dir w p then (Raise (os_error "IsADirectoryError"), w)
    else if is_dir w (parent p) then
      (Ok tt, mkState (logs w) (dirs w) (<[p := s]> (files w))
                (launched w) (closed w) (page w) (driver w))
    else (Raise (os_error "FileNotFoundError"), w).

(** ** What a run meets outside the program *)
Record Env := mkEnv {
  os_sep : str;                   (* [os.sep], in [str(path)] *)
  size_repr : Z -> str;           (* [str(round(n/1024, 2))] *)
  elapsed_repr : str;             (* [str(round(execution_time, 2))] *)
  format_exc : exn -> str;        (* [traceback.format_exc()] *)
  chrome : result Page;           (* [webdriver.Chrome(...)]: raises, or the blank page *)
  get : str -> result Page        (* [driver.get(url)]: raises, or the page loaded *)
}.

(** [str(p)] *)
Definition path_str (env : Env) (p : path) : str := join (os_sep env) p.

(** *** The driver *)

Definition set_page (pg : option Page) : M unit :=
  fun w => (Ok tt, mkState (logs w) (dirs w) (files w)
                     (launched w) (closed w) pg (driver w)).

(** [driver = v] *)
Definition assign_driver (v : option nat) : M unit :=
  fun w => (Ok tt, mkState (logs w) (dirs w) (files w)
                     (launched w) (closed w) (page w) v).

Definition read_driver : M (option nat) := fun w => (Ok (driver w), w).

Definition no_session : exn :=
  Exception (u "InvalidSessionIdException") (u "invalid session id").

Definition current_page : M Page :=
  fun w =>
    match page w with
    | Some pg => (Ok pg, w)
    | None => (Raise no_session, w)
    end.

(** [webdriver.Chrome(service=service, options=self.chrome_options)] *)
Definition webdriver_Chrome (env : Env) : M nat :=
  fun w =>
    match chrome env with
    | Ok pg =>
        (Ok (S (launched w)),
         mkState (logs w) (dirs w) (files w) (S (launched w)) (closed w)
           (Some pg) (driver w))
    | Raise e => (Raise e, w)
    end.

(** [driver.get(url)] *)
Definition driver_get (env : Env) (d : nat) (url : str) : M unit :=
  current_page ;;
  let* pg := call (get env url) in
  set_page (Some pg).

(** [driver.page_source] *)
Definition driver_page_source (d : nat) : M str :=
  let* pg := current_page in call (page_source pg).

(** [driver.quit()] *)
Definition driver_quit (d : nat) : M unit :=
  fun w => (Ok tt, mkState (logs w) (dirs w) (files w)
                     (launched w) (S (closed w)) None (driver w)).

(** [WebDriverWait(driver, 15).until(EC.element_to_be_clickable((by, value)))] *)
Definition wait_clickable (d : nat) (by_ : By) (value : str) : M WebElement :=
  let* pg := current_page in call (until_clickable pg by_ value).

(** [WebDriverWait(driver, 15).until(EC.presence_of_element_located((by, value)))] *)
Definition wait_present (d : nat) (by_ : By) (value : str) : M WebElement :=
  let* pg := current_page in call (until_present pg by_ value).

(** [element.click()] *)
Definition element_click (el : WebElement) : M unit :=
  let* pg := call (click el) in set_page (Some pg).

(** [time.sleep(seconds)] *)
Definition time_sleep (seconds : nat) : M unit := ret tt.

(** [open(p, "w", encoding="utf-8")]: the file is created or emptied. *)
Definition open_w (p : path) : M unit := write_file p [].

(** [f.write(s)] on the file opened at [p]. *)
Definition f_write (p : path) (s : str) : M unit :=
  fun w => (Ok tt, mkState (logs w) (dirs w) (<[p := s]> (files w))
                     (launched w) (closed w) (page w) (driver w)).

(** Truth value of a [str]. *)
Definition truthy (s : str) : bool :=
  match s with [] => false | _ => true end.

(** Truth value of a [list]. *)
Definition nonempty {A} (xs : list A) : bool :=
  match xs with [] => false | _ => true end.

(** [f"{n}"] for an index of [enumerate]. *)
Definition str_of_nat (n : nat) : str := str_of_int (Z.of_nat n).

(** ** [class CET4Spider] *)

(** The locators of the class, as written. *)
Definition xp_paragraph_containers : str :=
  u ".//div[contains(@class, 'space-y-') and contains(@class, 'text-left')]".
Definition xp_paragraph_containers_loose : str :=
  u ".//div[contains(@class, 'space-y-')]".
Definition xp_paragraph_blocks : str :=
  u ".//div[contains(@class, 'border-b') and contains(@class, 'pb-')]".
Definition xp_module (module_name : str) : str :=
  u ".//div[contains(@class, 'mb-8') and .//h3[contains(@class, 'mb-4 text-lg font-semibold') and text()='"
    ++ module_name ++ u "']]".
Definition xp_title : str :=
  u ".//h3[contains(@class, 'mb-4 text-lg font-semibold')]".
Definition xp_intro : str :=
  u ".//h3[contains(@class, 'mb-4 text-left text-sm text-gray-600')]".
Definition xp_content : str :=
  u ".//div[contains(@class, 'mb-6 space-y-4 text-left')]".
Definition xp_options_container : str :=
  u ".//div[contains(@class, 'grid') and contains(@class, 'gap-4')]".
Definition xp_options : str :=
  u ".//div[contains(@class, 'flex items-start')]".
Definition xp_read_button : str :=
  u ".//*[contains(text(), '阅读') and (self::button or self::a or self::div)]".
Definition xp_full_container : str :=
  u "//div[contains(@class, 'rounded-lg') and contains(@class, 'bg-white') and contains(@class, 'p-6')]".

(** [_generate_url], lines 52-56. *)
Definition _generate_url (year month set_count : Z) : M str :=
  let url := u "https://www.hellocet.online/cet4?year=" ++ str_of_int year
               ++ u "&month=" ++ str_of_int month
               ++ u "&setCount=" ++ str_of_int set_count in
  logger_debug (u "生成的URL: " ++ url) ;;
  ret url.

Section Spider.
Context `{UnicodeDB}.

(** [_process_fill_blank], lines 70-83. *)
Definition _process_fill_blank (element : WebElement) : M str :=
  let* html := call (get_attribute element (u "outerHTML")) in
  let processed_html := re_sub html in
  ret (strip (get_text processed_html)).

(** Lines 132-135: the paragraphs of a container without block structure. *)
Definition direct_paragraph (j : nat) (paragraph : WebElement) (result_text : str) : M str :=
  let* t := call (text paragraph) in
  let paragraph_text := strip t in
  if truthy paragraph_text then ret (result_text ++ paragraph_text ++ nl)
  else ret result_text.

(** Lines 140-158: one paragraph block. *)
Definition paragraph_block (j : nat) (block : WebElement) (result_text : str) : M str :=
  try_except
    (let* paragraph_elem := call (find_element block TAG_NAME (u "p")) in
     let* t := call (text paragraph_elem) in
     let paragraph_text := strip t in
     let* input_elems := call (find_elements block TAG_NAME (u "input")) in
     let has_input := nonempty input_elems in
     if truthy paragraph_text then
       ret (result_text ++ paragraph_text
              ++ (if has_input then u " [填空]" else []) ++ nl)
     else ret result_text)
    (fun e =>
       logger_warning (u "处理第" ++ str_of_nat (j + 1) ++ u "个段落块时出错: " ++ exn_msg e) ;;
       ret result_text).

(** Lines 119-158: one paragraph container. *)
Definition paragraph_container (i : nat) (para_container : WebElement)
    (result_text : str) : M str :=
  logger_info (u "处理第" ++ str_of_nat (i + 1) ++ u "个段落容器...") ;;
  let* paragraph_blocks := call (find_elements para_container XPATH xp_paragraph_blocks) in
  if nonempty paragraph_blocks then
    for_enumerate 0 paragraph_blocks paragraph_block result_text
  else
    logger_info (u "第" ++ str_of_nat (i + 1) ++ u "个容器中未找到段落块，尝试直接提取段落...") ;;
    let* paragraphs := call (find_elements para_container TAG_NAME (u "p")) in
    for_enumerate 0 paragraphs direct_paragraph result_text.

(** [_extract_paragraph_container], lines 85-166. *)
Definition _extract_paragraph_container (container : WebElement) (container_name : str)
    : M str :=
  logger_info (u "开始提取" ++ container_name ++ u "...") ;;
  try_except
    (let* paragraph_containers :=
       call (find_elements container XPATH xp_paragraph_containers) in
     let* paragraph_containers :=
       if nonempty paragraph_containers then ret paragraph_containers
       else
         logger_warning (u "未找到" ++ container_name ++ u "，尝试其他选择器...") ;;
         call (find_elements container XPATH xp_paragraph_containers_loose) in
     if nonempty paragraph_containers then
       let result_text := u "【" ++ container_name ++ u "】" ++ nl in
       let* result_text :=
         for_enumerate 0 paragraph_containers paragraph_container result_text in
       let result_text := result_text ++ nl in
       logger_info (u "✅ " ++ container_name ++ u "提取成功，共处理"
                      ++ str_of_nat (length paragraph_containers) ++ u "个容器") ;;
       ret result_text
     else
       logger_warning (u "❌ 未找到任何" ++ container_name) ;;
       ret [])
    (fun e =>
       logger_error (u "❌ " ++ container_name ++ u "提取失败: " ++ exn_msg e) ;;
       ret (u "【" ++ container_name ++ u "提取失败：" ++ exn_msg e ++ u "】" ++ nl ++ nl)).

(** The text [_extract_module] returns when nothing could be extracted. *)
Definition failure_label (module_name msg : str) : str :=
  u "【" ++ module_name ++ u "提取失败：" ++ msg ++ u "】" ++ nl ++ nl.

(** Lines 172-225: the [try] suite of [_extract_module]. *)
Definition extract_module_try (container : WebElement) (module_name : str) : M str :=
  let* module_container := call (find_element container XPATH (xp_module module_name)) in
  let* title_elem := call (find_element module_container XPATH xp_title) in
  let* title := call (text title_elem) in
  let* intro_elements := call (find_elements module_container XPATH xp_intro) in
  let* intro_texts := comprehension (fun elem => call (text elem)) intro_elements in
  let intro_text := join nl intro_texts ++ nl ++ nl in
  let* content_text :=
    try_except
      (let* content_container := call (find_element module_container XPATH xp_content) in
       let* content_paragraphs := call (find_elements content_container TAG_NAME (u "p")) in
       let* processed_paragraphs := comprehension _process_fill_blank content_paragraphs in
       ret (join nl processed_paragraphs ++ nl ++ nl))
      (fun e =>
         logger_warning (module_name ++ u "无标准内容容器，尝试提取段落容器: " ++ exn_msg e) ;;
         _extract_paragraph_container module_container (module_name ++ u "内容")) in
  let* options_text :=
    try_except
      (let* options_container :=
         call (find_element module_container XPATH xp_options_container) in
       let* options := call (find_elements options_container XPATH xp_options) in
       let* option_texts := comprehension (fun opt => call (text opt)) options in
       ret (u "【选项/词库】" ++ nl ++ join nl option_texts ++ nl ++ nl))
      (fun _ =>
         logger_info (module_name ++ u "无选项/词库，跳过提取") ;;
         ret []) in
  let full_module :=
    title ++ nl ++ intro_text ++ u "【正文内容】" ++ nl ++ content_text ++ options_text in
  logger_info (u "✅ " ++ module_name ++ u "提取成功") ;;
  ret full_module.

(** Lines 227-235: the [except] suite of [_extract_module]. *)
Definition extract_module_except (container : WebElement) (module_name : str) (e : exn)
    : M str :=
  logger_error (u "❌ " ++ module_name ++ u "提取失败: " ++ exn_msg e) ;;
  logger_info (u "尝试备选方案提取" ++ module_name ++ u "...") ;;
  let* alternative_content := _extract_paragraph_container container module_name in
  if truthy alternative_content && (20 <? len (strip alternative_content))%Z then
    ret (module_name ++ nl ++ alternative_content)
  else
    ret (failure_label module_name (exn_msg e)).

(** [_extract_module], lines 168-235. *)
Definition _extract_module (container : WebElement) (module_name : str) : M str :=
  logger_info (u "开始提取" ++ module_name ++ u "...") ;;
  try_except (extract_module_try container module_name)
             (extract_module_except container module_name).

Definition _extract_writing (container : WebElement) : M str :=
  _extract_module container (u "Part I Writing").
Definition _extract_section_a (container : WebElement) : M str :=
  _extract_module container (u "Section A").
Definition _extract_section_b (container : WebElement) : M str :=
  _extract_module container (u "Section B").
Definition _extract_section_c (container : WebElement) : M str :=
  _extract_module container (u "Section C").

Context (env : Env).

(** [_debug_save_page_source], lines 58-68. *)
Definition _debug_save_page_source (d : nat) (filename : str) : M unit :=
  try_except
    (let debug_dir := [u "debug_pages"] in
     mkdir debug_dir ;;
     let filepath := debug_dir ++ [filename] in
     open_w filepath ;;
     let* source := driver_page_source d in
     f_write filepath source ;;
     logger_info (u "✅ 页面源代码已保存: " ++ path_str env filepath))
    (fun e => logger_warning (u "保存页面源代码失败: " ++ exn_msg e)).

(** The suffix [{year}_{month}_{set_count}.html] of the debug file names. *)
Definition debug_name (stage : str) (year month set_count : Z) : str :=
  stage ++ str_of_int year ++ u "_" ++ str_of_int month ++ u "_"
    ++ str_of_int set_count ++ u ".html".

(** Lines 284-294: the reveal button. *)
Definition click_read_button (d : nat) : M unit :=
  try_except
    (let* click_btn := wait_clickable d XPATH xp_read_button in
     element_click click_btn ;;
     logger_info (u "✅ 阅读按钮点击成功") ;;
     time_sleep 3)
    (fun e => logger_warning (u "点击阅读按钮失败: " ++ exn_msg e ++ u "，尝试继续执行...")).

(** Lines 320-324: the document. *)
Definition full_paper (year month set_count : Z)
    (writing section_a section_b section_c additional_paragraphs : str) : str :=
  str_of_int year ++ u "年" ++ str_of_int month ++ u "月大学英语CET4真题（第"
    ++ str_of_int set_count ++ u "套）" ++ nl
    ++ repeat_str (u "=") 60 ++ nl
    ++ writing ++ section_a ++ section_b ++ section_c ++ nl
    ++ additional_paragraphs ++ nl.

(** Line 327: [save_dir]. *)
Definition save_dir (year month : Z) : path :=
  [u "CET4真题_通用爬取"; str_of_int year ++ u "年" ++ str_of_int month ++ u "月"].

(** Line 329: [save_path]. *)
Definition save_path (year month set_count : Z) : path :=
  save_dir year month
    ++ [str_of_int year ++ u "年" ++ str_of_int month ++ u "月-第"
          ++ str_of_int set_count ++ u "套.txt"].

(** Lines 338-345: the success report. *)
Definition success_msg (year month set_count : Z) (paper : str) : str :=
  nl ++ u "✅ 爬取成功报告：" ++ nl
    ++ u "   试卷：" ++ str_of_int year ++ u "年" ++ str_of_int month ++ u "月-第"
    ++ str_of_int set_count ++ u "套" ++ nl
    ++ u "   保存路径：" ++ path_str env (save_path year month set_count) ++ nl
    ++ u "   文件大小：" ++ size_repr env (len paper) ++ u "KB" ++ nl
    ++ u "   执行时间：" ++ elapsed_repr env ++ u "秒" ++ nl
    ++ u "   内容模块：写作 ✅ | Section A ✅ | Section B ✅ | Section C ✅ | 段落容器 ✅"
    ++ nl.

(** Lines 351-358: the failure report handed to the logger. *)
Definition error_details (e : exn) : str :=
  nl ++ u "❌ 爬取失败报告：" ++ nl
    ++ u "   错误类型：" ++ exn_type e ++ nl
    ++ u "   错误信息：" ++ exn_msg e ++ nl
    ++ u "   执行时间：" ++ elapsed_repr env ++ u "秒" ++ nl
    ++ u "   详细堆栈：" ++ nl
    ++ format_exc env e ++ nl.

(** Lines 261-280, steps 1 to 3: the browser is started and the page loaded. *)
Definition open_page (year month set_count : Z) : M nat :=
  logger_info (repeat_str (u "=") 60) ;;
  logger_info (u "开始爬取：" ++ str_of_int year ++ u "年" ++ str_of_int month
                 ++ u "月-第" ++ str_of_int set_count ++ u "套") ;;
  let* target_url := _generate_url year month set_count in
  logger_info (u "目标URL: " ++ target_url) ;;
  logger_info (u "启动Chrome浏览器...") ;;
  let* d := webdriver_Chrome env in
  assign_driver (Some d) ;;
  logger_info (u "✅ 浏览器启动成功") ;;
  logger_info (u "访问页面: " ++ target_url) ;;
  driver_get env d target_url ;;
  time_sleep 3 ;;
  _debug_save_page_source d (debug_name (u "initial_page_") year month set_count) ;;
  ret d.

(** Lines 299-324, steps 5 to 8: the content container, the sweep over
    all paragraph containers, the four modules, the document. *)
Definition extract_paper (d : nat) (year month set_count : Z) : M str :=
  logger_info (u "定位内容容器...") ;;
  let* full_container := wait_present d XPATH xp_full_container in
  logger_info (u "✅ 内容容器定位成功") ;;
  logger_info (u "开始提取额外的段落容器...") ;;
  let* additional_paragraphs :=
    _extract_paragraph_container full_container (u "附加段落内容") in
  logger_info (u "开始提取各模块内容...") ;;
  let* writing := _extract_writing full_container in
  let* section_a := _extract_section_a full_container in
  let* section_b := _extract_section_b full_container in
  let* section_c := _extract_section_c full_container in
  ret (full_paper year month set_count writing section_a section_b section_c
         additional_paragraphs).

(** Lines 261-324: everything before the file is written. *)
Definition assemble (year month set_count : Z) : M str :=
  let* d := open_page year month set_count in
  logger_info (u "查找并点击阅读按钮...") ;;
  click_read_button d ;;
  _debug_save_page_source d (debug_name (u "after_click_") year month set_count) ;;
  extract_paper d year month set_count.

(** Lines 326-332, step 9: the file. *)
Definition save_paper (year month set_count : Z) (paper : str) : M unit :=
  mkdir_parents (save_dir year month) ;;
  open_w (save_path year month set_count) ;;
  f_write (save_path year month set_count) paper.

(** Lines 261-347: the [try] suite of [crawl_single_paper]. *)
Definition crawl_try (year month set_count : Z) : M str :=
  let* paper := assemble year month set_count in
  save_paper year month set_count paper ;;
  logger_info (success_msg year month set_count paper) ;;
  ret (success_msg year month set_count paper).

(** Lines 349-365: the [except] suite. *)
Definition crawl_except (year month set_count : Z) (e : exn) : M str :=
  logger_error (error_details e) ;;
  let* drv := read_driver in
  match drv with
  | Some d => _debug_save_page_source d (debug_name (u "error_page_") year month set_count)
  | None => ret tt
  end ;;
  ret (u "❌ 爬取失败：" ++ exn_msg e).

(** Lines 367-370: the [finally] suite. *)
Definition crawl_finally : M unit :=
  let* drv := read_driver in
  match drv with
  | Some d => driver_quit d ;; logger_info (u "🔚 浏览器已关闭")
  | None => ret tt
  end.

(** [crawl_single_paper], lines 253-370. *)
Definition crawl_single_paper (year month set_count : Z) : M str :=
  assign_driver None ;;
  try_finally
    (try_except (crawl_try year month set_count) (crawl_except year month set_count))
    crawl_finally.

End Spider.

(** ** Markup with numbered inputs

    A fragment, for the statements about [_process_fill_blank]: character
    data, tags, and numbered inputs. *)
Inductive piece :=
  | Chars (t : str)                  (* text between tags *)
  | Tag (t : str)                    (* the tag [<t>] *)
  | Blank (number attrs : str).      (* one numbered input *)

(** The markup the pattern recognises: a wrapper span holding the
    numbered label span and the input element. *)
Definition numbered_input (number attrs : str) : str :=
  pat_open ++ number ++ pat_mid ++ attrs ++ pat_close.

(** The opening tag of the wrapper span, without its angle brackets. *)
Definition wrapper_tag : str :=
  u "span class=" ++ dq ++ u "mx-1 inline-block" ++ dq.

Definition render_piece (p : piece) : str :=
  match p with
  | Chars t => t
  | Tag t => [60] ++ t ++ [62]
  | Blank number attrs => numbered_input number attrs
  end.

Definition render (ps : list piece) : str := flat_map render_piece ps.

Fixpoint str_eqb (a b : str) : bool :=
  match a, b with
  | [], [] => true
  | x :: a', y :: b' => (x =? y) && str_eqb a' b'
  | _, _ => false
  end.










(** The pattern occurs somewhere in [s]. *)
Definition occurs `{UnicodeDB} (s : str) : Prop :=
  exists before number attrs after,
    s = before ++ numbered_input number attrs ++ after
    /\ number <> [] /\ forallb isdecimal number = true
    /\ attrs <> [] /\ forallb not_gt attrs = true.

(** [re.search(pattern, s) is not None] *)
Fixpoint re_search `{UnicodeDB} (s : str) : bool :=
  match s with
  | [] => false
  | _ :: r => match re_match s with Some _ => true | None => re_search r end
  end.

(** [w] with the records [l] appended to the log. *)
Definition add_logs (w : State) (l : list (level * str)) : State :=
  mkState (logs w ++ l) (dirs w) (files w) (launched w) (closed w) (page w) (driver w).


(** ** Sample documents and runs *)
Module Sample.

Definition no_such_element : exn :=
  Exception (u "NoSuchElementException") (u "Message: no such element").
Definition timeout : exn := Exception (u "TimeoutException") (u "Message: ").
Definition not_interactable : exn :=
  Exception (u "ElementNotInteractableException") (u "Message: element not interactable").
Definition session_not_created : exn :=
  Exception (u "SessionNotCreatedException") (u "Message: session not created").

Definition by_eqb (a b : By) : bool :=
  match a, b with
  | XPATH, XPATH | TAG_NAME, TAG_NAME => true
  | _, _ => false
  end.

(** What each locator finds below an element. *)
Definition finds := list (By * str * list WebElement).

Fixpoint found (table : finds) (b : By) (value : str) : list WebElement :=
  match table with
  | [] => []
  | (b', value', els) :: rest =>
      if by_eqb b b' && str_eqb value value' then els else found rest b value
  end.

(** An element of a static document: [find_element] answers with the
    first element [find_elements] finds. *)
Definition element (txt html : str) (table : finds) : WebElement :=
  mkWebElement (Ok txt)
    (fun name => if str_eqb name (u "outerHTML") then Ok html else Ok [])
    (fun b value => Ok (found table b value))
    (fun b value =>
       match found table b value with
       | el :: _ => Ok el
       | [] => Raise no_such_element
       end)
    (Raise not_interactable).

(** [<div class="rounded-lg bg-white p-6"></div>] *)
Definition bare_root : WebElement := element [] [] [].

(** [<p>Directions: read the passage and answer.</p>] *)
Definition prose_p : WebElement :=
  element (u "Directions: read the passage and answer.") [] [].

(** [<div class="space-y-6 text-left"><p>...</p></div>] *)
Definition prose_container : WebElement :=
  element (u "Directions: read the passage and answer.") []
    [(TAG_NAME, u "p", [prose_p])].

(** The content container around [prose_container]: paragraphs, no module. *)
Definition prose_root : WebElement :=
  element (u "Directions: read the passage and answer.") []
    [(XPATH, xp_paragraph_containers, [prose_container]);
     (XPATH, xp_paragraph_containers_loose, [prose_container]);
     (TAG_NAME, u "p", [prose_p])].

(** [<p>The <span ...><span ...>26.</span><input type="text"></span> is here.</p>] *)
Definition blank_pieces : list piece :=
  [Tag (u "p"); Chars (u "The ");
   Blank (u "26") (u " type=" ++ dq ++ u "text" ++ dq);
   Chars (u " is here."); Tag (u "/p")].

Definition blank_p : WebElement :=
  element (u "The 26. is here.") (render blank_pieces) [].

(** [<p>No blank.</p>] *)
Definition plain_pieces : list piece := [Tag (u "p"); Chars (u "No blank."); Tag (u "/p")].

Definition plain_p : WebElement := element (u "No blank.") (render plain_pieces) [].

(** [<div class="mb-6 space-y-4 text-left">] with the two paragraphs. *)
Definition content_div : WebElement :=
  element (u "The 26. is here." ++ nl ++ u "No blank.") []
    [(TAG_NAME, u "p", [blank_p; plain_p])].

Definition title_h3 : WebElement := element (u "Section A") [] [].
Definition intro_h3 : WebElement := element (u "Directions: fill in the blank.") [] [].

(** [<div class="mb-8">]: the module [Section A]. *)
Definition module_div : WebElement :=
  element (u "Section A") []
    [(XPATH, xp_title, [title_h3]);
     (XPATH, xp_intro, [intro_h3]);
     (XPATH, xp_content, [content_div]);
     (XPATH, xp_paragraph_containers, [content_div]);
     (XPATH, xp_paragraph_containers_loose, [content_div]);
     (TAG_NAME, u "p", [blank_p; plain_p])].

(** The content container of a page with the one module [Section A]. *)
Definition exam_root : WebElement :=
  element (u "Section A") []
    [(XPATH, xp_module (u "Section A"), [module_div]);
     (XPATH, xp_paragraph_containers, [content_div]);
     (XPATH, xp_paragraph_containers_loose, [content_div]);
     (TAG_NAME, u "p", [blank_p; plain_p])].

Definition page_with (button : result WebElement) (container : result WebElement) : Page :=
  mkPage (Ok (u "<html></html>"))
    (fun b value =>
       if by_eqb b XPATH && str_eqb value xp_read_button then button else Raise timeout)
    (fun b value =>
       if by_eqb b XPATH && str_eqb value xp_full_container then container
       else Raise timeout).

(** The page once the reveal button was clicked. *)
Definition revealed_page : Page := page_with (Raise timeout) (Ok exam_root).

Definition read_button : WebElement :=
  mkWebElement (Ok (u "阅读")) (fun _ => Ok []) (fun _ _ => Ok [])
    (fun _ _ => Raise no_such_element) (Ok revealed_page).

Definition landing_page : Page := page_with (Ok read_button) (Ok bare_root).

Definition blank_page : Page := page_with (Raise timeout) (Raise timeout).

Definition env_with (start : result Page) (load : result Page) : Env :=
  mkEnv (u "/") (fun _ => u "0.2") (u "6.5") (fun e => exn_type e ++ u ": " ++ exn_msg e)
    start (fun _ => load).

(** The button is found and clicked, the module is there. *)
Definition env_ok : Env := env_with (Ok blank_page) (Ok landing_page).

(** No reveal button; the content is on the page all the same. *)
Definition env_no_button : Env := env_with (Ok blank_page) (Ok revealed_page).

(** The content container never appears. *)
Definition env_no_container : Env := env_with (Ok blank_page) (Ok blank_page).

(** The browser does not start. *)
Definition env_no_chrome : Env := env_with (Raise session_not_created) (Ok landing_page).

(** An empty working directory, nothing logged, no session. *)
Definition w0 : State := mkState [] ∅ ∅ 0 0 None None.

(** The state the [try] suite of the run on [env_ok] ends in. *)
Definition state_ok : State := snd (@crawl_try ascii_db env_ok 2020 12 1 w0).

(** The document of that run. *)
Definition paper_ok : str :=
  full_paper 2020 12 1
    (u "Part I Writing" ++ nl ++ u "【Part I Writing】" ++ nl
       ++ u "The 26. is here." ++ nl ++ u "No blank." ++ nl ++ nl)
    (u "Section A" ++ nl ++ u "Directions: fill in the blank." ++ nl ++ nl
       ++ u "【正文内容】" ++ nl ++ u "The 26._  is here." ++ nl ++ u "No blank."
       ++ nl ++ nl)
    (u "Section B" ++ nl ++ u "【Section B】" ++ nl
       ++ u "The 26. is here." ++ nl ++ u "No blank." ++ nl ++ nl)
    (u "Section C" ++ nl ++ u "【Section C】" ++ nl
       ++ u "The 26. is here." ++ nl ++ u "No blank." ++ nl ++ nl)
    (u "【附加段落内容】" ++ nl ++ u "The 26. is here." ++ nl ++ u "No blank."
       ++ nl ++ nl).

(** Another day the site shows paragraphs and no module. *)
Definition env_prose : Env :=
  env_with (Ok blank_page) (Ok (page_with (Raise timeout) (Ok prose_root))).

Definition prose_fragment (name : str) : str :=
  name ++ nl ++ u "【" ++ name ++ u "】" ++ nl
    ++ u "Directions: read the passage and answer." ++ nl ++ nl.

(** The document of a run on [env_prose]. *)
Definition paper_prose : str :=
  full_paper 2020 12 1
    (prose_fragment (u "Part I Writing")) (prose_fragment (u "Section A"))
    (prose_fragment (u "Section B")) (prose_fragment (u "Section C"))
    (u "【附加段落内容】" ++ nl ++ u "Directions: read the passage and answer."
       ++ nl ++ nl).

(** The state the run on [env_ok] leaves behind. *)
Definition state_after_ok : State :=
  snd (@crawl_single_paper ascii_db env_ok 2020 12 1 w0).


End Sample.

(** ** Footprints

    Relations between the state before and after a computation, and the
    computations that stay within one. *)
Definition respects {A} (R : State -> State -> Prop) (m : M A) : Prop :=
  forall w, R w (snd (m w)).

(** The computation returns, whatever the state. *)
Definition never_raises {A} (m : M A) : Prop :=
  forall w, exists a, fst (m w) = Ok a.

(** Nothing but the log changes, and the log only grows. *)
Definition only_logs (w w' : State) : Prop := exists l, w' = add_logs w l.

(** The log only grows. *)
Definition logs_grow (w w' : State) : Prop := exists l, logs w' = logs w ++ l.

(** No session is started or quit, and [driver] is not assigned. *)
Definition same_sessions (w w' : State) : Prop :=
  launched w' = launched w /\ closed w' = closed w /\ driver w' = driver w.

(** No directory disappears, and the new ones are among [allowed]. *)
Definition dirs_within (allowed : gset path) (w w' : State) : Prop :=
  dirs w ⊆ dirs w' /\ dirs w' ⊆ dirs w ∪ allowed.

(** The directories a run for [year] and [month] may create. *)
Definition run_dirs (year month : Z) : gset path :=
  {[ [u "debug_pages"] ]} ∪ list_to_set (ancestors [] (save_dir year month)).

(** The code points [str(n)] is made of: the minus sign and the digits. *)
Definition numeric (c : char) : bool := (c =? 45) || ascii_digit c.

(** The footprint of all steps but the start of the browser, [quit()]
    and the assignments to [driver]. *)
Definition routine (allowed : gset path) (w w' : State) : Prop :=
  same_sessions w w' /\ logs_grow w w' /\ dirs_within allowed w w'.

(** The footprint of every step of a run. *)
Definition anything (allowed : gset path) (w w' : State) : Prop :=
  logs_grow w w' /\ dirs_within allowed w w'.

(** The sessions once the browser was to be started: one more session
    held by [driver], or, where Chrome did not start, none. *)
Definition after_launch (env : Env) (w w' : State) : Prop :=
  match chrome env with
  | Ok _ =>
      launched w' = S (launched w) /\ closed w' = closed w
      /\ driver w' = Some (S (launched w))
  | Raise _ => same_sessions w w'
  end.

(** The directories are as [save_paper] needs and leaves them: those of
    [save_dir] exist, and [save_path] is not one. *)
Definition dirs_ready (year month set_count : Z) (w : State) : Prop :=
  (forall q, In q (ancestors [] (save_dir year month)) -> q ∈ dirs w)
  /\ (save_path year month set_count ∉ dirs w).

(** The page shown stays the same. *)
Definition same_page (w w' : State) : Prop := page w' = page w.

(** The address line 54 builds. *)
Definition address (year month set_count : Z) : str :=
  u "https://www.hellocet.online/cet4?year=" ++ str_of_int year
    ++ u "&month=" ++ str_of_int month
    ++ u "&setCount=" ++ str_of_int set_count.

(** The warning of line 294. *)
Definition click_warning (e : exn) : level * str :=
  (WARNING, u "点击阅读按钮失败: " ++ exn_msg e ++ u "，尝试继续执行...").

(** ** What the extractors are to return

    The text of one paragraph block (lines 140-158): the stripped text
    of its first paragraph, the mark of a blank when it holds an input,
    a newline; nothing when the text is empty or a lookup raises. *)
Definition block_line (block : WebElement) : str :=
  match find_element block TAG_NAME (u "p") with
  | Ok paragraph =>
      match text paragraph, find_elements block TAG_NAME (u "input") with
      | Ok t, Ok inputs =>
          if truthy (strip t) then
            strip t ++ (if nonempty inputs then u " [填空]" else []) ++ nl
          else []
      | _, _ => []
      end
  | Raise _ => []
  end.

(** The line of one paragraph of a container without blocks (lines 132-135). *)
Definition line_of_text (t : str) : str :=
  if truthy (strip t) then strip t ++ nl else [].

(** What a paragraph container shows: paragraph blocks, or, without
    any, paragraphs whose texts can be read. *)
Inductive view :=
  | Blocks (blocks : list WebElement)
  | Paragraphs (texts : list str).

Definition shows (para_container : WebElement) (v : view) : Prop :=
  match v with
  | Blocks blocks =>
      find_elements para_container XPATH xp_paragraph_blocks = Ok blocks
      /\ blocks <> []
  | Paragraphs texts =>
      find_elements para_container XPATH xp_paragraph_blocks = Ok []
      /\ exists paragraphs,
           find_elements para_container TAG_NAME (u "p") = Ok paragraphs
           /\ Forall2 (fun p t => text p = Ok t) paragraphs texts
  end.

Definition view_text (v : view) : str :=
  match v with
  | Blocks blocks => flat_map block_line blocks
  | Paragraphs texts => flat_map line_of_text texts
  end.

(** A paragraph container without blocks in which a lookup raises [e]:
    that of the blocks, that of the paragraphs, or the text of a
    paragraph after others that could be read. *)
Definition breaks (para_container : WebElement) (e : exn) : Prop :=
  find_elements para_container XPATH xp_paragraph_blocks = Raise e
  \/ (find_elements para_container XPATH xp_paragraph_blocks = Ok []
      /\ (find_elements para_container TAG_NAME (u "p") = Raise e
          \/ exists before p after texts,
               find_elements para_container TAG_NAME (u "p") = Ok (before ++ p :: after)
               /\ Forall2 (fun p t => text p = Ok t) before texts
               /\ text p = Raise e)).

(** A passage in paragraph blocks. *)
Module Passage.

Definition stale : exn :=
  Exception (u "StaleElementReferenceException") (u "Message: stale element reference").

Definition gap_p : WebElement := Sample.element (u "  The 26. is here. ") [] [].
Definition gap_input : WebElement := Sample.element [] [] [].

(** [<div class="border-b pb-4"><p>The 26.<input> is here.</p></div>] *)
Definition gap_block : WebElement :=
  Sample.element (u "The 26. is here.") []
    [(TAG_NAME, u "p", [gap_p]); (TAG_NAME, u "input", [gap_input])].

(** [<div class="border-b pb-4"><p>No blank.</p></div>] *)
Definition text_block : WebElement :=
  Sample.element (u "No blank.") [] [(TAG_NAME, u "p", [Sample.plain_p])].

(** [<div class="border-b pb-4"><img></div>]: no paragraph. *)
Definition picture_block : WebElement := Sample.element [] [] [].

(** [<div class="space-y-6 text-left">] with the three blocks. *)
Definition container : WebElement :=
  Sample.element (u "The 26. is here." ++ nl ++ u "No blank.") []
    [(XPATH, xp_paragraph_blocks, [gap_block; picture_block; text_block]);
     (TAG_NAME, u "p", [gap_p; Sample.plain_p])].

(** The blocks, then a container of plain paragraphs. *)
Definition root : WebElement :=
  Sample.element [] []
    [(XPATH, xp_paragraph_containers, [container; Sample.prose_container])].

(** A paragraph that left the document before its text was read. *)
Definition stale_p : WebElement :=
  mkWebElement (Raise stale) (fun _ => Raise stale) (fun _ _ => Raise stale)
    (fun _ _ => Raise stale) (Raise stale).

Definition torn_container : WebElement :=
  Sample.element [] [] [(TAG_NAME, u "p", [Sample.prose_p; stale_p])].

(** The blocks, then a container whose second paragraph is stale. *)
Definition torn_root : WebElement :=
  Sample.element [] []
    [(XPATH, xp_paragraph_containers, [container; torn_container])].

(** A module with a word bank. *)
Definition option_a : WebElement := Sample.element (u "A) here") [] [].
Definition option_b : WebElement := Sample.element (u "B) there") [] [].

(** [<div class="grid gap-4">] with the two options. *)
Definition options_grid : WebElement :=
  Sample.element (u "A) here" ++ nl ++ u "B) there") []
    [(XPATH, xp_options, [option_a; option_b])].

Definition banked_module : WebElement :=
  Sample.element (u "Section A") []
    [(XPATH, xp_title, [Sample.title_h3]);
     (XPATH, xp_intro, [Sample.intro_h3]);
     (XPATH, xp_content, [Sample.content_div]);
     (XPATH, xp_options_container, [options_grid])].

Definition banked_root : WebElement :=
  Sample.element (u "Section A") []
    [(XPATH, xp_module (u "Section A"), [banked_module])].

(** A module whose content is in paragraph blocks, not in the standard
    content container. *)
Definition blocks_module : WebElement :=
  Sample.element (u "Section A") []
    [(XPATH, xp_title, [Sample.title_h3]);
     (XPATH, xp_intro, [Sample.intro_h3]);
     (XPATH, xp_paragraph_containers, [container])].

Definition blocks_root : WebElement :=
  Sample.element (u "Section A") []
    [(XPATH, xp_module (u "Section A"), [blocks_module])].

End Passage.

(** The heading of a module: its title and its lines of directions. *)
Definition headed (module_container : WebElement) (title : str) (intros : list str)
    : Prop :=
  exists title_elem intro_elements,
    find_element module_container XPATH xp_title = Ok title_elem
    /\ text title_elem = Ok title
    /\ find_elements module_container XPATH xp_intro = Ok intro_elements
    /\ Forall2 (fun elem t => text elem = Ok t) intro_elements intros.

(** The word bank of a module, if it has one. *)
Inductive word_bank :=
  | NoWordBank
  | WordBank (texts : list str).

Definition offers (module_container : WebElement) (bank : word_bank) : Prop :=
  match bank with
  | NoWordBank =>
      exists e, find_element module_container XPATH xp_options_container = Raise e
  | WordBank texts =>
      exists options_container options,
        find_element module_container XPATH xp_options_container = Ok options_container
        /\ find_elements options_container XPATH xp_options = Ok options
        /\ Forall2 (fun opt t => text opt = Ok t) options texts
  end.

Definition word_bank_text (bank : word_bank) : str :=
  match bank with
  | NoWordBank => []
  | WordBank texts => u "【选项/词库】" ++ nl ++ join nl texts ++ nl ++ nl
  end.

(** The standard content of a module cannot be had: its container is
    not found, or the paragraphs are not, or the markup of one of them
    after others that answered. *)
Definition content_fails (module_container : WebElement) (e : exn) : Prop :=
  find_element module_container XPATH xp_content = Raise e
  \/ exists content_container,
       find_element module_container XPATH xp_content = Ok content_container
       /\ (find_elements content_container TAG_NAME (u "p") = Raise e
           \/ exists before p after htmls,
                find_elements content_container TAG_NAME (u "p")
                = Ok (before ++ p :: after)
                /\ Forall2 (fun p html => get_attribute p (u "outerHTML") = Ok html)
                     before htmls
                /\ get_attribute p (u "outerHTML") = Raise e).

(** The outcome of the computation is the same in every state. *)
Definition stateless {A} (m : M A) : Prop :=
  forall w w', fst (m w) = fst (m w').

(** The debug page [filename] (line 62). *)
Definition debug_path (filename : str) : path := [u "debug_pages"; filename].

(** The debug pages of a run (lines 279, 297 and 362). *)
Definition debug_files (year month set_count : Z) : list path :=
  [debug_path (debug_name (u "initial_page_") year month set_count);
   debug_path (debug_name (u "after_click_") year month set_count);
   debug_path (debug_name (u "error_page_") year month set_count)].

(** Every path holds what it held, or is one of [ok] and holds a file. *)
Definition files_within (ok : list path) (w w' : State) : Prop :=
  forall p, files w' !! p = files w !! p \/ (In p ok /\ is_Some (files w' !! p)).

(** States of a run in which a session is open. *)
Module Session.

(** The landing page is shown. *)
Definition shown : State :=
  mkState [] ∅ ∅ 1 0 (Some Sample.landing_page) (Some 1%nat).

Definition crashed : exn :=
  Exception (u "WebDriverException") (u "Message: tab crashed").

(** A page of which the driver no longer tells anything. *)
Definition crashed_page : Page :=
  mkPage (Raise crashed) (fun _ _ => Raise crashed) (fun _ _ => Raise crashed).

Definition stuck : State :=
  mkState [] ∅ ∅ 1 0 (Some crashed_page) (Some 1%nat).

End Session.

(** The page the extraction works on (lines 284-294): the one the click
    on the reveal button leads to or, where the button cannot be had or
    clicked, the one that was loaded. *)
Definition revealed (pg : Page) : Page :=
  match until_clickable pg XPATH xp_read_button with
  | Ok btn =>
      match click btn with
      | Ok pg' => pg'
      | Raise _ => pg
      end
  | Raise _ => pg
  end.

(** * Properties *)

(** ** Strings *)

Lemma strip_prefix_app (p s : str) : strip_prefix p (p ++ s) = Some s.
Proof.
  induction p as [|a p IH]; simpl; [reflexivity|].
  rewrite N.eqb_refl. exact IH.
Qed.

Lemma strip_prefix_Some (p s r : str) : strip_prefix p s = Some r -> s = p ++ r.
Proof.
  revert s. induction p as [|a p IH]; intros s Hs; simpl in *.
  - congruence.
  - destruct s as [|b s]; [discriminate|].
    destruct (N.eqb_spec a b) as [->|]; [|discriminate].
    f_equal. apply IH. assumption.
Qed.


Lemma span_app (f : char -> bool) (a r : str) :
  forallb f a = true ->
  match r with [] => True | c :: _ => f c = false end ->
  span f (a ++ r) = (a, r).
Proof.
  intros Ha Hr. induction a as [|x a IH]; simpl in *.
  - destruct r as [|c r]; [reflexivity|]. simpl. rewrite Hr. reflexivity.
  - apply andb_prop in Ha as [Hx Ha]. rewrite Hx, (IH Ha). reflexivity.
Qed.

Lemma span_spec (f : char -> bool) (s a r : str) :
  span f s = (a, r) -> s = a ++ r /\ forallb f a = true.
Proof.
  revert a r. induction s as [|c s IH]; intros a r Hs; simpl in *.
  - injection Hs as <- <-. split; reflexivity.
  - destruct (f c) eqn:Hc.
    + destruct (span f s) as [a' r'] eqn:Hsp. injection Hs as <- <-.
      destruct (IH a' r' eq_refl) as [-> Ha]. simpl. rewrite Hc. split; [reflexivity|exact Ha].
    + injection Hs as <- <-. split; reflexivity.
Qed.

(** ** The pattern *)

Lemma pat_open_cons : pat_open = 60 :: wrapper_tag ++ 62 :: u "<span class=" ++ dq ++ u "text-gray-500" ++ dq ++ u ">".
Proof. reflexivity. Qed.

Lemma pat_mid_cons : pat_mid = 46 :: u "</span><input".
Proof. reflexivity. Qed.

Lemma pat_close_cons : pat_close = 62 :: u "</span>".
Proof. reflexivity. Qed.



#[local] Arguments u : simpl never.
#[local] Opaque pat_open pat_mid pat_close wrapper_tag.

Section RegexFacts.
Context `{UnicodeDB}.

Lemma isdecimal_false_ascii (c : char) :
  c < 128 -> ascii_digit c = false -> isdecimal c = false.
Proof. intros Hc Hd. rewrite isdecimal_ascii; assumption. Qed.

(** The matcher accepts every numbered input, with its number as group 1. *)
Lemma re_match_numbered_input (number attrs rest : str) :
  number <> [] -> forallb isdecimal number = true ->
  attrs <> [] -> forallb not_gt attrs = true ->
  re_match (numbered_input number attrs ++ rest) = Some (number, rest).
Proof.
  intros Hn Hd Ha Hg. unfold re_match, numbered_input.
  repeat rewrite <- app_assoc. rewrite strip_prefix_app. simpl.
  rewrite span_app; [|assumption|].
  2:{ rewrite pat_mid_cons. simpl. apply isdecimal_false_ascii; [lia|reflexivity]. }
  destruct number as [|n0 number]; [congruence|].
  rewrite strip_prefix_app. simpl.
  rewrite span_app; [|assumption|].
  2:{ rewrite pat_close_cons. reflexivity. }
  destruct attrs as [|a0 attrs]; [congruence|].
  rewrite strip_prefix_app. reflexivity.
Qed.

(** The matcher accepts nothing else. *)
Lemma re_match_sound (s number rest : str) :
  re_match s = Some (number, rest) ->
  exists attrs,
    s = numbered_input number attrs ++ rest
    /\ number <> [] /\ forallb isdecimal number = true
    /\ attrs <> [] /\ forallb not_gt attrs = true.
Proof.
  unfold re_match. intros Hm.
  destruct (strip_prefix pat_open s) as [s1|] eqn:H1; [|discriminate]. simpl in Hm.
  destruct (span isdecimal s1) as [d s2] eqn:H2.
  destruct d as [|d0 d]; [discriminate|].
  destruct (strip_prefix pat_mid s2) as [s3|] eqn:H3; [|discriminate]. simpl in Hm.
  destruct (span not_gt s3) as [a s4] eqn:H4.
  destruct a as [|a0 a]; [discriminate|].
  destruct (strip_prefix pat_close s4) as [s5|] eqn:H5; [|discriminate]. simpl in Hm.
  injection Hm as <- <-.
  apply strip_prefix_Some in H1, H3, H5.
  apply span_spec in H2 as [-> Hd]. apply span_spec in H4 as [-> Ha].
  exists (a0 :: a). subst. unfold numbered_input.
  repeat rewrite <- app_assoc. repeat split; try assumption; discriminate.
Qed.

Lemma length_pat_open : (0 < length pat_open)%nat.
Proof. rewrite pat_open_cons. simpl. lia. Qed.

Lemma re_match_shorter (s number rest : str) :
  re_match s = Some (number, rest) -> (length rest < length s)%nat.
Proof.
  intros Hm. apply re_match_sound in Hm as (attrs & -> & _).
  unfold numbered_input. repeat rewrite length_app.
  pose proof length_pat_open. lia.
Qed.

Lemma re_sub_from_enough (n m : nat) (s : str) :
  (length s <= n)%nat -> (length s <= m)%nat -> re_sub_from n s = re_sub_from m s.
Proof.
  revert m s. induction n as [|n IH]; intros m s Hn Hm.
  - destruct s; [|simpl in Hn; lia]. destruct m; reflexivity.
  - destruct m as [|m].
    + destruct s; [reflexivity|simpl in Hm; lia].
    + destruct s as [|c s]; [reflexivity|].
      cbn [re_sub_from]. destruct (re_match (c :: s)) as [[d rest]|] eqn:Hmatch.
      * apply re_match_shorter in Hmatch. simpl in *.
        f_equal. apply IH; lia.
      * simpl in *. f_equal. apply IH; lia.
Qed.

Lemma re_sub_nil : re_sub [] = [].
Proof. reflexivity. Qed.

(** One step of the scan: [length s] steps are always enough. *)
Lemma re_sub_cons (c : char) (s : str) :
  re_sub (c :: s) =
  match re_match (c :: s) with
  | Some (d, rest) => replacement d ++ re_sub rest
  | None => c :: re_sub s
  end.
Proof.
  unfold re_sub at 1. cbn [length re_sub_from].
  destruct (re_match (c :: s)) as [[d rest]|] eqn:Hmatch.
  - apply re_match_shorter in Hmatch. simpl in Hmatch.
    f_equal. apply re_sub_from_enough; lia.
  - reflexivity.
Qed.


Lemma re_search_occurs (s : str) : re_search s = true -> occurs s.
Proof.
  induction s as [|c s IH]; [discriminate|].
  cbn [re_search]. destruct (re_match (c :: s)) as [[d rest]|] eqn:Hm.
  - intros _. apply re_match_sound in Hm as (attrs & Hs & Hd).
    exists [], d, attrs, rest. split; [exact Hs|exact Hd].
  - intros Hr. destruct (IH Hr) as (b & d & a & r & -> & Hd).
    exists (c :: b), d, a, r. split; [reflexivity|exact Hd].
Qed.

Lemma occurs_re_search (s : str) : occurs s -> re_search s = true.
Proof.
  intros (b & d & a & r & -> & Hn & Hd & Ha & Hg).
  induction b as [|c b IH].
  - simpl. pose proof (re_match_numbered_input d a r Hn Hd Ha Hg) as Hm.
    destruct (numbered_input d a ++ r) as [|c s] eqn:Hs.
    + unfold re_match in Hm. rewrite pat_open_cons in Hm. discriminate.
    + cbn [re_search]. rewrite Hm. reflexivity.
  - simpl. destruct (re_match _); [reflexivity|exact IH].
Qed.

(** Where the pattern is not found, [re.sub] returns its argument. *)
Lemma re_sub_no_match (s : str) : re_search s = false -> re_sub s = s.
Proof.
  induction s as [|c s IH]; [reflexivity|].
  cbn [re_search]. rewrite re_sub_cons.
  destruct (re_match (c :: s)) as [[d rest]|]; [discriminate|].
  intros Hr. f_equal. apply IH. exact Hr.
Qed.

End RegexFacts.

(** ** Stripping and counting *)















(** ** [_process_fill_blank] *)




Section FillBlank.
Context `{UnicodeDB}.











End FillBlank.

Lemma process_fill_blank_run `{UnicodeDB} (element : WebElement) (html : str) (w : State) :
  get_attribute element (u "outerHTML") = Ok html ->
  _process_fill_blank element w = (Ok (strip (get_text (re_sub html))), w).
Proof.
  intros Hget. unfold _process_fill_blank, bind, call, ret. rewrite Hget. reflexivity.
Qed.

Lemma not_occurs_by_search `{UnicodeDB} (s : str) : re_search s = false -> ~ occurs s.
Proof. intros Hs Ho. apply occurs_re_search in Ho. congruence. Qed.



Example process_fill_blank_sample :
  fst (@_process_fill_blank ascii_db Sample.blank_p Sample.w0) = Ok (u "The 26._  is here.").
Proof. vm_compute. reflexivity. Qed.

(** C4. Where the pattern does not occur in the markup, the normalizer
    returns the stripped text of the markup as it is: nothing is
    replaced and no indicator is inserted. *)
Theorem process_fill_blank_no_pattern `{UnicodeDB}
    (element : WebElement) (html : str) (w : State) :
  get_attribute element (u "outerHTML") = Ok html ->
  ~ occurs html ->
  _process_fill_blank element w = (Ok (strip (get_text html)), w).
Proof.
  intros Hget Hno. rewrite (process_fill_blank_run element html w Hget).
  rewrite re_sub_no_match; [reflexivity|].
  destruct (re_search html) eqn:Hs; [|reflexivity].
  exfalso. apply Hno, re_search_occurs, Hs.
Qed.

Lemma process_fill_blank_no_pattern_witness :
  get_attribute Sample.plain_p (u "outerHTML") = Ok (render Sample.plain_pieces)
  /\ ~ @occurs ascii_db (render Sample.plain_pieces)
  /\ @_process_fill_blank ascii_db Sample.plain_p Sample.w0
     = (Ok (strip (get_text (render Sample.plain_pieces))), Sample.w0).
Proof.
  assert (Hno : ~ @occurs ascii_db (render Sample.plain_pieces)).
  { apply not_occurs_by_search. vm_compute. reflexivity. }
  split; [reflexivity|]. split; [exact Hno|].
  apply (@process_fill_blank_no_pattern ascii_db Sample.plain_p
           (render Sample.plain_pieces) Sample.w0); [reflexivity|exact Hno].
Defined.

Example process_fill_blank_plain_sample :
  fst (@_process_fill_blank ascii_db Sample.plain_p Sample.w0) = Ok (u "No blank.").
Proof. vm_compute. reflexivity. Qed.

(** ** [str(int)] and [_generate_url] *)

Lemma string_of_uint_numeric (d : Decimal.uint) :
  forallb numeric (Utf8.bytes (NilEmpty.string_of_uint d)) = true.
Proof. induction d; simpl; try reflexivity; exact IHd. Qed.

Lemma str_of_int_numeric (n : Z) : forallb numeric (str_of_int n) = true.
Proof.
  unfold str_of_int. destruct (Z.to_int n) as [d|d]; simpl.
  - destruct d; try reflexivity; apply (string_of_uint_numeric (_ d)) || idtac;
      simpl; apply string_of_uint_numeric.
  - destruct d; try reflexivity; simpl; apply string_of_uint_numeric.
Qed.


Section Occurrences.
Variable f : char -> bool.
Variable p : str.
Hypothesis p_nonempty : p <> [].
Hypothesis p_foreign : forallb (fun c => negb (f c)) p = true.






End Occurrences.



Example generate_url_sample :
  fst (_generate_url 2020 12 1 Sample.w0)
  = Ok (u "https://www.hellocet.online/cet4?year=2020&month=12&setCount=1").
Proof. vm_compute. reflexivity. Qed.

Example generate_url_negative :
  fst (_generate_url (-3) 0 1 Sample.w0)
  = Ok (u "https://www.hellocet.online/cet4?year=-3&month=0&setCount=1").
Proof. vm_compute. reflexivity. Qed.

(** ** The monad *)

Lemma bind_Ok {A B} (m : M A) (k : A -> M B) (w w1 : State) (a : A) :
  m w = (Ok a, w1) -> bind m k w = k a w1.
Proof. intros Hm. unfold bind. rewrite Hm. reflexivity. Qed.

Lemma bind_Raise {A B} (m : M A) (k : A -> M B) (w w1 : State) (e : exn) :
  m w = (Raise e, w1) -> bind m k w = (Raise e, w1).
Proof. intros Hm. unfold bind. rewrite Hm. reflexivity. Qed.

(** A sequence that returns went through both of its parts. *)
Lemma bind_Ok_inv {A B} (m : M A) (k : A -> M B) (w w2 : State) (b : B) :
  bind m k w = (Ok b, w2) ->
  exists a w1, m w = (Ok a, w1) /\ k a w1 = (Ok b, w2).
Proof.
  unfold bind. destruct (m w) as [[a|e] w1]; [|discriminate].
  intros Hk. exists a, w1. split; [reflexivity|exact Hk].
Qed.

Lemma try_except_Ok {A} (body : M A) (handler : exn -> M A) (w w1 : State) (a : A) :
  body w = (Ok a, w1) -> try_except body handler w = (Ok a, w1).
Proof. intros Hb. unfold try_except. rewrite Hb. reflexivity. Qed.

Lemma try_except_Raise {A} (body : M A) (handler : exn -> M A) (w w1 : State) (e : exn) :
  body w = (Raise e, w1) -> try_except body handler w = handler e w1.
Proof. intros Hb. unfold try_except. rewrite Hb. reflexivity. Qed.

Lemma log_run (l : level) (msg : str) (w : State) :
  log l msg w = (Ok tt, add_logs w [(l, msg)]).
Proof. reflexivity. Qed.

Lemma add_logs_nil (w : State) : add_logs w [] = w.
Proof. destruct w. unfold add_logs. simpl. rewrite app_nil_r. reflexivity. Qed.

Lemma add_logs_add_logs (w : State) (l1 l2 : list (level * str)) :
  add_logs (add_logs w l1) l2 = add_logs w (l1 ++ l2).
Proof. unfold add_logs. simpl. rewrite app_assoc. reflexivity. Qed.

(** *** Computations that stay within a footprint *)
Section Respects.
Context (R : State -> State -> Prop) `{!PreOrder R}.

Lemma respects_ret {A} (a : A) : respects R (ret a).
Proof. intros w. simpl. reflexivity. Qed.

Lemma respects_call {A} (r : result A) : respects R (call r).
Proof. intros w. simpl. reflexivity. Qed.

Lemma respects_bind {A B} (m : M A) (k : A -> M B) :
  respects R m -> (forall a, respects R (k a)) -> respects R (bind m k).
Proof.
  intros Hm Hk w. specialize (Hm w). unfold bind.
  destruct (m w) as [[a|e] w1]; simpl in *; [|exact Hm].
  etransitivity; [exact Hm|apply Hk].
Qed.

Lemma respects_try_except {A} (body : M A) (handler : exn -> M A) :
  respects R body -> (forall e, respects R (handler e)) ->
  respects R (try_except body handler).
Proof.
  intros Hb Hh w. specialize (Hb w). unfold try_except.
  destruct (body w) as [[a|e] w1]; simpl in *; [exact Hb|].
  etransitivity; [exact Hb|apply Hh].
Qed.

Lemma respects_try_finally {A} (body : M A) (final : M unit) :
  respects R body -> respects R final -> respects R (try_finally body final).
Proof.
  intros Hb Hf w. specialize (Hb w). unfold try_finally.
  destruct (body w) as [r w1]; simpl in *. specialize (Hf w1).
  destruct (final w1) as [[[]|e] w2]; simpl in *; etransitivity; eassumption.
Qed.

Lemma respects_for_enumerate {A T} (body : nat -> A -> T -> M T) (xs : list A) :
  (forall i x acc, respects R (body i x acc)) ->
  forall i acc, respects R (for_enumerate i xs body acc).
Proof.
  intros Hb. induction xs as [|x xs IH]; intros i acc; cbn [for_enumerate].
  - apply respects_ret.
  - apply respects_bind; [apply Hb|]. intros acc1. apply IH.
Qed.

Lemma respects_comprehension {A B} (f : A -> M B) (xs : list A) :
  (forall x, respects R (f x)) -> respects R (comprehension f xs).
Proof.
  intros Hf. induction xs as [|x xs IH]; cbn [comprehension].
  - apply respects_ret.
  - apply respects_bind; [apply Hf|]. intros y.
    apply respects_bind; [exact IH|]. intros ys. apply respects_ret.
Qed.

End Respects.

(** *** Computations that never raise *)

Lemma never_raises_ret {A} (a : A) : never_raises (ret a).
Proof. intros w. exists a. reflexivity. Qed.

Lemma never_raises_log (l : level) (msg : str) : never_raises (log l msg).
Proof. intros w. exists tt. reflexivity. Qed.

Lemma never_raises_bind {A B} (m : M A) (k : A -> M B) :
  never_raises m -> (forall a, never_raises (k a)) -> never_raises (bind m k).
Proof.
  intros Hm Hk w. destruct (Hm w) as [a Ha]. unfold bind.
  destruct (m w) as [r w1]. simpl in Ha. subst r. apply Hk.
Qed.

(** A handler that never raises is all a [try] statement needs. *)
Lemma never_raises_try_except {A} (body : M A) (handler : exn -> M A) :
  (forall e, never_raises (handler e)) -> never_raises (try_except body handler).
Proof.
  intros Hh w. unfold try_except.
  destruct (body w) as [[a|e] w1]; [exists a; reflexivity|apply Hh].
Qed.

Lemma never_raises_try_finally {A} (body : M A) (final : M unit) :
  never_raises body -> never_raises final -> never_raises (try_finally body final).
Proof.
  intros Hb Hf w. destruct (Hb w) as [a Ha]. unfold try_finally.
  destruct (body w) as [r w1]. simpl in Ha. subst r.
  destruct (Hf w1) as [[] Hu]. destruct (final w1) as [r2 w2]. simpl in Hu. subst r2.
  exists a. reflexivity.
Qed.

Lemma never_raises_for_enumerate {A T} (body : nat -> A -> T -> M T) (xs : list A) :
  (forall i x acc, never_raises (body i x acc)) ->
  forall i acc, never_raises (for_enumerate i xs body acc).
Proof.
  intros Hb. induction xs as [|x xs IH]; intros i acc; cbn [for_enumerate].
  - apply never_raises_ret.
  - apply never_raises_bind; [apply Hb|]. intros acc1. apply IH.
Qed.

(** *** The footprints are preorders *)

#[local] Instance only_logs_preorder : PreOrder only_logs.
Proof.
  split.
  - intros w. exists []. symmetry. apply add_logs_nil.
  - intros a b c [l1 ->] [l2 ->]. exists (l1 ++ l2). apply add_logs_add_logs.
Qed.

#[local] Instance logs_grow_preorder : PreOrder logs_grow.
Proof.
  split.
  - intros w. exists []. symmetry. apply app_nil_r.
  - intros a b c [l1 H1] [l2 H2]. exists (l1 ++ l2). rewrite H2, H1, app_assoc. reflexivity.
Qed.

#[local] Instance same_sessions_preorder : PreOrder same_sessions.
Proof.
  split.
  - intros w. repeat split.
  - intros a b c (H1 & H2 & H3) (H4 & H5 & H6).
    split; [|split]; etransitivity; eassumption.
Qed.

#[local] Instance dirs_within_preorder (allowed : gset path) : PreOrder (dirs_within allowed).
Proof.
  split.
  - intros w. split; set_solver.
  - intros a b c [Hab Hab'] [Hbc Hbc']. split.
    + etransitivity; eassumption.
    + intros x Hx. apply Hbc', elem_of_union in Hx as [Hx|Hx].
      * apply Hab', Hx.
      * apply elem_of_union_r, Hx.
Qed.

Lemma only_logs_logs_grow (w w' : State) : only_logs w w' -> logs_grow w w'.
Proof. intros [l ->]. exists l. reflexivity. Qed.

Lemma only_logs_same_sessions (w w' : State) : only_logs w w' -> same_sessions w w'.
Proof. intros [l ->]. repeat split. Qed.

Lemma only_logs_dirs_within (allowed : gset path) (w w' : State) :
  only_logs w w' -> dirs_within allowed w w'.
Proof. intros [l ->]. split; simpl; set_solver. Qed.

Lemma respects_weaken {A} (R1 R2 : State -> State -> Prop) (m : M A) :
  (forall w w', R1 w w' -> R2 w w') -> respects R1 m -> respects R2 m.
Proof. intros Hi Hm w. apply Hi, Hm. Qed.

Lemma respects_log (R : State -> State -> Prop) (l : level) (msg : str) :
  (forall w w', only_logs w w' -> R w w') -> respects R (log l msg).
Proof. intros Hi w. apply Hi. exists [(l, msg)]. reflexivity. Qed.

Lemma returns_within_log {A} (m : M A) :
  never_raises m -> respects only_logs m ->
  forall w, exists a l, m w = (Ok a, add_logs w l).
Proof.
  intros Hn Hr w. destruct (Hn w) as [a Ha]. destruct (Hr w) as [l Hl].
  exists a, l. destruct (m w) as [r w1]. simpl in *. congruence.
Qed.

Create HintDb footprint discriminated.

#[local] Hint Resolve only_logs_logs_grow only_logs_same_sessions only_logs_dirs_within
  : footprint.

(** Take a computation apart along its structure; what is left are
    calls of methods whose footprint is already known. *)
Ltac footprint_step :=
  lazymatch goal with
  | |- respects _ (bind _ _) => apply respects_bind; [typeclasses eauto| |intros]
  | |- respects _ (try_except _ _) => apply respects_try_except; [typeclasses eauto| |intros]
  | |- respects _ (try_finally _ _) => apply respects_try_finally; [typeclasses eauto| |]
  | |- respects _ (ret _) => apply respects_ret; typeclasses eauto
  | |- respects _ (call _) => apply respects_call; typeclasses eauto
  | |- respects _ (time_sleep _) => apply respects_ret; typeclasses eauto
  | |- respects _ (for_enumerate _ _ _ _) =>
      apply respects_for_enumerate; [typeclasses eauto|intros]
  | |- respects _ (comprehension _ _) =>
      apply respects_comprehension; [typeclasses eauto|intros]
  | |- respects _ (log _ _) => apply respects_log; auto with footprint
  | |- respects _ (if ?b then _ else _) => destruct b
  | |- respects _ (match ?x with _ => _ end) => destruct x
  | |- never_raises (bind _ _) => apply never_raises_bind; [|intros]
  | |- never_raises (try_except _ _) => apply never_raises_try_except; intros
  | |- never_raises (try_finally _ _) => apply never_raises_try_finally
  | |- never_raises (ret _) => apply never_raises_ret
  | |- never_raises (time_sleep _) => apply never_raises_ret
  | |- never_raises (log _ _) => apply never_raises_log
  | |- never_raises (for_enumerate _ _ _ _) => apply never_raises_for_enumerate; intros
  | |- never_raises (if ?b then _ else _) => destruct b
  | |- never_raises (match ?x with _ => _ end) => destruct x
  | |- respects _ _ =>
      first [ solve [auto with footprint]
            | eapply respects_weaken; [|solve [eauto with footprint]];
              solve [eauto with footprint] ]
  | |- never_raises _ => solve [auto with footprint]
  end.

Ltac footprint :=
  unfold logger_debug, logger_info, logger_warning, logger_error;
  repeat footprint_step.

Section SpiderFootprints.
Context `{UnicodeDB}.

Lemma process_fill_blank_only_logs (element : WebElement) :
  respects only_logs (_process_fill_blank element).
Proof. unfold _process_fill_blank. footprint. Qed.

Lemma direct_paragraph_only_logs (j : nat) (paragraph : WebElement) (acc : str) :
  respects only_logs (direct_paragraph j paragraph acc).
Proof. unfold direct_paragraph. footprint. Qed.

Lemma paragraph_block_only_logs (j : nat) (block : WebElement) (acc : str) :
  respects only_logs (paragraph_block j block acc).
Proof. unfold paragraph_block. footprint. Qed.

Lemma paragraph_block_never_raises (j : nat) (block : WebElement) (acc : str) :
  never_raises (paragraph_block j block acc).
Proof. unfold paragraph_block. footprint. Qed.

#[local] Hint Resolve process_fill_blank_only_logs direct_paragraph_only_logs
  paragraph_block_only_logs paragraph_block_never_raises : footprint.

Lemma paragraph_container_only_logs (i : nat) (c : WebElement) (acc : str) :
  respects only_logs (paragraph_container i c acc).
Proof. unfold paragraph_container. footprint. Qed.

#[local] Hint Resolve paragraph_container_only_logs : footprint.

Lemma extract_paragraph_container_only_logs (container : WebElement) (name : str) :
  respects only_logs (_extract_paragraph_container container name).
Proof. unfold _extract_paragraph_container. footprint. Qed.

(** Whatever the container answers, [_extract_paragraph_container]
    returns a text. *)
Lemma extract_paragraph_container_never_raises (container : WebElement) (name : str) :
  never_raises (_extract_paragraph_container container name).
Proof. unfold _extract_paragraph_container. footprint. Qed.

#[local] Hint Resolve extract_paragraph_container_only_logs
  extract_paragraph_container_never_raises : footprint.

Lemma extract_module_try_only_logs (container : WebElement) (name : str) :
  respects only_logs (extract_module_try container name).
Proof. unfold extract_module_try. footprint. Qed.

Lemma extract_module_except_only_logs (container : WebElement) (name : str) (e : exn) :
  respects only_logs (extract_module_except container name e).
Proof. unfold extract_module_except. footprint. Qed.

Lemma extract_module_except_never_raises (container : WebElement) (name : str) (e : exn) :
  never_raises (extract_module_except container name e).
Proof. unfold extract_module_except. footprint. Qed.

#[local] Hint Resolve extract_module_try_only_logs extract_module_except_only_logs
  extract_module_except_never_raises : footprint.

Lemma extract_module_only_logs (container : WebElement) (name : str) :
  respects only_logs (_extract_module container name).
Proof. unfold _extract_module. footprint. Qed.

Lemma extract_module_never_raises (container : WebElement) (name : str) :
  never_raises (_extract_module container name).
Proof. unfold _extract_module. footprint. Qed.

End SpiderFootprints.

(** ** [_extract_paragraph_container] and [_extract_module] *)



Lemma strip_nil : strip [] = [].
Proof. reflexivity. Qed.

(** The test of line 232 is the length test alone. *)
Lemma fallback_test (alt : str) :
  truthy alt && (20 <? len (strip alt))%Z = (20 <? len (strip alt))%Z.
Proof. destruct alt; reflexivity. Qed.

(** A text that continues itself after one more code point begins with it. *)
Lemma shifted_head (c : char) (n x y : str) :
  c :: n ++ x = n ++ y -> exists y', y = c :: y'.
Proof.
  revert c. induction n as [|a n IH]; intros c Heq; simpl in Heq.
  - exists x. congruence.
  - injection Heq as -> Heq. exact (IH a Heq).
Qed.

Lemma failure_label_not_fallback (name msg alt : str) :
  failure_label name msg <> name ++ nl ++ alt.
Proof.
  unfold failure_label. change (u "【") with [12304]. simpl app. intros Heq.
  apply shifted_head in Heq as [y' Hy]. discriminate.
Qed.

Section Extraction.
Context `{UnicodeDB}.

(** C2, as the code has it. Where neither locator finds a paragraph
    container, [_extract_paragraph_container] logs that nothing was
    found and returns the empty string; it does not raise. *)
Theorem extract_paragraph_container_none_found
    (container : WebElement) (container_name : str) (w : State) :
  find_elements container XPATH xp_paragraph_containers = Ok [] ->
  find_elements container XPATH xp_paragraph_containers_loose = Ok [] ->
  _extract_paragraph_container container container_name w
  = (Ok [],
     add_logs w
       [(INFO, u "开始提取" ++ container_name ++ u "...");
        (WARNING, u "未找到" ++ container_name ++ u "，尝试其他选择器...");
        (WARNING, u "❌ 未找到任何" ++ container_name)]).
Proof.
  intros H1 H2. unfold _extract_paragraph_container, try_except, bind, call, ret,
    logger_info, logger_warning, log. simpl. rewrite H1. simpl. rewrite H2. simpl.
  unfold add_logs. simpl. repeat rewrite <- app_assoc. reflexivity.
Qed.


(** C10. Where the lookup of the module raises, the sweep over the
    whole root decides: its text, after the module name, is returned
    exactly when its stripped length exceeds 20; otherwise the labelled
    failure text with the message of the exception is returned. *)
Theorem extract_module_fallback_threshold
    (container : WebElement) (module_name : str) (e : exn) (w : State) :
  find_element container XPATH (xp_module module_name) = Raise e ->
  exists alt w',
    _extract_paragraph_container container module_name
      (add_logs w [(INFO, u "开始提取" ++ module_name ++ u "...");
                   (ERROR, u "❌ " ++ module_name ++ u "提取失败: " ++ exn_msg e);
                   (INFO, u "尝试备选方案提取" ++ module_name ++ u "...")])
    = (Ok alt, w')
    /\ ((20 < len (strip alt))%Z ->
        _extract_module container module_name w = (Ok (module_name ++ nl ++ alt), w'))
    /\ ((len (strip alt) <= 20)%Z ->
        _extract_module container module_name w
        = (Ok (failure_label module_name (exn_msg e)), w'))
    /\ (fst (_extract_module container module_name w) = Ok (module_name ++ nl ++ alt)
        <-> (20 < len (strip alt))%Z).
Proof.
  intros Hfind.
  set (w3 := add_logs w _).
  destruct (returns_within_log _
              (extract_paragraph_container_never_raises container module_name)
              (extract_paragraph_container_only_logs container module_name) w3)
    as (alt & l & Halt).
  exists alt, (add_logs w3 l). split; [exact Halt|].
  assert (Hrun : _extract_module container module_name w
                 = (Ok (if (20 <? len (strip alt))%Z then module_name ++ nl ++ alt
                        else failure_label module_name (exn_msg e)), add_logs w3 l)).
  { unfold _extract_module, logger_info. rewrite (bind_Ok _ _ _ _ _ (log_run _ _ _)).
    erewrite try_except_Raise.
    2:{ unfold extract_module_try. eapply bind_Raise. unfold call. rewrite Hfind. reflexivity. }
    unfold extract_module_except, logger_error, logger_info.
    rewrite (bind_Ok _ _ _ _ _ (log_run _ _ _)), (bind_Ok _ _ _ _ _ (log_run _ _ _)).
    repeat rewrite add_logs_add_logs. cbn [app]. fold w3.
    rewrite (bind_Ok _ _ _ _ _ Halt), fallback_test.
    destruct (20 <? len (strip alt))%Z; reflexivity. }
  rewrite Hrun. cbn [fst].
  destruct (Z.ltb_spec 20 (len (strip alt))) as [Hlt|Hge].
  - split; [reflexivity|]. split; [lia|]. split; [intros _; exact Hlt|reflexivity].
  - split; [lia|]. split; [reflexivity|]. split; [|lia].
    intros [= Heq]. exfalso. exact (failure_label_not_fallback _ _ _ Heq).
Qed.

End Extraction.

Lemma extract_paragraph_container_none_found_witness :
  find_elements Sample.bare_root XPATH xp_paragraph_containers = Ok []
  /\ find_elements Sample.bare_root XPATH xp_paragraph_containers_loose = Ok []
  /\ _extract_paragraph_container Sample.bare_root (u "段落容器") Sample.w0
     = (Ok [],
        add_logs Sample.w0
          [(INFO, u "开始提取" ++ u "段落容器" ++ u "...");
           (WARNING, u "未找到" ++ u "段落容器" ++ u "，尝试其他选择器...");
           (WARNING, u "❌ 未找到任何" ++ u "段落容器")]).
Proof.
  split; [reflexivity|]. split; [reflexivity|].
  apply (extract_paragraph_container_none_found Sample.bare_root
           (u "段落容器") Sample.w0); reflexivity.
Defined.

(** C2, as the claim has it, fails: on a container without paragraph
    containers the text returned is the empty string, not a marker. *)
Lemma extract_paragraph_container_marker_counterexample :
  find_elements Sample.bare_root XPATH xp_paragraph_containers = Ok []
  /\ find_elements Sample.bare_root XPATH xp_paragraph_containers_loose = Ok []
  /\ fst (_extract_paragraph_container Sample.bare_root (u "段落容器") Sample.w0)
     = Ok []
  /\ ~ (exists marker,
          marker <> []
          /\ fst (_extract_paragraph_container Sample.bare_root
                    (u "段落容器") Sample.w0) = Ok marker).
Proof.
  split; [reflexivity|]. split; [reflexivity|].
  assert (Hrun : fst (_extract_paragraph_container Sample.bare_root
                        (u "段落容器") Sample.w0) = Ok []) by (vm_compute; reflexivity).
  split; [exact Hrun|]. intros (marker & Hne & Hm). rewrite Hrun in Hm. congruence.
Qed.



Example extract_module_labelled_failure :
  fst (@_extract_module ascii_db Sample.bare_root (u "Section A") Sample.w0)
  = Ok (u "【Section A提取失败：Message: no such element】" ++ nl ++ nl).
Proof. vm_compute. reflexivity. Qed.

Lemma extract_module_fallback_threshold_witness :
  find_element Sample.prose_root XPATH (xp_module (u "Section A"))
  = Raise Sample.no_such_element
  /\ exists alt w',
       _extract_paragraph_container Sample.prose_root (u "Section A")
         (add_logs Sample.w0
            [(INFO, u "开始提取" ++ u "Section A" ++ u "...");
             (ERROR, u "❌ " ++ u "Section A" ++ u "提取失败: "
                       ++ exn_msg Sample.no_such_element);
             (INFO, u "尝试备选方案提取" ++ u "Section A" ++ u "...")])
       = (Ok alt, w')
       /\ ((20 < len (strip alt))%Z ->
           @_extract_module ascii_db Sample.prose_root (u "Section A") Sample.w0
           = (Ok (u "Section A" ++ nl ++ alt), w'))
       /\ ((len (strip alt) <= 20)%Z ->
           @_extract_module ascii_db Sample.prose_root (u "Section A") Sample.w0
           = (Ok (failure_label (u "Section A") (exn_msg Sample.no_such_element)), w'))
       /\ (fst (@_extract_module ascii_db Sample.prose_root (u "Section A") Sample.w0)
           = Ok (u "Section A" ++ nl ++ alt)
           <-> (20 < len (strip alt))%Z).
Proof.
  split; [reflexivity|].
  apply (@extract_module_fallback_threshold ascii_db Sample.prose_root (u "Section A")
           Sample.no_such_element Sample.w0). reflexivity.
Defined.

(** ** The footprint of a run *)

#[local] Instance routine_preorder (allowed : gset path) : PreOrder (routine allowed).
Proof.
  split.
  - intros w. split; [|split]; reflexivity.
  - intros a b c (H1 & H2 & H3) (H4 & H5 & H6).
    split; [|split]; etransitivity; eassumption.
Qed.

#[local] Instance anything_preorder (allowed : gset path) : PreOrder (anything allowed).
Proof.
  split.
  - intros w. split; reflexivity.
  - intros a b c (H1 & H2) (H3 & H4). split; etransitivity; eassumption.
Qed.

Lemma only_logs_routine (allowed : gset path) (w w' : State) :
  only_logs w w' -> routine allowed w w'.
Proof.
  intros Hl. split; [|split].
  - apply only_logs_same_sessions, Hl.
  - apply only_logs_logs_grow, Hl.
  - apply only_logs_dirs_within, Hl.
Qed.

Lemma routine_anything (allowed : gset path) (w w' : State) :
  routine allowed w w' -> anything allowed w w'.
Proof. intros (_ & H2 & H3). split; assumption. Qed.

Lemma only_logs_anything (allowed : gset path) (w w' : State) :
  only_logs w w' -> anything allowed w w'.
Proof. intros Hl. apply routine_anything, only_logs_routine, Hl. Qed.

Lemma routine_intro (allowed : gset path) (w w' : State) :
  launched w' = launched w -> closed w' = closed w -> driver w' = driver w ->
  logs w' = logs w -> dirs w ⊆ dirs w' -> dirs w' ⊆ dirs w ∪ allowed ->
  routine allowed w w'.
Proof.
  intros H1 H2 H3 H4 H5 H6. repeat split; try assumption.
  exists []. rewrite app_nil_r. exact H4.
Qed.

Lemma anything_intro (allowed : gset path) (w w' : State) :
  logs w' = logs w -> dirs w' = dirs w -> anything allowed w w'.
Proof.
  intros H1 H2. split.
  - exists []. rewrite app_nil_r. exact H1.
  - unfold dirs_within. rewrite H2. split; [reflexivity|apply union_subseteq_l].
Qed.

#[local] Hint Resolve only_logs_routine routine_anything only_logs_anything : footprint.

Lemma routine_refl (allowed : gset path) (w : State) : routine allowed w w.
Proof. apply (@PreOrder_Reflexive _ _ (routine_preorder allowed)). Qed.

Section Primitives.
Context (allowed : gset path).

Lemma set_page_routine (pg : option Page) : respects (routine allowed) (set_page pg).
Proof. intros w. apply routine_intro; simpl; try reflexivity; set_solver. Qed.

Lemma current_page_routine : respects (routine allowed) current_page.
Proof. intros w. unfold current_page. destruct (page w); apply routine_refl. Qed.

Lemma read_driver_routine : respects (routine allowed) read_driver.
Proof. intros w. apply routine_refl. Qed.

Lemma mkdir_routine (p : path) : p ∈ allowed -> respects (routine allowed) (mkdir p).
Proof.
  intros Hp w. unfold mkdir.
  destruct (is_dir w p); [apply routine_refl|].
  destruct (is_file w p); [apply routine_refl|].
  destruct (is_dir w (parent p)); [|apply routine_refl].
  apply routine_intro; simpl; try reflexivity.
  - apply union_subseteq_r.
  - apply union_least; [|apply union_subseteq_l].
    apply singleton_subseteq_l, elem_of_union_r, Hp.
Qed.

Lemma write_file_routine (p : path) (s : str) : respects (routine allowed) (write_file p s).
Proof.
  intros w. unfold write_file.
  destruct (is_dir w p); [apply routine_refl|].
  destruct (is_dir w (parent p)); [|apply routine_refl].
  apply routine_intro; simpl; try reflexivity; set_solver.
Qed.

Lemma f_write_routine (p : path) (s : str) : respects (routine allowed) (f_write p s).
Proof. intros w. apply routine_intro; simpl; try reflexivity; set_solver. Qed.

Lemma assign_driver_anything (v : option nat) : respects (anything allowed) (assign_driver v).
Proof. intros w. apply anything_intro; reflexivity. Qed.

Lemma webdriver_Chrome_anything (env : Env) : respects (anything allowed) (webdriver_Chrome env).
Proof.
  intros w. unfold webdriver_Chrome.
  destruct (chrome env); [apply anything_intro; reflexivity|].
  apply (@PreOrder_Reflexive _ _ (anything_preorder allowed)).
Qed.

Lemma driver_quit_anything (d : nat) : respects (anything allowed) (driver_quit d).
Proof. intros w. apply anything_intro; reflexivity. Qed.

Lemma mkdir_each_routine (ps : list path) :
  (forall p, In p ps -> p ∈ allowed) -> respects (routine allowed) (mkdir_each ps).
Proof.
  induction ps as [|p ps IH]; intros Hps; cbn [mkdir_each].
  - apply respects_ret. typeclasses eauto.
  - apply respects_bind; [typeclasses eauto| |intros _].
    + apply mkdir_routine, Hps. left. reflexivity.
    + apply IH. intros q Hq. apply Hps. right. exact Hq.
Qed.

End Primitives.

Lemma never_raises_read_driver : never_raises read_driver.
Proof. intros w. exists (driver w). reflexivity. Qed.

Lemma never_raises_assign_driver (v : option nat) : never_raises (assign_driver v).
Proof. intros w. exists tt. reflexivity. Qed.

Lemma never_raises_driver_quit (d : nat) : never_raises (driver_quit d).
Proof. intros w. exists tt. reflexivity. Qed.

#[local] Hint Resolve set_page_routine current_page_routine read_driver_routine
  write_file_routine f_write_routine assign_driver_anything webdriver_Chrome_anything
  driver_quit_anything never_raises_read_driver never_raises_assign_driver
  never_raises_driver_quit : footprint.

Section DriverFootprints.
Context (allowed : gset path).

Lemma driver_get_routine (env : Env) (d : nat) (url : str) :
  respects (routine allowed) (driver_get env d url).
Proof. unfold driver_get. footprint. Qed.

Lemma driver_page_source_routine (d : nat) :
  respects (routine allowed) (driver_page_source d).
Proof. unfold driver_page_source. footprint. Qed.

Lemma wait_clickable_routine (d : nat) (b : By) (value : str) :
  respects (routine allowed) (wait_clickable d b value).
Proof. unfold wait_clickable. footprint. Qed.

Lemma wait_present_routine (d : nat) (b : By) (value : str) :
  respects (routine allowed) (wait_present d b value).
Proof. unfold wait_present. footprint. Qed.

Lemma element_click_routine (el : WebElement) :
  respects (routine allowed) (element_click el).
Proof. unfold element_click. footprint. Qed.

Lemma open_w_routine (p : path) : respects (routine allowed) (open_w p).
Proof. unfold open_w. footprint. Qed.

End DriverFootprints.

#[local] Hint Resolve driver_get_routine driver_page_source_routine wait_clickable_routine
  wait_present_routine element_click_routine open_w_routine : footprint.

Lemma debug_pages_allowed (year month : Z) : [u "debug_pages"] ∈ run_dirs year month.
Proof. unfold run_dirs. set_solver. Qed.

Lemma ancestors_allowed (year month : Z) (q : path) :
  In q (ancestors [] (save_dir year month)) -> q ∈ run_dirs year month.
Proof.
  intros Hq. unfold run_dirs. apply elem_of_union_r, elem_of_list_to_set.
  apply list_elem_of_In. exact Hq.
Qed.

Lemma generate_url_only_logs (year month set_count : Z) :
  respects only_logs (_generate_url year month set_count).
Proof. unfold _generate_url. footprint. Qed.

#[local] Hint Resolve generate_url_only_logs extract_module_only_logs
  extract_module_never_raises extract_paragraph_container_only_logs
  extract_paragraph_container_never_raises : footprint.

Section CrawlFootprints.
Context `{UnicodeDB} (env : Env) (year month set_count : Z).

Lemma debug_save_routine (d : nat) (filename : str) :
  respects (routine (run_dirs year month)) (_debug_save_page_source env d filename).
Proof.
  unfold _debug_save_page_source. footprint.
  apply mkdir_routine, debug_pages_allowed.
Qed.

Lemma debug_save_never_raises (d : nat) (filename : str) :
  never_raises (_debug_save_page_source env d filename).
Proof. unfold _debug_save_page_source. footprint. Qed.

Lemma click_read_button_routine (d : nat) : respects (routine (run_dirs year month)) (click_read_button d).
Proof. unfold click_read_button. footprint. Qed.

Lemma click_read_button_never_raises (d : nat) : never_raises (click_read_button d).
Proof. unfold click_read_button. footprint. Qed.

Lemma extract_paper_routine (d : nat) :
  respects (routine (run_dirs year month)) (extract_paper d year month set_count).
Proof.
  unfold extract_paper, _extract_writing, _extract_section_a, _extract_section_b,
    _extract_section_c. footprint.
Qed.

Lemma save_paper_routine (paper : str) :
  respects (routine (run_dirs year month)) (save_paper year month set_count paper).
Proof.
  unfold save_paper, mkdir_parents. footprint.
  apply mkdir_each_routine, ancestors_allowed.
Qed.

End CrawlFootprints.

#[local] Hint Resolve debug_save_routine debug_save_never_raises click_read_button_routine
  click_read_button_never_raises extract_paper_routine save_paper_routine : footprint.

Lemma routine_same_sessions (allowed : gset path) (w w' : State) :
  routine allowed w w' -> same_sessions w w'.
Proof. intros (Hs & _). exact Hs. Qed.

Lemma routine_logs_grow (allowed : gset path) (w w' : State) :
  routine allowed w w' -> logs_grow w w'.
Proof. intros (_ & Hl & _). exact Hl. Qed.

Lemma anything_dirs_within (allowed : gset path) (w w' : State) :
  anything allowed w w' -> dirs_within allowed w w'.
Proof. intros (_ & Hd). exact Hd. Qed.

Lemma same_sessions_after_launch (env : Env) (a b c : State) :
  same_sessions a b -> after_launch env b c -> after_launch env a c.
Proof.
  unfold after_launch. intros (H1 & H2 & H3) Hbc.
  destruct (chrome env).
  - destruct Hbc as (H4 & H5 & H6). rewrite H4, H5, H6, H1, H2. repeat split.
  - etransitivity; [split; [|split]; eassumption|exact Hbc].
Qed.

Lemma after_launch_same_sessions (env : Env) (a b c : State) :
  after_launch env a b -> same_sessions b c -> after_launch env a c.
Proof.
  unfold after_launch. intros Hab (H1 & H2 & H3).
  destruct (chrome env).
  - destruct Hab as (H4 & H5 & H6). rewrite H1, H2, H3. repeat split; assumption.
  - etransitivity; [exact Hab|split; [|split]; assumption].
Qed.

Section Sessions.
Context `{UnicodeDB} (env : Env) (year month set_count : Z).

Lemma webdriver_Chrome_after_launch {A} (rest : nat -> M A) :
  (forall d, respects same_sessions (rest d)) ->
  respects (after_launch env)
    (let* d := webdriver_Chrome env in assign_driver (Some d) ;; rest d).
Proof.
  intros Hrest w. unfold bind at 1, webdriver_Chrome, after_launch.
  destruct (chrome env) as [pg|e]; [|simpl; reflexivity].
  unfold bind, assign_driver. cbn [fst snd].
  set (w1 := mkState _ _ _ _ _ _ _).
  destruct (Hrest (S (launched w)) w1) as (H1 & H2 & H3).
  destruct (rest (S (launched w)) w1) as [[a|e] w2]; cbn [snd] in *;
    rewrite H1, H2, H3; repeat split.
Qed.

Lemma before_launch {A B} (m : M A) (k : A -> M B) :
  never_raises m -> respects same_sessions m ->
  (forall a, respects (after_launch env) (k a)) ->
  respects (after_launch env) (bind m k).
Proof.
  intros Hn Hm Hk w. destruct (Hn w) as [a Ha]. specialize (Hm w). unfold bind.
  destruct (m w) as [r w1]. cbn [fst snd] in *. subst r.
  eapply same_sessions_after_launch; [exact Hm|apply Hk].
Qed.

Lemma then_same_sessions {A B} (m : M A) (k : A -> M B) :
  respects (after_launch env) m -> (forall a, respects same_sessions (k a)) ->
  respects (after_launch env) (bind m k).
Proof.
  intros Hm Hk w. specialize (Hm w). unfold bind.
  destruct (m w) as [[a|e] w1]; cbn [snd] in *; [|exact Hm].
  eapply after_launch_same_sessions; [exact Hm|apply Hk].
Qed.

Lemma except_same_sessions {A} (body : M A) (handler : exn -> M A) :
  respects (after_launch env) body -> (forall e, respects same_sessions (handler e)) ->
  respects (after_launch env) (try_except body handler).
Proof.
  intros Hb Hh w. specialize (Hb w). unfold try_except.
  destruct (body w) as [[a|e] w1]; cbn [snd] in *; [exact Hb|].
  eapply after_launch_same_sessions; [exact Hb|apply Hh].
Qed.

Lemma generate_url_never_raises : never_raises (_generate_url year month set_count).
Proof. unfold _generate_url. footprint. Qed.

(** A step of the routine kind leaves the sessions alone. *)
Lemma routine_step {A} (m : M A) :
  respects (routine (run_dirs year month)) m -> respects same_sessions m.
Proof. apply respects_weaken. apply routine_same_sessions. Qed.

Lemma open_page_after_launch :
  respects (after_launch env) (open_page env year month set_count).
Proof.
  unfold open_page, logger_info.
  apply before_launch; [apply never_raises_log|apply respects_log, only_logs_same_sessions|intros _].
  apply before_launch; [apply never_raises_log|apply respects_log, only_logs_same_sessions|intros _].
  apply before_launch; [apply generate_url_never_raises| |intros target_url].
  { eapply respects_weaken; [apply only_logs_same_sessions|apply generate_url_only_logs]. }
  apply before_launch; [apply never_raises_log|apply respects_log, only_logs_same_sessions|intros _].
  apply before_launch; [apply never_raises_log|apply respects_log, only_logs_same_sessions|intros _].
  apply webdriver_Chrome_after_launch. intros d.
  apply routine_step. footprint.
Qed.

Lemma assemble_after_launch :
  respects (after_launch env) (assemble env year month set_count).
Proof.
  unfold assemble. apply then_same_sessions; [apply open_page_after_launch|intros d].
  apply routine_step. footprint.
Qed.

Lemma crawl_try_after_launch :
  respects (after_launch env) (crawl_try env year month set_count).
Proof.
  unfold crawl_try. apply then_same_sessions; [apply assemble_after_launch|intros paper].
  apply routine_step. footprint.
Qed.

Lemma crawl_except_routine (e : exn) :
  respects (routine (run_dirs year month)) (crawl_except env year month set_count e).
Proof. unfold crawl_except. footprint. Qed.

Lemma crawl_except_never_raises (e : exn) :
  never_raises (crawl_except env year month set_count e).
Proof. unfold crawl_except. footprint. Qed.

(** The [try] statement with its [except] suite always returns a
    report, and leaves the one session of the run, if any, in [driver]. *)
Lemma crawl_body_after_launch (w : State) :
  exists report w1,
    try_except (crawl_try env year month set_count)
      (crawl_except env year month set_count) w = (Ok report, w1)
    /\ after_launch env w w1.
Proof.
  pose proof (except_same_sessions _ _ crawl_try_after_launch
                (fun e => routine_step _ (crawl_except_routine e)) w) as Hr.
  destruct (never_raises_try_except (crawl_try env year month set_count) _
              crawl_except_never_raises w) as [report Hreport].
  destruct (try_except _ _ w) as [r w1]. cbn [fst snd] in *. subst r.
  exists report, w1. split; [reflexivity|exact Hr].
Qed.

(** C6. Whatever the run meets, [crawl_single_paper] returns a report,
    and where Chrome started, the one session it started has been quit
    by then: one more session launched, one more [quit()], no page
    shown any more, and the closing record last in the log. Where
    Chrome did not start there is no session to quit. *)
Theorem crawl_single_paper_quits_session (w : State) :
  exists report w',
    crawl_single_paper env year month set_count w = (Ok report, w')
    /\ match chrome env with
       | Ok _ =>
           launched w' = S (launched w) /\ closed w' = S (closed w)
           /\ page w' = None
           /\ exists l, logs w' = l ++ [(INFO, u "🔚 浏览器已关闭")]
       | Raise _ => launched w' = launched w /\ closed w' = closed w
       end.
Proof.
  unfold crawl_single_paper, bind at 1, assign_driver. cbn [fst snd].
  set (w0 := mkState _ _ _ _ _ _ _).
  destruct (crawl_body_after_launch w0) as (report & w1 & Hbody & Hlaunch).
  unfold try_finally. rewrite Hbody. unfold after_launch in Hlaunch.
  unfold crawl_finally, bind at 1, read_driver. cbn [fst snd].
  destruct (chrome env) as [pg|e].
  - destruct Hlaunch as (H1 & H2 & H3). rewrite H3.
    unfold bind, driver_quit, logger_info, log. cbn.
    eexists _, _. split; [reflexivity|]. cbn.
    rewrite H1, H2. repeat split. eexists. reflexivity.
  - destruct Hlaunch as (H1 & H2 & H3). rewrite H3. cbn.
    eexists _, _. split; [reflexivity|]. split; assumption.
Qed.

End Sessions.

Example run_succeeds :
  fst (@crawl_single_paper ascii_db Sample.env_ok 2020 12 1 Sample.w0)
  = Ok (@success_msg Sample.env_ok 2020 12 1 Sample.paper_ok).
Proof. vm_compute. reflexivity. Qed.

Example run_without_container :
  let '(r, w) := @crawl_single_paper ascii_db Sample.env_no_container 2020 12 1 Sample.w0 in
  r = Ok (u "❌ 爬取失败：Message: ") /\ launched w = 1%nat /\ closed w = 1%nat
  /\ page w = None.
Proof. vm_compute. repeat split. Qed.

Example run_without_chrome :
  let '(r, w) := @crawl_single_paper ascii_db Sample.env_no_chrome 2020 12 1 Sample.w0 in
  r = Ok (u "❌ 爬取失败：Message: session not created")
  /\ launched w = 0%nat /\ closed w = 0%nat.
Proof. vm_compute. repeat split. Qed.

(** ** The reveal button *)

#[local] Instance same_page_preorder : PreOrder same_page.
Proof.
  split.
  - intros w. reflexivity.
  - intros a b c Hab Hbc. unfold same_page in *. congruence.
Qed.

Lemma only_logs_same_page (w w' : State) : only_logs w w' -> same_page w w'.
Proof. intros [l ->]. reflexivity. Qed.

#[local] Hint Resolve only_logs_same_page : footprint.

Lemma mkdir_same_page (p : path) : respects same_page (mkdir p).
Proof.
  intros w. unfold mkdir.
  destruct (is_dir w p); [reflexivity|].
  destruct (is_file w p); [reflexivity|].
  destruct (is_dir w (parent p)); reflexivity.
Qed.

Lemma open_w_same_page (p : path) : respects same_page (open_w p).
Proof.
  intros w. unfold open_w, write_file.
  destruct (is_dir w p); [reflexivity|].
  destruct (is_dir w (parent p)); reflexivity.
Qed.

Lemma f_write_same_page (p : path) (s : str) : respects same_page (f_write p s).
Proof. intros w. reflexivity. Qed.

Lemma driver_page_source_same_page (d : nat) : respects same_page (driver_page_source d).
Proof.
  intros w. unfold driver_page_source, bind, current_page, call.
  destruct (page w); reflexivity.
Qed.

#[local] Hint Resolve mkdir_same_page open_w_same_page f_write_same_page
  driver_page_source_same_page : footprint.

Lemma debug_save_same_page (env : Env) (d : nat) (filename : str) :
  respects same_page (_debug_save_page_source env d filename).
Proof. unfold _debug_save_page_source. footprint. Qed.

Lemma generate_url_run (year month set_count : Z) (w : State) :
  _generate_url year month set_count w
  = (Ok (address year month set_count),
     add_logs w [(DEBUG, u "生成的URL: " ++ address year month set_count)]).
Proof.
  unfold _generate_url, address, bind, logger_debug, log, ret, add_logs. reflexivity.
Qed.

(** What remains of a run once a stage has been reached: the log only grows. *)
Lemma run_continues {A B} (R : State -> State -> Prop) `{!PreOrder R}
    (m : M A) (k : A -> M B) (handler : exn -> M B) (final : M unit)
    (w : State) (r : result A) (w1 : State) :
  m w = (r, w1) ->
  (forall a, respects R (k a)) -> (forall e, respects R (handler e)) ->
  respects R final ->
  R w1 (snd (try_finally (try_except (bind m k) handler) final w)).
Proof.
  intros Hm Hk Hh Hf. unfold try_finally, try_except, bind. rewrite Hm.
  assert (Hfin : forall (x : result B) (w2 : State), R w1 w2 ->
            R w1 (snd (let '(r0, w3) := (x, w2) in
                       match final w3 with
                       | (Ok _, w4) => (r0, w4)
                       | (Raise e, w4) => (Raise e, w4)
                       end))).
  { intros x w2 H12. cbn. specialize (Hf w2).
    destruct (final w2) as [[[]|e] w4]; cbn in *; etransitivity; eassumption. }
  destruct r as [a|e].
  - specialize (Hk a w1). destruct (k a w1) as [[b|e] w2]; cbn [snd] in Hk.
    + apply Hfin, Hk.
    + specialize (Hh e w2). destruct (handler e w2) as [x w3]. cbn [snd] in Hh.
      apply Hfin. etransitivity; eassumption.
  - specialize (Hh e w1). destruct (handler e w1) as [x w3]. cbn [snd] in Hh.
    apply Hfin, Hh.
Qed.

Section ClickStage.
Context `{UnicodeDB} (env : Env) (year month set_count : Z).

Lemma webdriver_Chrome_run (w : State) (blank : Page) :
  chrome env = Ok blank ->
  exists w1,
    webdriver_Chrome env w = (Ok (S (launched w)), w1) /\ page w1 = Some blank.
Proof.
  intros Hchrome. unfold webdriver_Chrome. rewrite Hchrome.
  eexists. split; reflexivity.
Qed.

Lemma driver_get_run (d : nat) (url : str) (w : State) (shown pg : Page) :
  page w = Some shown -> get env url = Ok pg ->
  exists w1, driver_get env d url w = (Ok tt, w1) /\ page w1 = Some pg.
Proof.
  intros Hpage Hget. unfold driver_get, bind, current_page, call.
  rewrite Hpage, Hget. eexists. split; reflexivity.
Qed.

Lemma debug_save_run (d : nat) (filename : str) (w : State) :
  exists w1, _debug_save_page_source env d filename w = (Ok tt, w1) /\ page w1 = page w.
Proof.
  pose proof (debug_save_same_page env d filename w) as Hpage.
  destruct (debug_save_never_raises env d filename w) as [[] Hok].
  destruct (_debug_save_page_source env d filename w) as [r w1].
  cbn [fst snd] in *. subst r. exists w1. split; [reflexivity|exact Hpage].
Qed.

(** Where Chrome starts and the page loads, [open_page] returns with
    that page shown. *)
Lemma open_page_loads (w : State) (blank pg : Page) :
  chrome env = Ok blank ->
  get env (address year month set_count) = Ok pg ->
  exists w1,
    open_page env year month set_count w = (Ok (S (launched w)), w1)
    /\ page w1 = Some pg.
Proof.
  intros Hchrome Hget.
  unfold open_page, logger_info.
  rewrite (bind_Ok _ _ _ _ _ (log_run _ _ _)), (bind_Ok _ _ _ _ _ (log_run _ _ _)).
  rewrite (bind_Ok _ _ _ _ _ (generate_url_run _ _ _ _)).
  rewrite (bind_Ok _ _ _ _ _ (log_run _ _ _)), (bind_Ok _ _ _ _ _ (log_run _ _ _)).
  match goal with |- context [bind (webdriver_Chrome env) _ ?wa] =>
    assert (Hl : launched wa = launched w) by reflexivity; generalize dependent wa
  end.
  intros wa Hl. rewrite <- Hl.
  destruct (webdriver_Chrome_run wa blank Hchrome) as (wb & Hb & Hpb).
  rewrite (bind_Ok _ _ _ _ _ Hb).
  assert (Hc : assign_driver (Some (S (launched wa))) wb
               = (Ok tt, snd (assign_driver (Some (S (launched wa))) wb))) by reflexivity.
  rewrite (bind_Ok _ _ _ _ _ Hc).
  rewrite (bind_Ok _ _ _ _ _ (log_run _ _ _)), (bind_Ok _ _ _ _ _ (log_run _ _ _)).
  match goal with |- context [bind (driver_get _ _ _) _ ?wc] =>
    assert (Hpc : page wc = Some blank) by exact Hpb; generalize dependent wc
  end.
  intros wc Hpc.
  destruct (driver_get_run (S (launched wa)) _ wc blank pg Hpc Hget) as (wd & Hd & Hpd).
  rewrite (bind_Ok _ _ _ _ _ Hd).
  assert (Hs : time_sleep 3 wd = (Ok tt, wd)) by reflexivity.
  rewrite (bind_Ok _ _ _ _ _ Hs).
  destruct (debug_save_run (S (launched wa))
              (debug_name (u "initial_page_") year month set_count) wd)
    as (we & He & Hpe).
  rewrite (bind_Ok _ _ _ _ _ He).
  exists we. split; [reflexivity|]. rewrite Hpe. exact Hpd.
Qed.

(** Lines 284-294 where the button is not found or the click fails. *)
Lemma click_read_button_fails (d : nat) (w : State) (pg : Page) (e : exn) :
  page w = Some pg ->
  (until_clickable pg XPATH xp_read_button = Raise e
   \/ exists btn, until_clickable pg XPATH xp_read_button = Ok btn
                  /\ click btn = Raise e) ->
  click_read_button d w = (Ok tt, add_logs w [click_warning e]).
Proof.
  intros Hpage Hfail.
  unfold click_read_button, try_except, wait_clickable, bind, current_page, call.
  rewrite Hpage. destruct Hfail as [Hwait|(btn & Hwait & Hclick)]; rewrite Hwait.
  - reflexivity.
  - unfold element_click, bind, call. rewrite Hclick. reflexivity.
Qed.

Lemma debug_save_logs (d : nat) (filename : str) (w : State) :
  exists w1 l,
    _debug_save_page_source env d filename w = (Ok tt, w1) /\ logs w1 = logs w ++ l.
Proof.
  destruct (debug_save_run d filename w) as (w1 & Hrun & _).
  pose proof (debug_save_routine env year month d filename w) as Hr.
  rewrite Hrun in Hr. destruct (routine_logs_grow _ _ _ Hr) as [l Hl].
  exists w1, l. split; assumption.
Qed.

Lemma crawl_finally_anything :
  respects (anything (run_dirs year month)) crawl_finally.
Proof. unfold crawl_finally. footprint. Qed.

Lemma anything_logs_grow (allowed : gset path) (w w' : State) :
  anything allowed w w' -> logs_grow w w'.
Proof. intros (Hl & _). exact Hl. Qed.

(** The stages up to the document, where the click stage fails. *)
Lemma assemble_click_failure (w : State) (blank pg : Page) (e : exn) :
  chrome env = Ok blank ->
  get env (address year month set_count) = Ok pg ->
  (until_clickable pg XPATH xp_read_button = Raise e
   \/ exists btn, until_clickable pg XPATH xp_read_button = Ok btn
                  /\ click btn = Raise e) ->
  exists d w1,
    open_page env year month set_count w = (Ok d, w1)
    /\ click_read_button d (add_logs w1 [(INFO, u "查找并点击阅读按钮...")])
       = (Ok tt, add_logs (add_logs w1 [(INFO, u "查找并点击阅读按钮...")])
                   [click_warning e])
    /\ assemble env year month set_count w
       = (_debug_save_page_source env d
            (debug_name (u "after_click_") year month set_count) ;;
          extract_paper d year month set_count)
           (add_logs (add_logs w1 [(INFO, u "查找并点击阅读按钮...")])
              [click_warning e])
    /\ exists l1 l2,
         logs (snd (assemble env year month set_count w))
         = (logs w1 ++ [(INFO, u "查找并点击阅读按钮...")]) ++ click_warning e
             :: l1 ++ (INFO, u "定位内容容器...") :: l2.
Proof.
  intros Hchrome Hget Hfail.
  destruct (open_page_loads w blank pg Hchrome Hget) as (w1 & Hopen & Hpage).
  exists (S (launched w)), w1. split; [exact Hopen|].
  set (wi := add_logs w1 [(INFO, u "查找并点击阅读按钮...")]).
  assert (Hclick : click_read_button (S (launched w)) wi
                   = (Ok tt, add_logs wi [click_warning e])).
  { apply (click_read_button_fails _ wi pg e); [exact Hpage|exact Hfail]. }
  split; [exact Hclick|].
  assert (Hasm : assemble env year month set_count w
                 = (_debug_save_page_source env (S (launched w))
                      (debug_name (u "after_click_") year month set_count) ;;
                    extract_paper (S (launched w)) year month set_count)
                     (add_logs wi [click_warning e])).
  { unfold assemble, logger_info. rewrite (bind_Ok _ _ _ _ _ Hopen).
    rewrite (bind_Ok _ _ _ _ _ (log_run _ _ _)). fold wi.
    rewrite (bind_Ok _ _ _ _ _ Hclick). reflexivity. }
  split; [exact Hasm|].
  rewrite Hasm. set (w2 := add_logs wi [click_warning e]).
  destruct (debug_save_logs (S (launched w))
              (debug_name (u "after_click_") year month set_count) w2)
    as (w3 & l1 & Hdebug & Hl1).
  rewrite (bind_Ok _ _ _ _ _ Hdebug).
  unfold extract_paper, logger_info. rewrite (bind_Ok _ _ _ _ _ (log_run _ _ _)).
  match goal with
  | |- context [snd (?m ?wx)] =>
      assert (Hrest : respects (routine (run_dirs year month)) m);
      [|destruct (routine_logs_grow _ _ _ (Hrest wx)) as [l2 Hl2]]
  end.
  { unfold _extract_writing, _extract_section_a, _extract_section_b, _extract_section_c.
    footprint. }
  exists l1, l2. rewrite Hl2. cbn [add_logs logs]. rewrite Hl1.
  subst w2 wi. cbn [add_logs logs]. repeat rewrite <- app_assoc. reflexivity.
Qed.

(** C7. Where Chrome starts and the page loads but the reveal button is
    not found in time, or clicking it raises, the click stage returns
    with one warning logged and nothing else changed; the run goes on
    with the very stages that follow a click, and its log has the
    warning and, after it, the record that opens the container-locate
    stage. *)
Theorem click_failure_continues (w : State) (blank pg : Page) (e : exn) :
  chrome env = Ok blank ->
  get env (address year month set_count) = Ok pg ->
  (until_clickable pg XPATH xp_read_button = Raise e
   \/ exists btn, until_clickable pg XPATH xp_read_button = Ok btn
                  /\ click btn = Raise e) ->
  (exists d w1,
     open_page env year month set_count w = (Ok d, w1)
     /\ click_read_button d (add_logs w1 [(INFO, u "查找并点击阅读按钮...")])
        = (Ok tt, add_logs (add_logs w1 [(INFO, u "查找并点击阅读按钮...")])
                    [click_warning e])
     /\ assemble env year month set_count w
        = (_debug_save_page_source env d
             (debug_name (u "after_click_") year month set_count) ;;
           extract_paper d year month set_count)
            (add_logs (add_logs w1 [(INFO, u "查找并点击阅读按钮...")])
               [click_warning e]))
  /\ exists l0 l1 l2,
       logs (snd (crawl_single_paper env year month set_count w))
       = l0 ++ click_warning e :: l1 ++ (INFO, u "定位内容容器...") :: l2.
Proof.
  intros Hchrome Hget Hfail. split.
  - destruct (assemble_click_failure w blank pg e Hchrome Hget Hfail)
      as (d & w1 & H1 & H2 & H3 & _).
    exists d, w1. repeat split; assumption.
  - unfold crawl_single_paper.
    rewrite (bind_Ok _ _ w (snd (assign_driver None w)) tt eq_refl).
    set (w0 := snd (assign_driver None w)).
    destruct (assemble_click_failure w0 blank pg e Hchrome Hget Hfail)
      as (d & w1 & _ & _ & _ & l1 & l2 & Hlogs).
    destruct (assemble env year month set_count w0) as [r w4] eqn:Hasm.
    cbn [snd] in Hlogs. unfold crawl_try.
    destruct (run_continues logs_grow (assemble env year month set_count)
                (fun paper =>
                   save_paper year month set_count paper ;;
                   logger_info (success_msg env year month set_count paper) ;;
                   ret (success_msg env year month set_count paper))
                (crawl_except env year month set_count) crawl_finally
                w0 r w4 Hasm) as [l3 Hl3].
    + intros paper. eapply respects_weaken; [apply routine_logs_grow|].
      instantiate (1 := run_dirs year month). footprint.
    + intros e0. eapply respects_weaken; [apply routine_logs_grow|].
      apply crawl_except_routine.
    + eapply respects_weaken; [apply anything_logs_grow|apply crawl_finally_anything].
    + exists (logs w1 ++ [(INFO, u "查找并点击阅读按钮...")]), l1, (l2 ++ l3).
      rewrite Hl3, Hlogs.
      repeat first [rewrite <- app_assoc | rewrite <- app_comm_cons]. reflexivity.
Qed.

End ClickStage.

Lemma click_failure_continues_witness :
  chrome Sample.env_no_button = Ok Sample.blank_page
  /\ get Sample.env_no_button (address 2020 12 1) = Ok Sample.revealed_page
  /\ (until_clickable Sample.revealed_page XPATH xp_read_button = Raise Sample.timeout
      \/ exists btn, until_clickable Sample.revealed_page XPATH xp_read_button = Ok btn
                     /\ click btn = Raise Sample.timeout)
  /\ (exists d w1,
        @open_page Sample.env_no_button 2020 12 1 Sample.w0 = (Ok d, w1)
        /\ click_read_button d (add_logs w1 [(INFO, u "查找并点击阅读按钮...")])
           = (Ok tt, add_logs (add_logs w1 [(INFO, u "查找并点击阅读按钮...")])
                       [click_warning Sample.timeout])
        /\ @assemble ascii_db Sample.env_no_button 2020 12 1 Sample.w0
           = (_debug_save_page_source Sample.env_no_button d
                (debug_name (u "after_click_") 2020 12 1) ;;
              @extract_paper ascii_db d 2020 12 1)
               (add_logs (add_logs w1 [(INFO, u "查找并点击阅读按钮...")])
                  [click_warning Sample.timeout]))
  /\ exists l0 l1 l2,
       logs (snd (@crawl_single_paper ascii_db Sample.env_no_button 2020 12 1 Sample.w0))
       = l0 ++ click_warning Sample.timeout :: l1 ++ (INFO, u "定位内容容器...") :: l2.
Proof.
  split; [reflexivity|]. split; [reflexivity|]. split; [left; reflexivity|].
  apply (@click_failure_continues ascii_db Sample.env_no_button 2020 12 1 Sample.w0
           Sample.blank_page Sample.revealed_page Sample.timeout);
    [reflexivity|reflexivity|left; reflexivity].
Defined.

Example run_without_button :
  fst (@crawl_single_paper ascii_db Sample.env_no_button 2020 12 1 Sample.w0)
  = fst (@crawl_single_paper ascii_db Sample.env_ok 2020 12 1 Sample.w0).
Proof. vm_compute. reflexivity. Qed.

(** ** The document and the file *)

Lemma log_Ok_inv (l : level) (msg : str) (w w' : State) (x : unit) :
  log l msg w = (Ok x, w') -> w' = add_logs w [(l, msg)].
Proof. rewrite log_run. intros [= _ <-]. reflexivity. Qed.

Lemma f_write_Ok_inv (p : path) (s : str) (w w' : State) (x : unit) :
  f_write p s w = (Ok x, w') -> files w' !! p = Some s /\ dirs w' = dirs w.
Proof.
  unfold f_write. intros [= _ <-]. cbn [files dirs].
  split; [apply lookup_insert_eq|reflexivity].
Qed.

Section Document.
Context `{UnicodeDB} (env : Env) (year month set_count : Z).




End Document.


Example written_document_sample :
  files Sample.state_ok !! save_path 2020 12 1 = Some Sample.paper_ok.
Proof. vm_compute. reflexivity. Qed.

(** ** Running again *)

Lemma is_dir_elem (w : State) (p : path) : p ∈ dirs w -> is_dir w p = true.
Proof. intros Hp. destruct p; [reflexivity|]. apply bool_decide_eq_true, Hp. Qed.

Lemma is_dir_true (w : State) (p : path) : is_dir w p = true -> p = [] \/ p ∈ dirs w.
Proof.
  destruct p; [left; reflexivity|]. intros Hp. right.
  apply bool_decide_eq_true in Hp. exact Hp.
Qed.

Lemma is_dir_not_elem (w : State) (p : path) :
  p <> [] -> p ∉ dirs w -> is_dir w p = false.
Proof. intros Hne Hp. destruct p; [congruence|]. apply bool_decide_eq_false, Hp. Qed.

Lemma mkdir_each_existing (ps : list path) (w : State) :
  (forall q, In q ps -> q ∈ dirs w) -> mkdir_each ps w = (Ok tt, w).
Proof.
  induction ps as [|p ps IH]; intros Hps; [reflexivity|].
  cbn [mkdir_each]. unfold bind, mkdir at 1.
  rewrite is_dir_elem by (apply Hps; left; reflexivity).
  apply IH. intros q Hq. apply Hps. right. exact Hq.
Qed.

Lemma mkdir_Ok_inv (p : path) (w w' : State) (x : unit) :
  mkdir p w = (Ok x, w') ->
  (p = [] \/ p ∈ dirs w') /\ dirs w ⊆ dirs w' /\ dirs w' ⊆ dirs w ∪ {[p]}.
Proof.
  unfold mkdir. destruct (is_dir w p) eqn:Hd.
  - intros [= _ <-]. split; [apply is_dir_true, Hd|]. split; [reflexivity|apply union_subseteq_l].
  - destruct (is_file w p); [discriminate|].
    destruct (is_dir w (parent p)); [|discriminate].
    intros [= _ <-]. cbn [dirs]. split; [right; apply elem_of_union_l, elem_of_singleton; reflexivity|].
    split; [apply union_subseteq_r|]. apply union_least; [apply union_subseteq_r|apply union_subseteq_l].
Qed.

Lemma open_w_Ok_inv (p : path) (w w' : State) (x : unit) :
  open_w p w = (Ok x, w') -> is_dir w p = false /\ dirs w' = dirs w.
Proof.
  unfold open_w, write_file. destruct (is_dir w p); [discriminate|].
  destruct (is_dir w (parent p)); [|discriminate].
  intros [= _ <-]. split; reflexivity.
Qed.

Lemma save_path_not_allowed (year month set_count : Z) :
  save_path year month set_count ∉ run_dirs year month.
Proof.
  unfold run_dirs, save_path, save_dir. cbn [ancestors app].
  rewrite elem_of_union, elem_of_singleton, elem_of_list_to_set.
  intros [Heq|Hin]; [discriminate|].
  apply list_elem_of_In in Hin. cbn [In] in Hin.
  destruct Hin as [Heq|[Heq|[]]]; discriminate.
Qed.

Lemma save_path_parent (year month set_count : Z) :
  parent (save_path year month set_count) = save_dir year month.
Proof. reflexivity. Qed.

Lemma save_dir_ancestor (year month : Z) :
  In (save_dir year month) (ancestors [] (save_dir year month)).
Proof. unfold save_dir. cbn [ancestors app In]. right. left. reflexivity. Qed.


Section Rerun.
Context `{UnicodeDB} (year month set_count : Z).

(** A returning [save_paper] leaves the directories ready. *)
Lemma save_paper_dirs_ready (paper : str) (w w' : State) (x : unit) :
  save_paper year month set_count paper w = (Ok x, w') ->
  dirs_ready year month set_count w'.
Proof.
  unfold save_paper, mkdir_parents, save_dir. cbn [ancestors app mkdir_each].
  intros Hrun.
  apply bind_Ok_inv in Hrun as (? & w3 & Hmk & Hrun).
  apply bind_Ok_inv in Hmk as (? & w1 & Hmk1 & Hmk).
  apply bind_Ok_inv in Hmk as (? & w2 & Hmk2 & Hmk).
  unfold ret in Hmk. injection Hmk as _ <-.
  apply bind_Ok_inv in Hrun as (? & w4 & Hopen & Hrun).
  apply f_write_Ok_inv in Hrun as [_ Hd5].
  apply open_w_Ok_inv in Hopen as [Hnot Hd4].
  apply mkdir_Ok_inv in Hmk1 as ([Hnil|Hin1] & _ & _); [discriminate|].
  apply mkdir_Ok_inv in Hmk2 as ([Hnil|Hin2] & Hsub & _); [discriminate|].
  split.
  - intros q Hq. rewrite Hd5, Hd4. cbn [In] in Hq.
    destruct Hq as [<-|[<-|[]]]; [apply Hsub, Hin1|exact Hin2].
  - rewrite Hd5, Hd4. intros Hin. apply is_dir_elem in Hin. congruence.
Qed.

(** With the directories ready, [save_paper] returns and the file holds
    the document, whatever it held before. *)
Lemma save_paper_ready (paper : str) (w : State) :
  dirs_ready year month set_count w ->
  exists w',
    save_paper year month set_count paper w = (Ok tt, w')
    /\ files w' !! save_path year month set_count = Some paper.
Proof.
  intros [Hanc Hpath]. unfold save_paper, mkdir_parents.
  rewrite (bind_Ok _ _ _ _ _ (mkdir_each_existing _ w Hanc)).
  assert (Hopen : open_w (save_path year month set_count) w
                  = (Ok tt, snd (open_w (save_path year month set_count) w))).
  { unfold open_w, write_file.
    rewrite is_dir_not_elem; [|discriminate|exact Hpath].
    rewrite save_path_parent, is_dir_elem; [reflexivity|].
    apply Hanc, save_dir_ancestor. }
  rewrite (bind_Ok _ _ _ _ _ Hopen).
  eexists. split; [reflexivity|]. cbn [files]. apply lookup_insert_eq.
Qed.

Lemma crawl_finally_run (w : State) :
  exists w', crawl_finally w = (Ok tt, w') /\ files w' = files w /\ dirs w' = dirs w.
Proof.
  unfold crawl_finally, bind at 1, read_driver.
  destruct (driver w) as [d|]; eexists; (split; [reflexivity|split; reflexivity]).
Qed.

Lemma assemble_anything (env : Env) :
  respects (anything (run_dirs year month)) (assemble env year month set_count).
Proof. unfold assemble, open_page. footprint. Qed.


End Rerun.


Example rerun_sample :
  files Sample.state_after_ok !! save_path 2020 12 1 = Some Sample.paper_ok
  /\ files (snd (@crawl_single_paper ascii_db Sample.env_prose 2020 12 1
                   Sample.state_after_ok))
       !! save_path 2020 12 1 = Some Sample.paper_prose.
Proof. split; vm_compute; reflexivity. Qed.

(** * Further properties *)

(** ** Runs that return and only log *)

Lemma bind_logs {A B} (m : M A) (k : A -> M B) (w : State) (a : A) (b : B) :
  (exists l1, m w = (Ok a, add_logs w l1)) ->
  (forall w1, exists l2, k a w1 = (Ok b, add_logs w1 l2)) ->
  exists l, bind m k w = (Ok b, add_logs w l).
Proof.
  intros [l1 Hm] Hk. destruct (Hk (add_logs w l1)) as [l2 Hk2]. exists (l1 ++ l2).
  rewrite (bind_Ok _ _ _ _ _ Hm), Hk2, add_logs_add_logs. reflexivity.
Qed.

Lemma ret_logs {A} (a : A) (w : State) : exists l, ret a w = (Ok a, add_logs w l).
Proof. exists []. rewrite add_logs_nil. reflexivity. Qed.

Lemma call_logs {A} (r : result A) (a : A) (w : State) :
  r = Ok a -> exists l, call r w = (Ok a, add_logs w l).
Proof. intros ->. exists []. rewrite add_logs_nil. reflexivity. Qed.

Lemma log_logs (lv : level) (msg : str) (w : State) :
  exists l, log lv msg w = (Ok tt, add_logs w l).
Proof. eexists. apply log_run. Qed.

Lemma try_except_logs {A} (body : M A) (handler : exn -> M A) (w : State) (a : A) :
  (exists l, body w = (Ok a, add_logs w l)) ->
  exists l, try_except body handler w = (Ok a, add_logs w l).
Proof. intros [l Hb]. exists l. apply try_except_Ok, Hb. Qed.

Lemma try_except_handled {A} (body : M A) (handler : exn -> M A) (w : State)
    (e : exn) (a : A) :
  (exists l, body w = (Raise e, add_logs w l)) ->
  (forall w1, exists l, handler e w1 = (Ok a, add_logs w1 l)) ->
  exists l, try_except body handler w = (Ok a, add_logs w l).
Proof.
  intros [l1 Hb] Hh. destruct (Hh (add_logs w l1)) as [l2 H2]. exists (l1 ++ l2).
  rewrite (try_except_Raise _ _ _ _ _ Hb), H2, add_logs_add_logs. reflexivity.
Qed.

Lemma bind_raises_logs {A B} (m : M A) (k : A -> M B) (w : State) (e : exn) :
  (exists l, m w = (Raise e, add_logs w l)) ->
  exists l, bind m k w = (Raise e, add_logs w l).
Proof. intros [l Hm]. exists l. apply bind_Raise, Hm. Qed.

Lemma bind_then_raises_logs {A B} (m : M A) (k : A -> M B) (w : State) (a : A)
    (e : exn) :
  (exists l1, m w = (Ok a, add_logs w l1)) ->
  (forall w1, exists l2, k a w1 = (Raise e, add_logs w1 l2)) ->
  exists l, bind m k w = (Raise e, add_logs w l).
Proof.
  intros [l1 Hm] Hk. destruct (Hk (add_logs w l1)) as [l2 Hk2]. exists (l1 ++ l2).
  rewrite (bind_Ok _ _ _ _ _ Hm), Hk2, add_logs_add_logs. reflexivity.
Qed.

(** ** The paragraph-container extractor *)

Lemma paragraph_block_line (j : nat) (block : WebElement) (acc : str) (w : State) :
  exists l, paragraph_block j block acc w = (Ok (acc ++ block_line block), add_logs w l).
Proof.
  unfold paragraph_block, block_line, try_except, bind, call, ret, logger_warning.
  destruct (find_element block TAG_NAME (u "p")) as [paragraph|e].
  2:{ eexists. rewrite log_run, app_nil_r. reflexivity. }
  destruct (text paragraph) as [t|e].
  2:{ eexists. rewrite log_run, app_nil_r. reflexivity. }
  destruct (find_elements block TAG_NAME (u "input")) as [inputs|e].
  2:{ eexists. rewrite log_run, app_nil_r. reflexivity. }
  exists []. rewrite add_logs_nil.
  destruct (truthy (strip t)); [reflexivity|]. rewrite app_nil_r. reflexivity.
Qed.

Lemma paragraph_blocks_lines (blocks : list WebElement) (i : nat) (acc : str) (w : State) :
  exists l,
    for_enumerate i blocks paragraph_block acc w
    = (Ok (acc ++ flat_map block_line blocks), add_logs w l).
Proof.
  revert i acc w. induction blocks as [|block blocks IH]; intros i acc w.
  - cbn [for_enumerate flat_map]. rewrite app_nil_r. apply ret_logs.
  - cbn [for_enumerate flat_map]. rewrite app_assoc.
    eapply bind_logs; [apply paragraph_block_line|]. intros w1. apply IH.
Qed.

Lemma direct_paragraphs_lines (paragraphs : list WebElement) (texts : list str)
    (i : nat) (acc : str) (w : State) :
  Forall2 (fun p t => text p = Ok t) paragraphs texts ->
  for_enumerate i paragraphs direct_paragraph acc w
  = (Ok (acc ++ flat_map line_of_text texts), w).
Proof.
  intros Hall. revert i acc.
  induction Hall as [|p t paragraphs texts Ht Hall IH]; intros i acc.
  - cbn [for_enumerate flat_map]. rewrite app_nil_r. reflexivity.
  - cbn [for_enumerate flat_map].
    assert (Hp : direct_paragraph i p acc w = (Ok (acc ++ line_of_text t), w)).
    { unfold direct_paragraph, line_of_text, bind, call, ret. rewrite Ht.
      destruct (truthy (strip t)); [reflexivity|]. rewrite app_nil_r. reflexivity. }
    rewrite (bind_Ok _ _ _ _ _ Hp), IH, <- app_assoc. reflexivity.
Qed.

Lemma paragraph_container_view (i : nat) (pc : WebElement) (v : view) (acc : str)
    (w : State) :
  shows pc v ->
  exists l, paragraph_container i pc acc w = (Ok (acc ++ view_text v), add_logs w l).
Proof.
  intros Hv. unfold paragraph_container, logger_info.
  eapply bind_logs; [apply log_logs|]. intros w1.
  destruct v as [blocks|texts]; cbn [shows view_text] in *.
  - destruct Hv as [Hb Hne].
    eapply bind_logs; [apply call_logs, Hb|]. intros w2. cbv beta.
    destruct blocks as [|b blocks]; [congruence|]. cbn [nonempty].
    apply paragraph_blocks_lines.
  - destruct Hv as (Hb & paragraphs & Hp & Hall).
    eapply bind_logs; [apply call_logs, Hb|]. intros w2. cbv beta. cbn [nonempty].
    eapply bind_logs; [apply log_logs|]. intros w3.
    eapply bind_logs; [apply call_logs, Hp|]. intros w4.
    exists []. rewrite add_logs_nil. apply direct_paragraphs_lines, Hall.
Qed.

Lemma paragraph_containers_views (pcs : list WebElement) (vs : list view)
    (i : nat) (acc : str) (w : State) :
  Forall2 shows pcs vs ->
  exists l,
    for_enumerate i pcs paragraph_container acc w
    = (Ok (acc ++ flat_map view_text vs), add_logs w l).
Proof.
  intros Hall. revert i acc w.
  induction Hall as [|pc v pcs vs Hv Hall IH]; intros i acc w.
  - cbn [for_enumerate flat_map]. rewrite app_nil_r. apply ret_logs.
  - cbn [for_enumerate flat_map]. rewrite app_assoc.
    eapply bind_logs; [apply paragraph_container_view, Hv|]. intros w1. apply IH.
Qed.

Lemma extract_found (container_name : str) (pcs : list WebElement) (vs : list view)
    (w : State) :
  pcs <> [] ->
  Forall2 shows pcs vs ->
  exists l,
    (if nonempty pcs then
       let result_text := u "【" ++ container_name ++ u "】" ++ nl in
       let* result_text := for_enumerate 0 pcs paragraph_container result_text in
       let result_text := result_text ++ nl in
       logger_info (u "✅ " ++ container_name ++ u "提取成功，共处理"
                      ++ str_of_nat (length pcs) ++ u "个容器") ;;
       ret result_text
     else logger_warning (u "❌ 未找到任何" ++ container_name) ;; ret []) w
    = (Ok (u "【" ++ container_name ++ u "】" ++ nl ++ flat_map view_text vs ++ nl),
       add_logs w l).
Proof.
  intros Hne Hall.
  assert (Hn : nonempty pcs = true) by (destruct pcs; [congruence|reflexivity]).
  rewrite Hn. cbv zeta.
  eapply bind_logs; [apply paragraph_containers_views, Hall|]. intros w1. cbv beta.
  unfold logger_info. eapply bind_logs; [apply log_logs|]. intros w2.
  repeat rewrite <- app_assoc. apply ret_logs.
Qed.

(** X1. Whatever the container answers to the lookups, and whichever of
    them raise, [_extract_paragraph_container] returns a text, and the
    log is all it changes. *)
Theorem extract_paragraph_container_total
    (container : WebElement) (container_name : str) (w : State) :
  exists out l,
    _extract_paragraph_container container container_name w = (Ok out, add_logs w l).
Proof.
  apply returns_within_log.
  - apply extract_paragraph_container_never_raises.
  - apply extract_paragraph_container_only_logs.
Qed.

(** X2. Where the containers found show paragraph blocks or readable
    paragraphs, the text returned is the bracketed name on a line, then
    for every block its stripped paragraph text, the mark of a blank
    if it holds an input, and a newline, and for every paragraph
    outside blocks its stripped text and a newline, then an empty line.
    Empty texts give no line, and a block in which a lookup raises gives
    none either and leaves the others as they are. The looser locator
    counts only when the first one finds nothing. *)
Theorem extract_paragraph_container_text
    (container : WebElement) (container_name : str) (w : State)
    (pcs : list WebElement) (vs : list view) :
  (find_elements container XPATH xp_paragraph_containers = Ok pcs
   \/ (find_elements container XPATH xp_paragraph_containers = Ok []
       /\ find_elements container XPATH xp_paragraph_containers_loose = Ok pcs)) ->
  pcs <> [] ->
  Forall2 shows pcs vs ->
  exists l,
    _extract_paragraph_container container container_name w
    = (Ok (u "【" ++ container_name ++ u "】" ++ nl ++ flat_map view_text vs ++ nl),
       add_logs w l).
Proof.
  intros Hfound Hne Hall.
  unfold _extract_paragraph_container, logger_info.
  eapply bind_logs; [apply log_logs|]. intros w1. cbv beta.
  apply try_except_logs.
  destruct Hfound as [Hp|[Hp Hl]].
  - eapply bind_logs; [apply call_logs, Hp|]. intros w2. cbv beta.
    destruct pcs as [|pc pcs]; [congruence|]. cbn [nonempty].
    eapply bind_logs; [apply ret_logs|]. intros w3. cbv beta.
    apply (extract_found container_name (pc :: pcs)); assumption.
  - eapply bind_logs; [apply call_logs, Hp|]. intros w2. cbv beta. cbn [nonempty].
    eapply bind_logs.
    + unfold logger_warning. eapply bind_logs; [apply log_logs|]. intros w3.
      apply call_logs, Hl.
    + intros w3. cbv beta. apply extract_found; assumption.
Qed.

Lemma extract_paragraph_container_text_witness :
  exists l,
    _extract_paragraph_container Passage.root (u "附加段落内容") Sample.w0
    = (Ok (u "【" ++ u "附加段落内容" ++ u "】" ++ nl
             ++ flat_map view_text
                  [Blocks [Passage.gap_block; Passage.picture_block; Passage.text_block];
                   Paragraphs [u "Directions: read the passage and answer."]]
             ++ nl),
       add_logs Sample.w0 l).
Proof.
  apply (extract_paragraph_container_text Passage.root (u "附加段落内容") Sample.w0
           [Passage.container; Sample.prose_container]).
  - left. reflexivity.
  - discriminate.
  - constructor; [split; [reflexivity|discriminate]|].
    constructor; [|constructor].
    split; [reflexivity|]. exists [Sample.prose_p]. split; [reflexivity|].
    constructor; [reflexivity|constructor].
Defined.

Example extract_paragraph_container_blocks :
  fst (_extract_paragraph_container Passage.root (u "附加段落内容") Sample.w0)
  = Ok (u "【附加段落内容】" ++ nl
          ++ u "The 26. is here. [填空]" ++ nl
          ++ u "No blank." ++ nl
          ++ u "Directions: read the passage and answer." ++ nl ++ nl).
Proof. vm_compute. reflexivity. Qed.

Lemma call_raises_logs {A} (r : result A) (e : exn) (w : State) :
  r = Raise e -> exists l, call r w = (Raise e, add_logs w l).
Proof. intros ->. exists []. rewrite add_logs_nil. reflexivity. Qed.

Lemma direct_paragraphs_unreadable (before after : list WebElement) (p : WebElement)
    (texts : list str) (e : exn) (i : nat) (acc : str) (w : State) :
  Forall2 (fun p t => text p = Ok t) before texts ->
  text p = Raise e ->
  for_enumerate i (before ++ p :: after) direct_paragraph acc w = (Raise e, w).
Proof.
  intros Hall Hp. revert i acc.
  induction Hall as [|q t before texts Ht Hall IH]; intros i acc.
  - cbn [app for_enumerate]. apply bind_Raise.
    unfold direct_paragraph. apply bind_Raise. unfold call. rewrite Hp. reflexivity.
  - cbn [app for_enumerate].
    assert (Hq : direct_paragraph i q acc w
                 = (Ok (if truthy (strip t) then acc ++ strip t ++ nl else acc), w)).
    { unfold direct_paragraph, bind, call, ret. rewrite Ht.
      destruct (truthy (strip t)); reflexivity. }
    rewrite (bind_Ok _ _ _ _ _ Hq). apply IH.
Qed.

Lemma paragraph_container_breaks (i : nat) (pc : WebElement) (e : exn) (acc : str)
    (w : State) :
  breaks pc e ->
  exists l, paragraph_container i pc acc w = (Raise e, add_logs w l).
Proof.
  intros Hb. unfold paragraph_container, logger_info.
  eapply bind_then_raises_logs; [apply log_logs|]. intros w1.
  destruct Hb as [Hb|[Hb Hp]].
  - apply bind_raises_logs, call_raises_logs, Hb.
  - eapply bind_then_raises_logs; [apply call_logs, Hb|]. intros w2. cbv beta.
    cbn [nonempty].
    eapply bind_then_raises_logs; [apply log_logs|]. intros w3.
    destruct Hp as [Hp|(before & p & after & texts & Hp & Hall & Ht)].
    + apply bind_raises_logs, call_raises_logs, Hp.
    + eapply bind_then_raises_logs; [apply call_logs, Hp|]. intros w4.
      exists []. rewrite add_logs_nil.
      apply (direct_paragraphs_unreadable before after p texts); assumption.
Qed.

Lemma paragraph_containers_break (done rest : list WebElement) (pc : WebElement)
    (vs : list view) (e : exn) (i : nat) (acc : str) (w : State) :
  Forall2 shows done vs ->
  breaks pc e ->
  exists l,
    for_enumerate i (done ++ pc :: rest) paragraph_container acc w
    = (Raise e, add_logs w l).
Proof.
  intros Hall Hb. revert i acc w.
  induction Hall as [|c v done vs Hv Hall IH]; intros i acc w.
  - cbn [app for_enumerate]. apply bind_raises_logs, paragraph_container_breaks, Hb.
  - cbn [app for_enumerate].
    eapply bind_then_raises_logs; [apply paragraph_container_view, Hv|].
    intros w1. apply IH.
Qed.

(** X3. Outside paragraph blocks nothing is caught: where, after any
    number of containers that could be read, a container without blocks
    raises at a lookup or at the text of one of its paragraphs, all that
    was collected is dropped and the text returned is the labelled
    failure with the message of that exception. *)
Theorem extract_paragraph_container_unreadable
    (container : WebElement) (container_name : str) (w : State)
    (done rest : list WebElement) (pc : WebElement) (vs : list view) (e : exn) :
  (find_elements container XPATH xp_paragraph_containers = Ok (done ++ pc :: rest)
   \/ (find_elements container XPATH xp_paragraph_containers = Ok []
       /\ find_elements container XPATH xp_paragraph_containers_loose
          = Ok (done ++ pc :: rest))) ->
  Forall2 shows done vs ->
  breaks pc e ->
  exists l,
    _extract_paragraph_container container container_name w
    = (Ok (failure_label container_name (exn_msg e)), add_logs w l).
Proof.
  intros Hfound Hall Hb.
  assert (Hn : nonempty (done ++ pc :: rest) = true) by (destruct done; reflexivity).
  assert (Hloop : forall w1, exists l,
             (if nonempty (done ++ pc :: rest) then
                let result_text := u "【" ++ container_name ++ u "】" ++ nl in
                let* result_text :=
                  for_enumerate 0 (done ++ pc :: rest) paragraph_container result_text in
                let result_text := result_text ++ nl in
                logger_info (u "✅ " ++ container_name ++ u "提取成功，共处理"
                               ++ str_of_nat (length (done ++ pc :: rest)) ++ u "个容器") ;;
                ret result_text
              else logger_warning (u "❌ 未找到任何" ++ container_name) ;; ret []) w1
             = (Raise e, add_logs w1 l)).
  { intros w1. rewrite Hn. cbv zeta.
    apply bind_raises_logs. eapply paragraph_containers_break; eassumption. }
  set (pcs := done ++ pc :: rest) in *. clearbody pcs. clear Hall Hb.
  unfold _extract_paragraph_container, logger_info.
  eapply bind_logs; [apply log_logs|]. intros w1. cbv beta.
  eapply try_except_handled.
  - destruct Hfound as [Hp|[Hp Hl]].
    + eapply bind_then_raises_logs; [apply call_logs, Hp|]. intros w2. cbv beta.
      destruct pcs as [|c pcs]; [discriminate Hn|]. cbn [nonempty].
      eapply bind_then_raises_logs; [apply ret_logs|]. intros w3. cbv beta.
      apply Hloop.
    + eapply bind_then_raises_logs; [apply call_logs, Hp|]. intros w2. cbv beta.
      cbn [nonempty].
      eapply bind_then_raises_logs.
      * unfold logger_warning. eapply bind_logs; [apply log_logs|]. intros w3.
        apply call_logs, Hl.
      * intros w3. cbv beta. apply Hloop.
  - intros w2. cbv beta. unfold logger_error.
    eapply bind_logs; [apply log_logs|]. intros w3. apply ret_logs.
Qed.

Lemma extract_paragraph_container_unreadable_witness :
  exists l,
    _extract_paragraph_container Passage.torn_root (u "附加段落内容") Sample.w0
    = (Ok (failure_label (u "附加段落内容") (exn_msg Passage.stale)),
       add_logs Sample.w0 l).
Proof.
  apply (extract_paragraph_container_unreadable Passage.torn_root (u "附加段落内容")
           Sample.w0 [Passage.container] [] Passage.torn_container
           [Blocks [Passage.gap_block; Passage.picture_block; Passage.text_block]]).
  - left. reflexivity.
  - constructor; [split; [reflexivity|discriminate]|constructor].
  - right. split; [reflexivity|]. right.
    exists [Sample.prose_p], Passage.stale_p, [],
      [u "Directions: read the passage and answer."].
    split; [reflexivity|]. split; [|reflexivity].
    constructor; [reflexivity|constructor].
Defined.

(** ** The module extractor *)

(** X4. Whatever the page answers, and whichever lookups raise,
    [_extract_module] returns a text, and the log is all it changes. *)
Theorem extract_module_total `{UnicodeDB}
    (container : WebElement) (module_name : str) (w : State) :
  exists out l, _extract_module container module_name w = (Ok out, add_logs w l).
Proof.
  apply returns_within_log.
  - apply extract_module_never_raises.
  - apply extract_module_only_logs.
Qed.

(** *** Extraction reads nothing of the state *)

Lemma stateless_ret {A} (a : A) : stateless (ret a).
Proof. intros w w'. reflexivity. Qed.

Lemma stateless_call {A} (r : result A) : stateless (call r).
Proof. intros w w'. reflexivity. Qed.

Lemma stateless_log (lv : level) (msg : str) : stateless (log lv msg).
Proof. intros w w'. reflexivity. Qed.

Lemma stateless_bind {A B} (m : M A) (k : A -> M B) :
  stateless m -> (forall a, stateless (k a)) -> stateless (bind m k).
Proof.
  intros Hm Hk w w'. unfold bind. specialize (Hm w w').
  destruct (m w) as [[a|e] w1], (m w') as [[a'|e'] w1']; cbn [fst] in *;
    try discriminate.
  - injection Hm as <-. apply Hk.
  - injection Hm as <-. reflexivity.
Qed.

Lemma stateless_try_except {A} (body : M A) (handler : exn -> M A) :
  stateless body -> (forall e, stateless (handler e)) -> stateless (try_except body handler).
Proof.
  intros Hb Hh w w'. unfold try_except. specialize (Hb w w').
  destruct (body w) as [[a|e] w1], (body w') as [[a'|e'] w1']; cbn [fst] in *;
    try discriminate.
  - exact Hb.
  - injection Hb as <-. apply Hh.
Qed.

Lemma stateless_for_enumerate {A T} (xs : list A) (body : nat -> A -> T -> M T) :
  (forall i x acc, stateless (body i x acc)) ->
  forall i acc, stateless (for_enumerate i xs body acc).
Proof.
  intros Hbody. induction xs as [|x xs IH]; intros i acc; cbn [for_enumerate].
  - apply stateless_ret.
  - apply stateless_bind; [apply Hbody|]. intros acc1. apply IH.
Qed.

Lemma stateless_comprehension {A B} (f : A -> M B) (xs : list A) :
  (forall x, stateless (f x)) -> stateless (comprehension f xs).
Proof.
  intros Hf. induction xs as [|x xs IH]; cbn [comprehension].
  - apply stateless_ret.
  - apply stateless_bind; [apply Hf|]. intros y.
    apply stateless_bind; [apply IH|]. intros ys. apply stateless_ret.
Qed.

Ltac stateless_step :=
  lazymatch goal with
  | |- stateless (bind _ _) => apply stateless_bind; [|intros]
  | |- stateless (try_except _ _) => apply stateless_try_except; [|intros]
  | |- stateless (ret _) => apply stateless_ret
  | |- stateless (call _) => apply stateless_call
  | |- stateless (log _ _) => apply stateless_log
  | |- stateless (for_enumerate _ _ _ _) => apply stateless_for_enumerate; intros
  | |- stateless (comprehension _ _) => apply stateless_comprehension; intros
  | |- stateless (if ?b then _ else _) => destruct b
  end.

Ltac stateless :=
  unfold logger_debug, logger_info, logger_warning, logger_error;
  repeat stateless_step.

Lemma paragraph_container_stateless (i : nat) (pc : WebElement) (acc : str) :
  stateless (paragraph_container i pc acc).
Proof.
  unfold paragraph_container. stateless.
  - unfold paragraph_block. stateless.
  - unfold direct_paragraph. stateless.
Qed.

Lemma extract_paragraph_container_stateless (container : WebElement) (name : str) :
  stateless (_extract_paragraph_container container name).
Proof.
  unfold _extract_paragraph_container. stateless; apply paragraph_container_stateless.
Qed.

Lemma comprehension_texts (elems : list WebElement) (texts : list str) (w : State) :
  Forall2 (fun elem t => text elem = Ok t) elems texts ->
  comprehension (fun elem => call (text elem)) elems w = (Ok texts, w).
Proof.
  intros Hall. induction Hall as [|elem t elems texts Ht Hall IH]; [reflexivity|].
  cbn [comprehension]. unfold bind at 1, call at 1. rewrite Ht.
  rewrite (bind_Ok _ _ _ _ _ IH). reflexivity.
Qed.

Lemma texts_logs (elems : list WebElement) (texts : list str) (w : State) :
  Forall2 (fun elem t => text elem = Ok t) elems texts ->
  exists l, comprehension (fun elem => call (text elem)) elems w
            = (Ok texts, add_logs w l).
Proof.
  intros Hall. exists []. rewrite add_logs_nil. apply comprehension_texts, Hall.
Qed.

Section ModuleText.
Context `{UnicodeDB}.

Lemma comprehension_process (ps : list WebElement) (htmls : list str) (w : State) :
  Forall2 (fun p html => get_attribute p (u "outerHTML") = Ok html) ps htmls ->
  comprehension _process_fill_blank ps w
  = (Ok (map (fun html => strip (get_text (re_sub html))) htmls), w).
Proof.
  intros Hall. induction Hall as [|p html ps htmls Hp Hall IH]; [reflexivity|].
  cbn [comprehension map].
  rewrite (bind_Ok _ _ _ _ _ (process_fill_blank_run p html w Hp)).
  rewrite (bind_Ok _ _ _ _ _ IH). reflexivity.
Qed.

Lemma comprehension_process_raises (before after : list WebElement) (p : WebElement)
    (htmls : list str) (e : exn) (w : State) :
  Forall2 (fun p html => get_attribute p (u "outerHTML") = Ok html) before htmls ->
  get_attribute p (u "outerHTML") = Raise e ->
  comprehension _process_fill_blank (before ++ p :: after) w = (Raise e, w).
Proof.
  intros Hall Hp. induction Hall as [|q html before htmls Hq Hall IH].
  - cbn [app comprehension]. apply bind_Raise.
    unfold _process_fill_blank. apply bind_Raise. unfold call. rewrite Hp. reflexivity.
  - cbn [app comprehension].
    rewrite (bind_Ok _ _ _ _ _ (process_fill_blank_run q html w Hq)).
    apply bind_Raise, IH.
Qed.

Lemma word_bank_logs (module_container : WebElement) (module_name : str)
    (bank : word_bank) (w : State) :
  offers module_container bank ->
  exists l,
    try_except
      (let* options_container :=
         call (find_element module_container XPATH xp_options_container) in
       let* options := call (find_elements options_container XPATH xp_options) in
       let* option_texts := comprehension (fun opt => call (text opt)) options in
       ret (u "【选项/词库】" ++ nl ++ join nl option_texts ++ nl ++ nl))
      (fun _ =>
         logger_info (module_name ++ u "无选项/词库，跳过提取") ;;
         ret []) w
    = (Ok (word_bank_text bank), add_logs w l).
Proof.
  intros Hbank. destruct bank as [|texts]; cbn [offers word_bank_text] in *.
  - destruct Hbank as [e He]. eapply try_except_handled.
    + apply bind_raises_logs, call_raises_logs, He.
    + intros w1. cbv beta. unfold logger_info.
      eapply bind_logs; [apply log_logs|]. intros w2. apply ret_logs.
  - destruct Hbank as (oc & os & Hoc & Hos & Hall). apply try_except_logs.
    eapply bind_logs; [apply call_logs, Hoc|]. intros w1.
    eapply bind_logs; [apply call_logs, Hos|]. intros w2.
    eapply bind_logs; [apply texts_logs, Hall|]. intros w3. apply ret_logs.
Qed.

(** The module once its container and its heading are there: the
    content is whatever lines 191-203 arrive at. *)
Lemma extract_module_assembled (container module_container : WebElement)
    (module_name title : str) (intros : list str) (bank : word_bank) (content : str)
    (w : State) :
  find_element container XPATH (xp_module module_name) = Ok module_container ->
  headed module_container title intros ->
  offers module_container bank ->
  (forall w1, exists l,
     try_except
       (let* content_container := call (find_element module_container XPATH xp_content) in
        let* content_paragraphs := call (find_elements content_container TAG_NAME (u "p")) in
        let* processed_paragraphs := comprehension _process_fill_blank content_paragraphs in
        ret (join nl processed_paragraphs ++ nl ++ nl))
       (fun e =>
          logger_warning (module_name ++ u "无标准内容容器，尝试提取段落容器: " ++ exn_msg e) ;;
          _extract_paragraph_container module_container (module_name ++ u "内容")) w1
     = (Ok content, add_logs w1 l)) ->
  exists l,
    _extract_module container module_name w
    = (Ok (title ++ nl ++ join nl intros ++ nl ++ nl
             ++ u "【正文内容】" ++ nl ++ content ++ word_bank_text bank),
       add_logs w l).
Proof.
  intros Hmc (te & ies & Hte & Htitle & Hies & Hintros) Hbank Hcontent.
  unfold _extract_module, logger_info.
  eapply bind_logs; [apply log_logs|]. intros w1. cbv beta.
  apply try_except_logs. unfold extract_module_try.
  eapply bind_logs; [apply call_logs, Hmc|]. intros w2.
  eapply bind_logs; [apply call_logs, Hte|]. intros w3.
  eapply bind_logs; [apply call_logs, Htitle|]. intros w4.
  eapply bind_logs; [apply call_logs, Hies|]. intros w5.
  eapply bind_logs; [apply texts_logs, Hintros|]. intros w6. cbv beta zeta.
  eapply bind_logs; [apply Hcontent|]. intros w7.
  eapply bind_logs; [apply word_bank_logs, Hbank|]. intros w8. cbv beta.
  unfold logger_info. eapply bind_logs; [apply log_logs|]. intros w9.
  repeat rewrite <- app_assoc. apply ret_logs.
Qed.

(** X5. A module that is found, with its title, its directions, its
    standard content container and with or without a word bank, comes
    out as: the title, the directions line by line and an empty line,
    the content heading, every paragraph of the content put through
    [_process_fill_blank] line by line and an empty line, then the word
    bank under its heading if there is one. The fallback is not used. *)
Theorem extract_module_text
    (container module_container content_container : WebElement)
    (module_name title : str) (intros : list str) (paragraphs : list WebElement)
    (htmls : list str) (bank : word_bank) (w : State) :
  find_element container XPATH (xp_module module_name) = Ok module_container ->
  headed module_container title intros ->
  find_element module_container XPATH xp_content = Ok content_container ->
  find_elements content_container TAG_NAME (u "p") = Ok paragraphs ->
  Forall2 (fun p html => get_attribute p (u "outerHTML") = Ok html) paragraphs htmls ->
  offers module_container bank ->
  exists l,
    _extract_module container module_name w
    = (Ok (title ++ nl ++ join nl intros ++ nl ++ nl
             ++ u "【正文内容】" ++ nl
             ++ (join nl (map (fun html => strip (get_text (re_sub html))) htmls)
                   ++ nl ++ nl)
             ++ word_bank_text bank),
       add_logs w l).
Proof.
  intros Hmc Hhead Hcc Hps Hall Hbank.
  apply (extract_module_assembled container module_container); try assumption.
  intros w1. apply try_except_logs.
  eapply bind_logs; [apply call_logs, Hcc|]. intros w2.
  eapply bind_logs; [apply call_logs, Hps|]. intros w3.
  eapply bind_logs.
  - exists []. rewrite add_logs_nil. apply comprehension_process, Hall.
  - intros w4. apply ret_logs.
Qed.

(** X6. Where the standard content of a module that is found cannot be
    had, because its container is missing or a paragraph of it does not
    answer, the module is returned all the same: its content is what
    [_extract_paragraph_container] returns for the module container
    under the name of the module followed by the word for content, be
    it paragraphs, the empty text or a labelled failure. *)
Theorem extract_module_content_fallback
    (container module_container : WebElement) (module_name title : str)
    (intros : list str) (bank : word_bank) (e : exn) (w : State) :
  find_element container XPATH (xp_module module_name) = Ok module_container ->
  headed module_container title intros ->
  content_fails module_container e ->
  offers module_container bank ->
  exists content,
    (forall w1, fst (_extract_paragraph_container module_container
                       (module_name ++ u "内容") w1) = Ok content)
    /\ fst (_extract_module container module_name w)
       = Ok (title ++ nl ++ join nl intros ++ nl ++ nl
               ++ u "【正文内容】" ++ nl ++ content ++ word_bank_text bank).
Proof.
  intros Hmc Hhead Hfails Hbank.
  destruct (extract_paragraph_container_never_raises module_container
              (module_name ++ u "内容") w) as [content Hcontent].
  assert (Hany : forall w1, fst (_extract_paragraph_container module_container
                                   (module_name ++ u "内容") w1) = Ok content).
  { intros w1. rewrite <- Hcontent. apply extract_paragraph_container_stateless. }
  exists content. split; [exact Hany|].
  destruct (extract_module_assembled container module_container module_name title
              intros bank content w Hmc Hhead Hbank) as [l Hrun];
    [|rewrite Hrun; reflexivity].
  intros w1. eapply try_except_handled.
  - destruct Hfails as [Hcc|(cc & Hcc & Hps)].
    + apply bind_raises_logs, call_raises_logs, Hcc.
    + eapply bind_then_raises_logs; [apply call_logs, Hcc|]. intros w2.
      destruct Hps as [Hps|(before & p & after & htmls & Hps & Hall & Hp)].
      * apply bind_raises_logs, call_raises_logs, Hps.
      * eapply bind_then_raises_logs; [apply call_logs, Hps|]. intros w3.
        apply bind_raises_logs. exists []. rewrite add_logs_nil.
        apply (comprehension_process_raises before after p htmls); assumption.
  - intros w2. unfold logger_warning.
    eapply bind_logs; [apply log_logs|]. intros w3.
    destruct (returns_within_log _
                (extract_paragraph_container_never_raises module_container
                   (module_name ++ u "内容"))
                (extract_paragraph_container_only_logs module_container
                   (module_name ++ u "内容")) w3) as (out & l & Hout).
    exists l. rewrite Hout. f_equal. f_equal.
    specialize (Hany w3). rewrite Hout in Hany. cbn [fst] in Hany. congruence.
Qed.

End ModuleText.

Lemma extract_module_text_witness :
  exists l,
    @_extract_module ascii_db Passage.banked_root (u "Section A") Sample.w0
    = (Ok (u "Section A" ++ nl
             ++ join nl [u "Directions: fill in the blank."] ++ nl ++ nl
             ++ u "【正文内容】" ++ nl
             ++ (join nl (map (fun html => strip (get_text (@re_sub ascii_db html)))
                            [render Sample.blank_pieces; render Sample.plain_pieces])
                   ++ nl ++ nl)
             ++ word_bank_text (WordBank [u "A) here"; u "B) there"])),
       add_logs Sample.w0 l).
Proof.
  apply (@extract_module_text ascii_db Passage.banked_root Passage.banked_module
           Sample.content_div (u "Section A") (u "Section A")
           [u "Directions: fill in the blank."] [Sample.blank_p; Sample.plain_p]).
  - reflexivity.
  - exists Sample.title_h3, [Sample.intro_h3].
    split; [reflexivity|]. split; [reflexivity|]. split; [reflexivity|].
    constructor; [reflexivity|constructor].
  - reflexivity.
  - reflexivity.
  - constructor; [reflexivity|]. constructor; [reflexivity|constructor].
  - exists Passage.options_grid, [Passage.option_a; Passage.option_b].
    split; [reflexivity|]. split; [reflexivity|].
    constructor; [reflexivity|]. constructor; [reflexivity|constructor].
Defined.

Example extract_module_with_word_bank :
  fst (@_extract_module ascii_db Passage.banked_root (u "Section A") Sample.w0)
  = Ok (u "Section A" ++ nl ++ u "Directions: fill in the blank." ++ nl ++ nl
          ++ u "【正文内容】" ++ nl ++ u "The 26._  is here." ++ nl ++ u "No blank."
          ++ nl ++ nl
          ++ u "【选项/词库】" ++ nl ++ u "A) here" ++ nl ++ u "B) there" ++ nl ++ nl).
Proof. vm_compute. reflexivity. Qed.

Lemma extract_module_content_fallback_witness :
  exists content,
    (forall w1, fst (_extract_paragraph_container Passage.blocks_module
                       (u "Section A" ++ u "内容") w1) = Ok content)
    /\ fst (@_extract_module ascii_db Passage.blocks_root (u "Section A") Sample.w0)
       = Ok (u "Section A" ++ nl
               ++ join nl [u "Directions: fill in the blank."] ++ nl ++ nl
               ++ u "【正文内容】" ++ nl ++ content ++ word_bank_text NoWordBank).
Proof.
  apply (@extract_module_content_fallback ascii_db Passage.blocks_root
           Passage.blocks_module (u "Section A") (u "Section A")
           [u "Directions: fill in the blank."] NoWordBank Sample.no_such_element).
  - reflexivity.
  - exists Sample.title_h3, [Sample.intro_h3].
    split; [reflexivity|]. split; [reflexivity|]. split; [reflexivity|].
    constructor; [reflexivity|constructor].
  - left. reflexivity.
  - exists Sample.no_such_element. reflexivity.
Defined.

Example extract_module_blocks_content :
  fst (@_extract_module ascii_db Passage.blocks_root (u "Section A") Sample.w0)
  = Ok (u "Section A" ++ nl ++ u "Directions: fill in the blank." ++ nl ++ nl
          ++ u "【正文内容】" ++ nl
          ++ u "【Section A内容】" ++ nl
          ++ u "The 26. is here. [填空]" ++ nl ++ u "No blank." ++ nl ++ nl).
Proof. vm_compute. reflexivity. Qed.

(** ** The debug pages *)

Lemma mkdir_available (p : path) (w : State) :
  p ∈ dirs w \/ files w !! p = None ->
  is_dir w (parent p) = true ->
  exists w1,
    mkdir p w = (Ok tt, w1)
    /\ is_dir w1 p = true /\ dirs w ⊆ dirs w1 /\ dirs w1 ⊆ dirs w ∪ {[p]}
    /\ files w1 = files w /\ logs w1 = logs w /\ page w1 = page w.
Proof.
  intros Hp Hparent. unfold mkdir.
  destruct (is_dir w p) eqn:Hd.
  - exists w. split; [reflexivity|]. split; [exact Hd|].
    repeat split; try reflexivity. apply union_subseteq_l.
  - assert (Hfile : is_file w p = false).
    { destruct Hp as [Hp|Hp].
      - rewrite (is_dir_elem _ _ Hp) in Hd. discriminate.
      - unfold is_file. rewrite Hp. reflexivity. }
    rewrite Hfile, Hparent. eexists. split; [reflexivity|]. cbn [dirs files logs page].
    split.
    { apply is_dir_elem. cbn [dirs]. apply elem_of_union_l, elem_of_singleton.
      reflexivity. }
    repeat split; try reflexivity.
    + apply union_subseteq_r.
    + apply union_least; [|apply union_subseteq_l].
      apply singleton_subseteq_l, elem_of_union_r, elem_of_singleton. reflexivity.
Qed.

Section DebugPages.
Context (env : Env).

(** What [_debug_save_page_source] does up to the opened file. *)
Lemma debug_save_opened (filename : str) (w : State) :
  [u "debug_pages"] ∈ dirs w \/ files w !! [u "debug_pages"] = None ->
  debug_path filename ∉ dirs w ->
  exists w2,
    (mkdir [u "debug_pages"] ;; open_w (debug_path filename)) w = (Ok tt, w2)
    /\ files w2 = <[debug_path filename := []]> (files w)
    /\ [u "debug_pages"] ∈ dirs w2
    /\ logs w2 = logs w /\ page w2 = page w.
Proof.
  intros Hdir Hpath.
  destruct (mkdir_available [u "debug_pages"] w Hdir eq_refl)
    as (w1 & Hmk & Hd & _ & Hsub & Hfiles & Hlogs & Hpage).
  assert (Hin : [u "debug_pages"] ∈ dirs w1).
  { apply is_dir_true in Hd as [Hd|Hd]; [discriminate|exact Hd]. }
  rewrite (bind_Ok _ _ _ _ _ Hmk). unfold open_w, write_file.
  rewrite is_dir_not_elem.
  - change (parent (debug_path filename)) with [u "debug_pages"].
    rewrite Hd. eexists. split; [reflexivity|].
    cbn [files dirs logs page]. rewrite Hfiles. repeat split; assumption.
  - discriminate.
  - intros Hin1. apply Hsub in Hin1. apply elem_of_union in Hin1 as [Hin1|Hin1].
    + exact (Hpath Hin1).
    + apply elem_of_singleton in Hin1. discriminate.
Qed.

(** X7. With a page shown whose source can be read, [debug_pages] a
    directory or a free name, and no directory at the path of the debug
    page, [_debug_save_page_source] creates the directory where it is
    missing, puts the source of the page at that path in place of what
    was there, and logs one record that names the path. *)
Theorem debug_save_writes_page (d : nat) (filename : str) (w : State) (pg : Page)
    (source : str) :
  page w = Some pg ->
  page_source pg = Ok source ->
  [u "debug_pages"] ∈ dirs w \/ files w !! [u "debug_pages"] = None ->
  debug_path filename ∉ dirs w ->
  exists w',
    _debug_save_page_source env d filename w = (Ok tt, w')
    /\ files w' = <[debug_path filename := source]> (files w)
    /\ [u "debug_pages"] ∈ dirs w'
    /\ logs w' = logs w ++ [(INFO, u "✅ 页面源代码已保存: "
                                    ++ path_str env (debug_path filename))].
Proof.
  intros Hpage Hsource Hdir Hpath.
  destruct (debug_save_opened filename w Hdir Hpath)
    as (w2 & Hopen & Hfiles & Hin & Hlogs & Hpage2).
  unfold _debug_save_page_source. cbv zeta.
  change ([u "debug_pages"] ++ [filename]) with (debug_path filename).
  unfold bind at 1 in Hopen.
  destruct (mkdir [u "debug_pages"] w) as [[[]|e] w1] eqn:Hmk; [|discriminate].
  unfold try_except. rewrite (bind_Ok _ _ _ _ _ Hmk), (bind_Ok _ _ _ _ _ Hopen).
  assert (Hsrc : driver_page_source d w2 = (Ok source, w2)).
  { unfold driver_page_source, bind, current_page, call.
    rewrite Hpage2, Hpage, Hsource. reflexivity. }
  rewrite (bind_Ok _ _ _ _ _ Hsrc). unfold bind, f_write, logger_info, log.
  eexists. split; [reflexivity|]. cbn [files dirs logs].
  rewrite Hfiles, insert_insert_eq, Hlogs. repeat split; [exact Hin].
Qed.

(** X8. Where the source of the page cannot be read, for want of a
    session or because the driver raises, the file is already opened:
    [_debug_save_page_source] leaves an empty file at the path of the
    debug page, in place of what was there, logs a warning with the
    message of the exception, and returns. *)
Theorem debug_save_source_unavailable (d : nat) (filename : str) (w : State) (e : exn) :
  (page w = None /\ e = no_session)
  \/ (exists pg, page w = Some pg /\ page_source pg = Raise e) ->
  [u "debug_pages"] ∈ dirs w \/ files w !! [u "debug_pages"] = None ->
  debug_path filename ∉ dirs w ->
  exists w',
    _debug_save_page_source env d filename w = (Ok tt, w')
    /\ files w' = <[debug_path filename := []]> (files w)
    /\ logs w' = logs w ++ [(WARNING, u "保存页面源代码失败: " ++ exn_msg e)].
Proof.
  intros Hsource Hdir Hpath.
  destruct (debug_save_opened filename w Hdir Hpath)
    as (w2 & Hopen & Hfiles & Hin & Hlogs & Hpage2).
  unfold _debug_save_page_source. cbv zeta.
  change ([u "debug_pages"] ++ [filename]) with (debug_path filename).
  unfold bind at 1 in Hopen.
  destruct (mkdir [u "debug_pages"] w) as [[[]|e1] w1] eqn:Hmk; [|discriminate].
  assert (Hsrc : driver_page_source d w2 = (Raise e, w2)).
  { unfold driver_page_source, bind, current_page, call. rewrite Hpage2.
    destruct Hsource as [[-> ->]|(pg & -> & ->)]; reflexivity. }
  unfold try_except. rewrite (bind_Ok _ _ _ _ _ Hmk), (bind_Ok _ _ _ _ _ Hopen).
  rewrite (bind_Raise _ _ _ _ _ Hsrc). unfold logger_warning, log.
  eexists. split; [reflexivity|]. cbn [files logs].
  rewrite Hfiles, Hlogs. split; reflexivity.
Qed.

End DebugPages.

(** ** The files of a run *)

#[local] Instance files_within_preorder (ok : list path) : PreOrder (files_within ok).
Proof.
  split.
  - intros w p. left. reflexivity.
  - intros a b c Hab Hbc p.
    destruct (Hbc p) as [Hcb|Hc]; [|right; exact Hc].
    destruct (Hab p) as [Hba|[Hin Hb]].
    + left. congruence.
    + right. split; [exact Hin|]. rewrite Hcb. exact Hb.
Qed.

Lemma files_same_within (ok : list path) (w w' : State) :
  files w' = files w -> files_within ok w w'.
Proof. intros Heq p. left. rewrite Heq. reflexivity. Qed.

Lemma only_logs_files_within (ok : list path) (w w' : State) :
  only_logs w w' -> files_within ok w w'.
Proof. intros [l ->]. apply files_same_within. reflexivity. Qed.


#[local] Hint Resolve only_logs_files_within : footprint.

Section FilePrimitives.
Context (ok : list path).

Lemma set_page_files (pg : option Page) : respects (files_within ok) (set_page pg).
Proof. intros w. apply files_same_within. reflexivity. Qed.

Lemma current_page_files : respects (files_within ok) current_page.
Proof.
  intros w. apply files_same_within. unfold current_page. destruct (page w); reflexivity.
Qed.

Lemma read_driver_files : respects (files_within ok) read_driver.
Proof. intros w. apply files_same_within. reflexivity. Qed.

Lemma assign_driver_files (v : option nat) : respects (files_within ok) (assign_driver v).
Proof. intros w. apply files_same_within. reflexivity. Qed.

Lemma webdriver_Chrome_files (env : Env) : respects (files_within ok) (webdriver_Chrome env).
Proof.
  intros w. apply files_same_within. unfold webdriver_Chrome.
  destruct (chrome env); reflexivity.
Qed.

Lemma driver_quit_files (d : nat) : respects (files_within ok) (driver_quit d).
Proof. intros w. apply files_same_within. reflexivity. Qed.

Lemma mkdir_files (p : path) : respects (files_within ok) (mkdir p).
Proof.
  intros w. apply files_same_within. unfold mkdir.
  destruct (is_dir w p); [reflexivity|].
  destruct (is_file w p); [reflexivity|].
  destruct (is_dir w (parent p)); reflexivity.
Qed.

Lemma mkdir_each_files (ps : list path) : respects (files_within ok) (mkdir_each ps).
Proof.
  induction ps as [|p ps IH]; cbn [mkdir_each].
  - apply respects_ret. typeclasses eauto.
  - apply respects_bind; [typeclasses eauto|apply mkdir_files|intros _; exact IH].
Qed.

Lemma f_write_files (p : path) (s : str) :
  In p ok -> respects (files_within ok) (f_write p s).
Proof.
  intros Hp w q. unfold f_write. cbn [snd files].
  destruct (decide (q = p)) as [->|Hne].
  - right. split; [exact Hp|]. rewrite lookup_insert_eq. eexists. reflexivity.
  - left. apply lookup_insert_ne. congruence.
Qed.

Lemma write_file_files (p : path) (s : str) :
  In p ok -> respects (files_within ok) (write_file p s).
Proof.
  intros Hp w. unfold write_file.
  destruct (is_dir w p); [reflexivity|].
  destruct (is_dir w (parent p)); [|reflexivity].
  exact (f_write_files p s Hp w).
Qed.

Lemma open_w_files (p : path) : In p ok -> respects (files_within ok) (open_w p).
Proof. intros Hp. apply write_file_files, Hp. Qed.

End FilePrimitives.

#[local] Hint Resolve set_page_files current_page_files read_driver_files
  assign_driver_files webdriver_Chrome_files driver_quit_files mkdir_files
  mkdir_each_files : footprint.

Section DriverFiles.
Context (ok : list path).

Lemma driver_get_files (env : Env) (d : nat) (url : str) :
  respects (files_within ok) (driver_get env d url).
Proof. unfold driver_get. footprint. Qed.

Lemma driver_page_source_files (d : nat) :
  respects (files_within ok) (driver_page_source d).
Proof. unfold driver_page_source. footprint. Qed.

Lemma wait_clickable_files (d : nat) (b : By) (value : str) :
  respects (files_within ok) (wait_clickable d b value).
Proof. unfold wait_clickable. footprint. Qed.

Lemma wait_present_files (d : nat) (b : By) (value : str) :
  respects (files_within ok) (wait_present d b value).
Proof. unfold wait_present. footprint. Qed.

Lemma element_click_files (el : WebElement) :
  respects (files_within ok) (element_click el).
Proof. unfold element_click. footprint. Qed.

End DriverFiles.

#[local] Hint Resolve driver_get_files driver_page_source_files wait_clickable_files
  wait_present_files element_click_files : footprint.

Section CrawlFiles.
Context `{UnicodeDB} (env : Env) (year month set_count : Z).

Lemma debug_save_files (ok : list path) (d : nat) (filename : str) :
  In (debug_path filename) ok ->
  respects (files_within ok) (_debug_save_page_source env d filename).
Proof.
  intros Hp. unfold _debug_save_page_source. cbv zeta.
  change ([u "debug_pages"] ++ [filename]) with (debug_path filename).
  footprint.
  - apply open_w_files, Hp.
  - apply f_write_files, Hp.
Qed.

Lemma click_read_button_files (ok : list path) (d : nat) :
  respects (files_within ok) (click_read_button d).
Proof. unfold click_read_button. footprint. Qed.

Lemma extract_paper_files (ok : list path) (d : nat) :
  respects (files_within ok) (extract_paper d year month set_count).
Proof.
  unfold extract_paper, _extract_writing, _extract_section_a, _extract_section_b,
    _extract_section_c. footprint.
Qed.

(** Up to the document a run writes debug pages only. *)
Lemma assemble_files :
  respects (files_within (debug_files year month set_count))
    (assemble env year month set_count).
Proof.
  unfold assemble, open_page. footprint.
  - apply debug_save_files. left. reflexivity.
  - apply click_read_button_files.
  - apply debug_save_files. right. left. reflexivity.
  - apply extract_paper_files.
Qed.

Lemma crawl_except_files (e : exn) :
  respects (files_within (debug_files year month set_count))
    (crawl_except env year month set_count e).
Proof.
  unfold crawl_except. footprint.
  apply debug_save_files. right. right. left. reflexivity.
Qed.





End CrawlFiles.

(** ** How a run ends *)

Lemma files_within_outside (ok : list path) (w w' : State) (p : path) :
  files_within ok w w' -> ~ In p ok -> files w' !! p = files w !! p.
Proof. intros Hw Hp. destruct (Hw p) as [Heq|[Hin _]]; [exact Heq|contradiction]. Qed.

Lemma files_within_nil (w w' : State) : files_within [] w w' -> files w' = files w.
Proof.
  intros Hw. apply map_eq. intros p. apply (files_within_outside [] w w' p Hw).
  intros [].
Qed.

Lemma save_path_not_debug (year month set_count : Z) :
  ~ In (save_path year month set_count) (debug_files year month set_count).
Proof. intros [Heq|[Heq|[Heq|[]]]]; discriminate Heq. Qed.

Lemma save_paper_Raise_inv (year month set_count : Z) (paper : str) (w w' : State)
    (e : exn) :
  save_paper year month set_count paper w = (Raise e, w') -> files w' = files w.
Proof.
  unfold save_paper, bind.
  pose proof (mkdir_each_files [] (ancestors [] (save_dir year month)) w) as Hmk.
  unfold mkdir_parents.
  destruct (mkdir_each (ancestors [] (save_dir year month)) w) as [[[]|e1] w1];
    cbn [snd] in Hmk; apply files_within_nil in Hmk.
  - unfold open_w, write_file.
    destruct (is_dir w1 (save_path year month set_count)); [intros [= _ <-]; exact Hmk|].
    destruct (is_dir w1 (parent (save_path year month set_count)));
      [discriminate|intros [= _ <-]; exact Hmk].
  - intros [= _ <-]. exact Hmk.
Qed.

Section Outcome.
Context `{UnicodeDB} (env : Env) (year month set_count : Z).

Lemma crawl_except_run (e : exn) (w : State) :
  exists w1,
    crawl_except env year month set_count e w = (Ok (u "❌ 爬取失败：" ++ exn_msg e), w1).
Proof.
  unfold crawl_except, logger_error.
  rewrite (bind_Ok _ _ _ _ _ (log_run _ _ _)).
  unfold bind at 1, read_driver. cbv beta iota.
  destruct (driver (add_logs w [(ERROR, error_details env e)])) as [d|].
  - destruct (debug_save_run env d (debug_name (u "error_page_") year month set_count)
                (add_logs w [(ERROR, error_details env e)])) as (w1 & Hrun & _).
    rewrite (bind_Ok _ _ _ _ _ Hrun). eexists. reflexivity.
  - eexists. reflexivity.
Qed.

(** X10. A run whose [try] suite raises returns the failure line with
    the message of the exception and leaves the paper at [save_path] as
    it was: every step that can raise comes before the file is opened
    or is the opening itself ([f.write] is taken not to fail), and the
    error page goes elsewhere. A paper saved by an earlier run is
    neither emptied nor removed. *)
Theorem failed_run_keeps_paper (w w1 : State) (e : exn) :
  crawl_try env year month set_count (snd (assign_driver None w)) = (Raise e, w1) ->
  exists w',
    crawl_single_paper env year month set_count w
    = (Ok (u "❌ 爬取失败：" ++ exn_msg e), w')
    /\ files w' !! save_path year month set_count
       = files w !! save_path year month set_count.
Proof.
  intros Htry.
  destruct (crawl_except_run e w1) as [w2 Hexcept].
  destruct (crawl_finally_run w2) as (w' & Hfin & Hfiles & _).
  exists w'. split.
  - unfold crawl_single_paper.
    rewrite (bind_Ok _ _ w (snd (assign_driver None w)) tt eq_refl).
    unfold try_finally. rewrite (try_except_Raise _ _ _ _ _ Htry), Hexcept, Hfin.
    reflexivity.
  - rewrite Hfiles.
    pose proof (crawl_except_files env year month set_count e w1) as He.
    rewrite Hexcept in He. cbn [snd] in He.
    rewrite (files_within_outside _ _ _ _ He (save_path_not_debug _ _ _)).
    change (files w) with (files (snd (assign_driver None w))).
    pose proof (assemble_files env year month set_count (snd (assign_driver None w)))
      as Ha.
    unfold crawl_try, bind at 1 in Htry.
    destruct (assemble env year month set_count (snd (assign_driver None w)))
      as [[paper|e1] wp]; cbn [snd] in Ha.
    + unfold bind at 1 in Htry.
      destruct (save_paper year month set_count paper wp) as [[[]|e2] ws] eqn:Hsave.
      * unfold logger_info in Htry. rewrite (bind_Ok _ _ _ _ _ (log_run _ _ _)) in Htry.
        discriminate Htry.
      * injection Htry as _ <-. apply save_paper_Raise_inv in Hsave. rewrite Hsave.
        apply (files_within_outside _ _ _ _ Ha (save_path_not_debug _ _ _)).
    + injection Htry as _ <-.
      apply (files_within_outside _ _ _ _ Ha (save_path_not_debug _ _ _)).
Qed.

Lemma ancestor_not_debug (q : path) :
  In q (ancestors [] (save_dir year month)) ->
  ~ In q (debug_files year month set_count).
Proof.
  cbn [ancestors save_dir app In].
  intros [<-|[<-|[]]] [Heq|[Heq|[Heq|[]]]]; try discriminate Heq;
    unfold debug_path in Heq; injection Heq as Heq _; vm_compute in Heq;
    discriminate Heq.
Qed.

(** The directories of [save_dir] are made where none of them is
    barred by a file. *)
Lemma mkdir_parents_available (w : State) :
  (forall q, In q (ancestors [] (save_dir year month)) ->
             q ∈ dirs w \/ files w !! q = None) ->
  save_path year month set_count ∉ dirs w ->
  exists w1,
    mkdir_parents (save_dir year month) w = (Ok tt, w1)
    /\ dirs_ready year month set_count w1.
Proof.
  intros Hfree Hpath. unfold mkdir_parents.
  cbn [ancestors save_dir app mkdir_each] in *.
  destruct (mkdir_available [u "CET4真题_通用爬取"] w) as
    (w1 & Hmk1 & Hd1 & Hsub1 & Hnew1 & Hfiles1 & _);
    [apply Hfree; left; reflexivity|reflexivity|].
  destruct (mkdir_available
              [u "CET4真题_通用爬取"; str_of_int year ++ u "年" ++ str_of_int month ++ u "月"]
              w1) as (w2 & Hmk2 & Hd2 & Hsub2 & Hnew2 & _);
    [|exact Hd1|].
  { destruct (Hfree [u "CET4真题_通用爬取";
                     str_of_int year ++ u "年" ++ str_of_int month ++ u "月"])
      as [Hin|Hnone]; [right; left; reflexivity| |].
    - left. apply Hsub1, Hin.
    - right. rewrite Hfiles1. exact Hnone. }
  exists w2. split.
  - rewrite (bind_Ok _ _ _ _ _ Hmk1), (bind_Ok _ _ _ _ _ Hmk2). reflexivity.
  - split.
    + intros q [<-|[<-|[]]].
      * apply Hsub2. apply is_dir_true in Hd1 as [Hd1|Hd1]; [discriminate|exact Hd1].
      * apply is_dir_true in Hd2 as [Hd2|Hd2]; [discriminate|exact Hd2].
    + intros Hin. apply Hnew2 in Hin. apply elem_of_union in Hin as [Hin|Hin].
      * apply Hnew1 in Hin. apply elem_of_union in Hin as [Hin|Hin].
        -- exact (Hpath Hin).
        -- apply elem_of_singleton in Hin. discriminate Hin.
      * apply elem_of_singleton in Hin. discriminate Hin.
Qed.

(** X11. A run that gets as far as its document saves it and reports
    success, provided no regular file stands where the two directories
    of [save_dir] are to be and no directory stands at [save_path]:
    the directories are made where they are missing, and the file then
    holds that document. *)
Theorem run_saves_document (w wp : State) (paper : str) :
  assemble env year month set_count (snd (assign_driver None w)) = (Ok paper, wp) ->
  (forall q, In q (ancestors [] (save_dir year month)) ->
             q ∈ dirs w \/ files w !! q = None) ->
  save_path year month set_count ∉ dirs w ->
  exists w',
    crawl_single_paper env year month set_count w
    = (Ok (success_msg env year month set_count paper), w')
    /\ files w' !! save_path year month set_count = Some paper
    /\ save_dir year month ∈ dirs w'.
Proof.
  intros Hdoc Hfree Hpath.
  pose proof (assemble_files env year month set_count (snd (assign_driver None w)))
    as Hfiles.
  pose proof (assemble_anything year month set_count env (snd (assign_driver None w)))
    as Hany.
  rewrite Hdoc in Hfiles, Hany. cbn [snd] in Hfiles, Hany.
  apply anything_dirs_within in Hany. destruct Hany as [Hsub Hnew].
  destruct (mkdir_parents_available wp) as (w1 & Hmk & Hready).
  { intros q Hq. destruct (Hfree q Hq) as [Hin|Hnone].
    - left. apply Hsub, Hin.
    - right. rewrite (files_within_outside _ _ _ _ Hfiles (ancestor_not_debug q Hq)).
      exact Hnone. }
  { intros Hin. apply Hnew in Hin. apply elem_of_union in Hin as [Hin|Hin].
    - exact (Hpath Hin).
    - exact (save_path_not_allowed _ _ _ Hin). }
  destruct (save_paper_ready year month set_count paper w1 Hready)
    as (w2 & Hsave1 & Hfile).
  assert (Hsave : save_paper year month set_count paper wp = (Ok tt, w2)).
  { unfold save_paper in *. rewrite (bind_Ok _ _ _ _ _ Hmk).
    unfold mkdir_parents in Hsave1.
    rewrite (bind_Ok _ _ _ _ _ (mkdir_each_existing _ w1 (proj1 Hready))) in Hsave1.
    exact Hsave1. }
  pose proof (save_paper_dirs_ready _ _ _ _ _ _ _ Hsave) as [Hanc _].
  destruct (crawl_finally_run
              (add_logs w2 [(INFO, success_msg env year month set_count paper)]))
    as (w' & Hfin & Hfiles' & Hdirs').
  exists w'. split; [|split].
  - unfold crawl_single_paper.
    rewrite (bind_Ok _ _ w (snd (assign_driver None w)) tt eq_refl).
    unfold try_finally.
    erewrite try_except_Ok.
    2:{ unfold crawl_try. rewrite (bind_Ok _ _ _ _ _ Hdoc).
        rewrite (bind_Ok _ _ _ _ _ Hsave). unfold logger_info.
        rewrite (bind_Ok _ _ _ _ _ (log_run _ _ _)). reflexivity. }
    rewrite Hfin. reflexivity.
  - rewrite Hfiles'. exact Hfile.
  - rewrite Hdirs'. apply Hanc, save_dir_ancestor.
Qed.

(** X12. Where the browser does not start, the run returns the failure
    line with the message of that exception, and nothing but the log
    has changed: no directory is made and no file written, not even a
    debug page, there being no session to take it from. *)
Theorem crawl_without_browser (w : State) (e : exn) :
  chrome env = Raise e ->
  exists l,
    crawl_single_paper env year month set_count w
    = (Ok (u "❌ 爬取失败：" ++ exn_msg e), add_logs (snd (assign_driver None w)) l).
Proof.
  intros Hchrome. unfold crawl_single_paper.
  rewrite (bind_Ok _ _ w (snd (assign_driver None w)) tt eq_refl).
  assert (Hdriver : driver (snd (assign_driver None w)) = None) by reflexivity.
  generalize dependent (snd (assign_driver None w)). intros w0 Hdriver.
  assert (Htry : exists l, crawl_try env year month set_count w0
                           = (Raise e, add_logs w0 l)).
  { unfold crawl_try, assemble, open_page, logger_info.
    do 2 apply bind_raises_logs.
    eapply bind_then_raises_logs; [apply log_logs|]. intros w1.
    eapply bind_then_raises_logs; [apply log_logs|]. intros w2.
    eapply bind_then_raises_logs; [eexists; apply generate_url_run|]. intros w3.
    eapply bind_then_raises_logs; [apply log_logs|]. intros w4.
    eapply bind_then_raises_logs; [apply log_logs|]. intros w5.
    apply bind_raises_logs. exists []. rewrite add_logs_nil.
    unfold webdriver_Chrome. rewrite Hchrome. reflexivity. }
  destruct Htry as [l Htry].
  unfold try_finally. rewrite (try_except_Raise _ _ _ _ _ Htry).
  unfold crawl_except, logger_error. rewrite (bind_Ok _ _ _ _ _ (log_run _ _ _)).
  unfold bind at 1, read_driver. cbv beta iota.
  rewrite add_logs_add_logs.
  assert (Hd : driver (add_logs w0 (l ++ [(ERROR, error_details env e)])) = None)
    by exact Hdriver.
  rewrite Hd. unfold bind at 1, ret at 1. unfold ret at 1.
  unfold crawl_finally, bind, read_driver. rewrite Hd. unfold ret.
  eexists. reflexivity.
Qed.

End Outcome.

Lemma debug_save_writes_page_witness :
  exists w',
    _debug_save_page_source Sample.env_ok 1 (u "initial_page_2020_12_1.html")
      Session.shown = (Ok tt, w')
    /\ files w' = <[debug_path (u "initial_page_2020_12_1.html") := u "<html></html>"]>
                    (files Session.shown)
    /\ [u "debug_pages"] ∈ dirs w'
    /\ logs w' = logs Session.shown
                   ++ [(INFO, u "✅ 页面源代码已保存: "
                              ++ path_str Sample.env_ok
                                   (debug_path (u "initial_page_2020_12_1.html")))].
Proof.
  apply (debug_save_writes_page Sample.env_ok 1 (u "initial_page_2020_12_1.html")
           Session.shown Sample.landing_page (u "<html></html>")).
  - reflexivity.
  - reflexivity.
  - right. reflexivity.
  - apply not_elem_of_empty.
Defined.

Lemma debug_save_source_unavailable_witness :
  exists w',
    _debug_save_page_source Sample.env_ok 1 (u "error_page_2020_12_1.html")
      Session.stuck = (Ok tt, w')
    /\ files w' = <[debug_path (u "error_page_2020_12_1.html") := []]>
                    (files Session.stuck)
    /\ logs w' = logs Session.stuck
                   ++ [(WARNING, u "保存页面源代码失败: " ++ exn_msg Session.crashed)].
Proof.
  apply (debug_save_source_unavailable Sample.env_ok 1 (u "error_page_2020_12_1.html")
           Session.stuck Session.crashed).
  - right. exists Session.crashed_page. split; reflexivity.
  - right. reflexivity.
  - apply not_elem_of_empty.
Defined.

Lemma failed_run_keeps_paper_witness :
  exists w',
    @crawl_single_paper ascii_db Sample.env_no_container 2020 12 1 Sample.state_after_ok
    = (Ok (u "❌ 爬取失败：" ++ exn_msg Sample.timeout), w')
    /\ files w' !! save_path 2020 12 1
       = files Sample.state_after_ok !! save_path 2020 12 1.
Proof.
  assert (Hfst : fst (@crawl_try ascii_db Sample.env_no_container 2020 12 1
                        (snd (assign_driver None Sample.state_after_ok)))
                 = Raise Sample.timeout) by (vm_compute; reflexivity).
  destruct (@crawl_try ascii_db Sample.env_no_container 2020 12 1
              (snd (assign_driver None Sample.state_after_ok))) as [r w1] eqn:Htry.
  cbn [fst] in Hfst. subst r.
  exact (@failed_run_keeps_paper ascii_db Sample.env_no_container 2020 12 1
           Sample.state_after_ok w1 Sample.timeout Htry).
Defined.

Example failed_run_paper_still_there :
  files (snd (@crawl_single_paper ascii_db Sample.env_no_container 2020 12 1
                Sample.state_after_ok)) !! save_path 2020 12 1
  = Some Sample.paper_ok.
Proof. vm_compute. reflexivity. Qed.

Lemma run_saves_document_witness :
  exists w',
    @crawl_single_paper ascii_db Sample.env_ok 2020 12 1 Sample.w0
    = (Ok (success_msg Sample.env_ok 2020 12 1 Sample.paper_ok), w')
    /\ files w' !! save_path 2020 12 1 = Some Sample.paper_ok
    /\ save_dir 2020 12 ∈ dirs w'.
Proof.
  assert (Hfst : fst (@assemble ascii_db Sample.env_ok 2020 12 1
                        (snd (assign_driver None Sample.w0)))
                 = Ok Sample.paper_ok) by (vm_compute; reflexivity).
  destruct (@assemble ascii_db Sample.env_ok 2020 12 1
              (snd (assign_driver None Sample.w0))) as [r wp] eqn:Hdoc.
  cbn [fst] in Hfst. subst r.
  apply (@run_saves_document ascii_db Sample.env_ok 2020 12 1 Sample.w0 wp
           Sample.paper_ok Hdoc).
  - intros q _. right. reflexivity.
  - apply not_elem_of_empty.
Defined.

Lemma crawl_without_browser_witness :
  exists l,
    @crawl_single_paper ascii_db Sample.env_no_chrome 2020 12 1 Sample.w0
    = (Ok (u "❌ 爬取失败：" ++ exn_msg Sample.session_not_created),
       add_logs (snd (assign_driver None Sample.w0)) l).
Proof.
  apply (@crawl_without_browser ascii_db Sample.env_no_chrome 2020 12 1 Sample.w0
           Sample.session_not_created).
  reflexivity.
Defined.

(** ** Names that tell the papers apart *)

Lemma bytes_inj (s t : string) : Utf8.bytes s = Utf8.bytes t -> s = t.
Proof.
  unfold Utf8.bytes. intros Heq.
  rewrite <- (string_of_list_ascii_of_string s), <- (string_of_list_ascii_of_string t).
  f_equal. revert Heq.
  generalize (list_ascii_of_string s) (list_ascii_of_string t).
  intros a. induction a as [|x a IH]; intros [|y b] Heq; try discriminate Heq.
  - reflexivity.
  - cbn [map] in Heq. injection Heq as Hxy Heq.
    rewrite (IH b Heq). f_equal.
    rewrite <- (ascii_N_embedding x), <- (ascii_N_embedding y), Hxy. reflexivity.
Qed.

Lemma to_int_not_nil (n : Z) : Z.to_int n <> Decimal.Pos Decimal.Nil
                              /\ Z.to_int n <> Decimal.Neg Decimal.Nil.
Proof.
  destruct n as [|p|p]; cbn; split; try discriminate;
    intros [= Hp]; exact (Unsigned.to_uint_nonnil p Hp).
Qed.

Lemma str_of_int_inj (n n' : Z) : str_of_int n = str_of_int n' -> n = n'.
Proof.
  unfold str_of_int. intros Heq. apply bytes_inj in Heq.
  apply DecimalZ.to_int_inj.
  destruct (to_int_not_nil n) as [Hp Hn], (to_int_not_nil n') as [Hp' Hn'].
  pose proof (NilZero.isi _ Hp Hn) as Hi. rewrite Heq, (NilZero.isi _ Hp' Hn') in Hi.
  congruence.
Qed.

(** Two texts that go on alike after a number and a mark that is no
    digit and no minus sign begin with the same number. *)
Lemma delimited_inj (a b x y : str) (c : char) :
  forallb numeric a = true -> forallb numeric b = true -> numeric c = false ->
  a ++ c :: x = b ++ c :: y -> a = b /\ x = y.
Proof.
  intros Ha Hb Hc. revert b Hb.
  induction a as [|d a IH]; intros [|d' b] Hb Heq; cbn [app] in Heq.
  - injection Heq as Heq. split; [reflexivity|exact Heq].
  - injection Heq as Hd _. cbn [forallb] in Hb. apply andb_prop in Hb as [Hd' _].
    congruence.
  - injection Heq as Hd _. cbn [forallb] in Ha. apply andb_prop in Ha as [Hd' _].
    congruence.
  - injection Heq as Hd Heq. cbn [forallb] in Ha, Hb.
    apply andb_prop in Ha as [_ Ha]. apply andb_prop in Hb as [_ Hb].
    destruct (IH Ha b Hb Heq) as [-> ->]. subst d'. split; reflexivity.
Qed.

Lemma str_of_int_delimited (n n' : Z) (x y : str) (c : char) :
  numeric c = false ->
  str_of_int n ++ c :: x = str_of_int n' ++ c :: y -> n = n' /\ x = y.
Proof.
  intros Hc Heq.
  destruct (delimited_inj _ _ _ _ c (str_of_int_numeric n) (str_of_int_numeric n')
              Hc Heq) as [Hn Hx].
  split; [apply str_of_int_inj, Hn|exact Hx].
Qed.

(** X13. The file of a paper tells the papers apart: two runs write to
    the same path only if they are for the same year, month and set
    index, so no paper overwrites another. *)
Theorem save_path_injective (year month set_count year' month' set_count' : Z) :
  save_path year month set_count = save_path year' month' set_count'
  <-> year = year' /\ month = month' /\ set_count = set_count'.
Proof.
  split; [|intros (-> & -> & ->); reflexivity].
  unfold save_path, save_dir. cbn [app]. intros Heq.
  assert (Hdir := f_equal (fun p : path => nth 1 p []) Heq).
  assert (Hfile := f_equal (fun p : path => nth 2 p []) Heq).
  cbn [nth] in Hdir, Hfile. clear Heq.
  change (u "年") with [24180] in Hdir, Hfile.
  change (u "月") with [26376] in Hdir.
  change (u "月-第") with [26376; 45; 31532] in Hfile.
  change (u "套.txt") with (22871 :: u ".txt") in Hfile.
  cbn [app] in Hdir, Hfile.
  apply str_of_int_delimited in Hdir as [-> Hdir]; [|reflexivity].
  apply str_of_int_delimited in Hdir as [-> _]; [|reflexivity].
  apply str_of_int_delimited in Hfile as [_ Hfile]; [|reflexivity].
  apply str_of_int_delimited in Hfile as [_ Hfile]; [|reflexivity].
  injection Hfile as Hfile.
  apply str_of_int_delimited in Hfile as [-> _]; [|reflexivity].
  repeat split.
Qed.


(** ** From the page to the document *)

Lemma returns_same {A} (m : M A) :
  never_raises m -> respects only_logs m -> stateless m ->
  exists a, forall w, exists l, m w = (Ok a, add_logs w l).
Proof.
  intros Hn Hr Hs. destruct (Hn Sample.w0) as [a Ha]. exists a. intros w.
  destruct (returns_within_log m Hn Hr w) as (b & l & Hrun). exists l.
  rewrite Hrun. f_equal. f_equal.
  specialize (Hs w Sample.w0). rewrite Hrun, Ha in Hs. cbn [fst] in Hs. congruence.
Qed.

Lemma click_read_button_page (d : nat) (w : State) (pg : Page) :
  page w = Some pg ->
  exists w', click_read_button d w = (Ok tt, w') /\ page w' = Some (revealed pg).
Proof.
  intros Hpage.
  assert (Hwait : wait_clickable d XPATH xp_read_button w
                  = (until_clickable pg XPATH xp_read_button, w)).
  { unfold wait_clickable, bind, current_page, call. rewrite Hpage. reflexivity. }
  unfold click_read_button, revealed, try_except.
  destruct (until_clickable pg XPATH xp_read_button) as [btn|e].
  - rewrite (bind_Ok _ _ _ _ _ Hwait).
    destruct (click btn) as [pg'|e] eqn:Hclick.
    + assert (He : element_click btn w = (Ok tt, snd (set_page (Some pg') w))).
      { unfold element_click, bind, call. rewrite Hclick. reflexivity. }
      rewrite (bind_Ok _ _ _ _ _ He). unfold logger_info.
      rewrite (bind_Ok _ _ _ _ _ (log_run _ _ _)).
      eexists. split; reflexivity.
    + assert (He : element_click btn w = (Raise e, w)).
      { unfold element_click, bind, call. rewrite Hclick. reflexivity. }
      rewrite (bind_Raise _ _ _ _ _ He). unfold logger_warning. rewrite log_run.
      eexists. split; [reflexivity|exact Hpage].
  - rewrite (bind_Raise _ _ _ _ _ Hwait). unfold logger_warning. rewrite log_run.
    eexists. split; [reflexivity|exact Hpage].
Qed.

Section FromPage.
Context `{UnicodeDB}.

Lemma process_fill_blank_stateless (element : WebElement) :
  stateless (_process_fill_blank element).
Proof. unfold _process_fill_blank. stateless. Qed.

Lemma extract_module_stateless (container : WebElement) (module_name : str) :
  stateless (_extract_module container module_name).
Proof.
  unfold _extract_module, extract_module_try, extract_module_except. stateless;
    first [apply process_fill_blank_stateless
          |apply extract_paragraph_container_stateless].
Qed.

Lemma extract_module_same (container : WebElement) (module_name : str) :
  exists out, forall w, exists l,
    _extract_module container module_name w = (Ok out, add_logs w l).
Proof.
  apply returns_same.
  - apply extract_module_never_raises.
  - apply extract_module_only_logs.
  - apply extract_module_stateless.
Qed.

Context (env : Env) (year month set_count : Z).

(** X15. Where the browser starts, the page loads and the content
    container is present on the page the extraction works on, which is
    the page after the click or, failing that, the page loaded, the run
    arrives at its document: the header and the four modules and the
    sweep as the extractors return them for that container, whatever
    the state they run in. *)
Theorem assemble_document (w : State) (blank pg : Page) (root : WebElement) :
  chrome env = Ok blank ->
  get env (address year month set_count) = Ok pg ->
  until_present (revealed pg) XPATH xp_full_container = Ok root ->
  exists sweep writing section_a section_b section_c wp,
    (forall w1, fst (_extract_paragraph_container root (u "附加段落内容") w1) = Ok sweep)
    /\ (forall w1, fst (_extract_module root (u "Part I Writing") w1) = Ok writing)
    /\ (forall w1, fst (_extract_module root (u "Section A") w1) = Ok section_a)
    /\ (forall w1, fst (_extract_module root (u "Section B") w1) = Ok section_b)
    /\ (forall w1, fst (_extract_module root (u "Section C") w1) = Ok section_c)
    /\ assemble env year month set_count w
       = (Ok (full_paper year month set_count writing section_a section_b section_c
                sweep), wp).
Proof.
  intros Hchrome Hget Hroot.
  destruct (returns_same (_extract_paragraph_container root (u "附加段落内容"))
              (extract_paragraph_container_never_raises _ _)
              (extract_paragraph_container_only_logs _ _)
              (extract_paragraph_container_stateless _ _)) as [sweep Hsweep].
  destruct (extract_module_same root (u "Part I Writing")) as [writing Hwriting].
  destruct (extract_module_same root (u "Section A")) as [section_a Ha].
  destruct (extract_module_same root (u "Section B")) as [section_b Hb].
  destruct (extract_module_same root (u "Section C")) as [section_c Hc].
  assert (Hfst : forall A (m : M A) (a : A),
             (forall w1, exists l, m w1 = (Ok a, add_logs w1 l)) ->
             forall w1, fst (m w1) = Ok a).
  { intros A m a Hm w1. destruct (Hm w1) as [l Hl]. rewrite Hl. reflexivity. }
  assert (Hextract : forall d w1,
             page w1 = Some (revealed pg) ->
             exists w2,
               extract_paper d year month set_count w1
               = (Ok (full_paper year month set_count writing section_a section_b
                        section_c sweep), w2)).
  { intros d w1 Hpage.
    unfold extract_paper, logger_info, _extract_writing, _extract_section_a,
      _extract_section_b, _extract_section_c.
    rewrite (bind_Ok _ _ _ _ _ (log_run _ _ _)).
    assert (Hwait : wait_present d XPATH xp_full_container
                      (add_logs w1 [(INFO, u "定位内容容器...")])
                    = (Ok root, add_logs w1 [(INFO, u "定位内容容器...")])).
    { unfold wait_present, bind, current_page, call.
      change (page (add_logs w1 [(INFO, u "定位内容容器...")])) with (page w1).
      rewrite Hpage, Hroot. reflexivity. }
    rewrite (bind_Ok _ _ _ _ _ Hwait).
    generalize (add_logs w1 [(INFO, u "定位内容容器...")]). intros w2.
    enough (exists l,
               (log INFO (u "✅ 内容容器定位成功") ;;
                log INFO (u "开始提取额外的段落容器...") ;;
                let* additional_paragraphs :=
                  _extract_paragraph_container root (u "附加段落内容") in
                log INFO (u "开始提取各模块内容...") ;;
                let* writing := _extract_module root (u "Part I Writing") in
                let* section_a := _extract_module root (u "Section A") in
                let* section_b := _extract_module root (u "Section B") in
                let* section_c := _extract_module root (u "Section C") in
                ret (full_paper year month set_count writing section_a section_b
                       section_c additional_paragraphs)) w2
               = (Ok (full_paper year month set_count writing section_a section_b
                        section_c sweep), add_logs w2 l)) as [l Hl]
      by (eexists; exact Hl).
    eapply bind_logs; [apply log_logs|]. intros w3.
    eapply bind_logs; [apply log_logs|]. intros w4.
    eapply bind_logs; [apply Hsweep|]. intros w5.
    eapply bind_logs; [apply log_logs|]. intros w6.
    eapply bind_logs; [apply Hwriting|]. intros w7.
    eapply bind_logs; [apply Ha|]. intros w8.
    eapply bind_logs; [apply Hb|]. intros w9.
    eapply bind_logs; [apply Hc|]. intros w10.
    apply ret_logs. }
  destruct (open_page_loads env year month set_count w blank pg Hchrome Hget)
    as (w1 & Hopen & Hpage1).
  destruct (click_read_button_page (S (launched w))
              (add_logs w1 [(INFO, u "查找并点击阅读按钮...")]) pg Hpage1)
    as (w2 & Hclick & Hpage2).
  destruct (debug_save_run env (S (launched w))
              (debug_name (u "after_click_") year month set_count) w2)
    as (w3 & Hsave & Hpage3).
  destruct (Hextract (S (launched w)) w3) as [wp Hpaper].
  { rewrite Hpage3. exact Hpage2. }
  exists sweep, writing, section_a, section_b, section_c, wp.
  repeat (split; [apply Hfst; assumption|]).
  unfold assemble. rewrite (bind_Ok _ _ _ _ _ Hopen). unfold logger_info.
  rewrite (bind_Ok _ _ _ _ _ (log_run _ _ _)).
  rewrite (bind_Ok _ _ _ _ _ Hclick), (bind_Ok _ _ _ _ _ Hsave). exact Hpaper.
Qed.

End FromPage.

Lemma assemble_document_witness :
  exists sweep writing section_a section_b section_c wp,
    (forall w1, fst (_extract_paragraph_container Sample.exam_root (u "附加段落内容") w1)
                = Ok sweep)
    /\ (forall w1, fst (@_extract_module ascii_db Sample.exam_root (u "Part I Writing") w1)
                   = Ok writing)
    /\ (forall w1, fst (@_extract_module ascii_db Sample.exam_root (u "Section A") w1)
                   = Ok section_a)
    /\ (forall w1, fst (@_extract_module ascii_db Sample.exam_root (u "Section B") w1)
                   = Ok section_b)
    /\ (forall w1, fst (@_extract_module ascii_db Sample.exam_root (u "Section C") w1)
                   = Ok section_c)
    /\ @assemble ascii_db Sample.env_ok 2020 12 1 Sample.w0
       = (Ok (full_paper 2020 12 1 writing section_a section_b section_c sweep), wp).
Proof.
  apply (@assemble_document ascii_db Sample.env_ok 2020 12 1 Sample.w0
           Sample.blank_page Sample.landing_page Sample.exam_root).
  - reflexivity.
  - reflexivity.
  - vm_compute. reflexivity.
Defined.
